(** * Robokassa payment wrapper: signature, payment URL and notification

    A shallow embedding of [src/payments/robokassa.py] together with the
    library functions it calls ([hashlib.md5], [Decimal.__format__],
    [sorted], [urllib.parse.urlencode], [requests.get]).

    Conventions.
    - A Python [str] is a [string]: the sequence of bytes of its UTF-8
      encoding, so [str.encode()] is the identity.  UTF-8 keeps the order of
      code points, hence comparing two [str] is comparing their bytes.
    - A [dict] is an association list in insertion order, with pairwise
      distinct keys.
    - A 32-bit word is a [Z] in [0, 2^32); every wrap-around is written out. *)

From Stdlib Require Import ZArith NArith List String Ascii Bool Lia.
From Stdlib Require Import Permutation Sorted.
Import ListNotations.

Local Open Scope string_scope.
Local Open Scope Z_scope.

(* ================================================================== *)
(** ** hashlib.md5 (RFC 1321) *)

Module MD5.

Definition word_mod : Z := 2 ^ 32.

Definition add32 (x y : Z) : Z := (x + y) mod word_mod.

Definition not32 (x : Z) : Z := Z.lxor x 0xffffffff.

Definition rotl32 (x n : Z) : Z :=
  Z.lor (Z.shiftl x n mod word_mod) (Z.shiftr x (32 - n)).

(** The four auxiliary functions of section 3.4. *)
Definition F (b c d : Z) : Z := Z.lor (Z.land b c) (Z.land (not32 b) d).
Definition G (b c d : Z) : Z := Z.lor (Z.land b d) (Z.land c (not32 d)).
Definition H (b c d : Z) : Z := Z.lxor (Z.lxor b c) d.
Definition I (b c d : Z) : Z := Z.lxor c (Z.lor b (not32 d)).

(** T[i] = floor(2^32 * abs(sin(i+1))). *)
Definition T : list Z :=
  [ 0xd76aa478; 0xe8c7b756; 0x242070db; 0xc1bdceee;
    0xf57c0faf; 0x4787c62a; 0xa8304613; 0xfd469501;
    0x698098d8; 0x8b44f7af; 0xffff5bb1; 0x895cd7be;
    0x6b901122; 0xfd987193; 0xa679438e; 0x49b40821;
    0xf61e2562; 0xc040b340; 0x265e5a51; 0xe9b6c7aa;
    0xd62f105d; 0x02441453; 0xd8a1e681; 0xe7d3fbc8;
    0x21e1cde6; 0xc33707d6; 0xf4d50d87; 0x455a14ed;
    0xa9e3e905; 0xfcefa3f8; 0x676f02d9; 0x8d2a4c8a;
    0xfffa3942; 0x8771f681; 0x6d9d6122; 0xfde5380c;
    0xa4beea44; 0x4bdecfa9; 0xf6bb4b60; 0xbebfbc70;
    0x289b7ec6; 0xeaa127fa; 0xd4ef3085; 0x04881d05;
    0xd9d4d039; 0xe6db99e5; 0x1fa27cf8; 0xc4ac5665;
    0xf4292244; 0x432aff97; 0xab9423a7; 0xfc93a039;
    0x655b59c3; 0x8f0ccc92; 0xffeff47d; 0x85845dd1;
    0x6fa87e4f; 0xfe2ce6e0; 0xa3014314; 0x4e0811a1;
    0xf7537e82; 0xbd3af235; 0x2ad7d2bb; 0xeb86d391 ].

(** Per-step left rotations. *)
Definition S : list Z :=
  [ 7; 12; 17; 22; 7; 12; 17; 22; 7; 12; 17; 22; 7; 12; 17; 22;
    5;  9; 14; 20; 5;  9; 14; 20; 5;  9; 14; 20; 5;  9; 14; 20;
    4; 11; 16; 23; 4; 11; 16; 23; 4; 11; 16; 23; 4; 11; 16; 23;
    6; 10; 15; 21; 6; 10; 15; 21; 6; 10; 15; 21; 6; 10; 15; 21 ].

Record state : Type := mkState { sA : Z; sB : Z; sC : Z; sD : Z }.

Definition init : state :=
  mkState 0x67452301 0xefcdab89 0x98badcfe 0x10325476.

(** One of the 64 steps on the block [m] of sixteen words. *)
Definition step (m : list Z) (st : state) (i : nat) : state :=
  let '(mkState a b c d) := st in
  let iz := Z.of_nat i in
  let '(f, g) :=
    if iz <? 16 then (F b c d, iz)
    else if iz <? 32 then (G b c d, (5 * iz + 1) mod 16)
    else if iz <? 48 then (H b c d, (3 * iz + 5) mod 16)
    else (I b c d, (7 * iz) mod 16) in
  let f' := add32 (add32 (add32 f a) (nth i T 0)) (nth (Z.to_nat g) m 0) in
  mkState d (add32 b (rotl32 f' (nth i S 0))) b c.

Definition compress (st : state) (m : list Z) : state :=
  let st' := fold_left (step m) (seq 0 64) st in
  mkState (add32 (sA st) (sA st')) (add32 (sB st) (sB st'))
          (add32 (sC st) (sC st')) (add32 (sD st) (sD st')).

(** Little-endian bytes of a number, and back. *)
Fixpoint le_bytes (n : nat) (x : Z) : list Z :=
  match n with
  | O => []
  | Datatypes.S n' => (x mod 256) :: le_bytes n' (x / 256)
  end.

Fixpoint words_of_bytes (bs : list Z) : list Z :=
  match bs with
  | b0 :: b1 :: b2 :: b3 :: rest =>
      (b0 + 256 * b1 + 65536 * b2 + 16777216 * b3) :: words_of_bytes rest
  | _ => []
  end.

(** Padding: a 1 bit, zeros up to 56 mod 64, then the bit length on 64 bits. *)
Definition pad (msg : list Z) : list Z :=
  let len := Z.of_nat (List.length msg) in
  msg ++ [0x80] ++ repeat 0 (Z.to_nat ((55 - len) mod 64))
      ++ le_bytes 8 ((8 * len) mod 2 ^ 64).

Fixpoint blocks (fuel : nat) (st : state) (ws : list Z) : state :=
  match fuel with
  | O => st
  | Datatypes.S fuel' =>
      match ws with
      | [] => st
      | _ => blocks fuel' (compress st (firstn 16 ws)) (skipn 16 ws)
      end
  end.

Definition bytes_of_string (s : string) : list Z :=
  map (fun c => Z.of_N (N_of_ascii c)) (list_ascii_of_string s).

(** [hashlib.md5(data).digest()]: sixteen bytes. *)
Definition digest (data : list Z) : list Z :=
  let ws := words_of_bytes (pad data) in
  let st := blocks (List.length ws) init ws in
  le_bytes 4 (sA st) ++ le_bytes 4 (sB st)
    ++ le_bytes 4 (sC st) ++ le_bytes 4 (sD st).

Definition hex_digit (n : Z) : ascii :=
  nth (Z.to_nat (n mod 16))
      (list_ascii_of_string "0123456789abcdef") "0"%char.

Fixpoint hex_of_bytes (bs : list Z) : string :=
  match bs with
  | [] => EmptyString
  | b :: rest =>
      String (hex_digit (b / 16)) (String (hex_digit b) (hex_of_bytes rest))
  end.

(** [hashlib.md5(data).hexdigest()]. *)
Definition hexdigest (data : string) : string :=
  hex_of_bytes (digest (bytes_of_string data)).

End MD5.

(* ================================================================== *)
(** ** decimal.Decimal and its fixed-point format *)

(** A [Decimal] as [as_tuple()] shows it: sign ([true] is negative),
    coefficient and exponent, or one of the special values.  The payload of
    a NaN is a natural number, [0] standing for no payload. *)
Inductive Decimal : Type :=
| Finite (sign : bool) (coefficient : N) (exponent : Z)
| Infinity (sign : bool)
| NaN (sign : bool) (payload : N)
| sNaN (sign : bool) (payload : N).

(** The rounding modes of the [decimal] context; the default context has
    [ROUND_HALF_EVEN]. *)
Inductive Rounding : Type :=
| ROUND_DOWN | ROUND_HALF_UP | ROUND_HALF_EVEN | ROUND_CEILING
| ROUND_FLOOR | ROUND_HALF_DOWN | ROUND_UP | ROUND_05UP.

Definition digit_char (n : N) : ascii :=
  ascii_of_N (48 + n mod 10).

Fixpoint digits_fuel (fuel : nat) (n : N) (acc : string) : string :=
  match fuel with
  | O => acc
  | S fuel' =>
      let acc' := String (digit_char n) acc in
      if (n / 10 =? 0)%N then acc' else digits_fuel fuel' (n / 10)%N acc'
  end.

(** [str(n)] for a natural number. *)
Definition str_of_N (n : N) : string :=
  digits_fuel (S (N.to_nat (N.log2 n))) n "".

Fixpoint zeros (n : nat) : string :=
  match n with
  | O => ""
  | S n' => String "0" (zeros n')
  end.

(** Whether rounding the quotient [q] with remainder [r] out of [10^k]
    moves away from zero ([Decimal._pick_rounding_function]). *)
Definition round_increment
    (rounding : Rounding) (sign : bool) (q r half : N) : bool :=
  match rounding with
  | ROUND_DOWN => false
  | ROUND_UP => negb (r =? 0)%N
  | ROUND_HALF_UP => (half <=? r)%N
  | ROUND_HALF_DOWN => (half <? r)%N
  | ROUND_HALF_EVEN => (half <? r)%N || ((r =? half)%N && N.odd q)
  | ROUND_CEILING => if sign then false else negb (r =? 0)%N
  | ROUND_FLOOR => if sign then negb (r =? 0)%N else false
  | ROUND_05UP =>
      negb (r =? 0)%N && ((q mod 10 =? 0)%N || (q mod 10 =? 5)%N)
  end.

(** [Decimal._rescale(exp, rounding)]. *)
Definition _rescale (rounding : Rounding) (exp : Z) (d : Decimal) : Decimal :=
  match d with
  | Finite s c e =>
      if (c =? 0)%N then Finite s 0 exp
      else if exp <=? e then Finite s (c * 10 ^ Z.to_N (e - exp))%N exp
      else
        let k := Z.to_N (exp - e) in
        let q := (c / 10 ^ k)%N in
        let r := (c mod 10 ^ k)%N in
        let half := (5 * 10 ^ (k - 1))%N in
        Finite s (if round_increment rounding s q r half then q + 1 else q)%N
               exp
  | _ => d
  end.

Definition format_sign (sign : bool) : string := if sign then "-" else "".

Definition payload_str (p : N) : string :=
  if (p =? 0)%N then "" else str_of_N p.

(** Placement of the decimal point for the presentation type [f]. *)
Definition format_fixed (s : bool) (c : N) (e : Z) : string :=
  let int := str_of_N c in
  let len := Z.of_nat (String.length int) in
  let dotplace := e + len in
  let '(intpart, fracpart) :=
    if dotplace <? 0 then ("0", zeros (Z.to_nat (- dotplace)) ++ int)
    else if len <? dotplace then (int ++ zeros (Z.to_nat (dotplace - len)), "")
    else
      let ip := substring 0 (Z.to_nat dotplace) int in
      ((if (ip =? "")%string then "0" else ip),
       substring (Z.to_nat dotplace) (Z.to_nat (len - dotplace)) int) in
  format_sign s ++ intpart
    ++ (if (fracpart =? "")%string then "" else "." ++ fracpart).

(** [format(d, ".2f")], that is [f"{d:.2f}"], under the context's rounding
    mode.  Special values ignore the presentation type and the precision. *)
Definition format_2f (rounding : Rounding) (d : Decimal) : string :=
  match d with
  | Finite _ _ _ =>
      match _rescale rounding (-2) d with
      | Finite s c e =>
          let '(c, e) :=
            if ((c =? 0)%N && (0 <? e))%bool
            then (0%N, 0) else (c, e) in
          format_fixed s c e
      | _ => ""
      end
  | Infinity s => format_sign s ++ "Infinity"
  | NaN s p => format_sign s ++ "NaN" ++ payload_str p
  | sNaN s p => format_sign s ++ "sNaN" ++ payload_str p
  end.


Definition is_snan (d : Decimal) : bool :=
  match d with sNaN _ _ => true | _ => false end.

(* ================================================================== *)
(** ** dict, sorted and urllib.parse.urlencode *)

Definition dict : Type := list (string * string).

Fixpoint dict_get (d : dict) (k : string) : option string :=
  match d with
  | [] => None
  | (k', v) :: rest => if (k =? k')%string then Some v else dict_get rest k
  end.

(** [d[k] = v]: an existing key keeps its place, a new key goes last. *)
Fixpoint dict_set (d : dict) (k v : string) : dict :=
  match d with
  | [] => [(k, v)]
  | (k', v') :: rest =>
      if (k =? k')%string then (k', v) :: rest
      else (k', v') :: dict_set rest k v
  end.

(** [d.update(other)]. *)
Definition dict_update (d other : dict) : dict :=
  fold_left (fun acc kv => dict_set acc (fst kv) (snd kv)) other d.

Definition keys (d : dict) : list string := map fst d.

(** [x < y] on the tuples of [dict.items()]: the first components decide
    unless they are equal. *)
Definition tuple_ltb (x y : string * string) : bool :=
  if (fst x =? fst y)%string then String.ltb (snd x) (snd y)
  else String.ltb (fst x) (fst y).

Fixpoint insert (x : string * string) (l : dict) : dict :=
  match l with
  | [] => [x]
  | y :: l' => if tuple_ltb y x then y :: insert x l' else x :: y :: l'
  end.

(** [sorted(items)]: a stable sort that only uses [<]. *)
Fixpoint sorted (l : dict) : dict :=
  match l with
  | [] => []
  | x :: l' => insert x (sorted l')
  end.

Module Urllib.

Definition in_range (lo hi c : ascii) : bool :=
  ((N_of_ascii lo <=? N_of_ascii c)%N && (N_of_ascii c <=? N_of_ascii hi)%N)%bool.

(** [_ALWAYS_SAFE]: letters, digits and [_.-~] (Python 3.7 and later). *)
Definition always_safe (c : ascii) : bool :=
  in_range "A" "Z" c || in_range "a" "z" c || in_range "0" "9" c
  || Ascii.eqb c "_" || Ascii.eqb c "." || Ascii.eqb c "-" || Ascii.eqb c "~".

Definition upper_hex_digit (n : N) : ascii :=
  nth (N.to_nat (n mod 16))
      (list_ascii_of_string "0123456789ABCDEF") "0"%char.

(** [quote_plus(s)]: a space becomes [+], an unsafe byte becomes [%XX]. *)
Fixpoint quote_plus (s : string) : string :=
  match s with
  | EmptyString => EmptyString
  | String c rest =>
      if Ascii.eqb c " " then String "+" (quote_plus rest)
      else if always_safe c then String c (quote_plus rest)
      else
        String "%"
          (String (upper_hex_digit (N_of_ascii c / 16))
             (String (upper_hex_digit (N_of_ascii c)) (quote_plus rest)))
  end.

(** [urlencode(query)] for a dict of strings. *)
Definition urlencode (query : dict) : string :=
  String.concat "&"
    (map (fun kv => quote_plus (fst kv) ++ "=" ++ quote_plus (snd kv)) query).

(** Reading a query string back, as the receiver of the URL does: split at
    [&], split each item at its first [=], undo [quote_plus]. *)
Definition hex_value (c : ascii) : option N :=
  if in_range "0" "9" c then Some (N_of_ascii c - 48)%N
  else if in_range "A" "F" c then Some (N_of_ascii c - 55)%N
  else if in_range "a" "f" c then Some (N_of_ascii c - 87)%N
  else None.

Fixpoint unquote_plus (s : string) : string :=
  match s with
  | EmptyString => EmptyString
  | String c rest =>
      if Ascii.eqb c "+" then String " " (unquote_plus rest)
      else
        match rest with
        | String h (String l rest') =>
            match Ascii.eqb c "%", hex_value h, hex_value l with
            | true, Some hv, Some lv =>
                String (ascii_of_N (16 * hv + lv)) (unquote_plus rest')
            | _, _, _ => String c (unquote_plus rest)
            end
        | _ => String c (unquote_plus rest)
        end
  end.

(** [s.split(sep)]. *)
Fixpoint split (sep : ascii) (s : string) : list string :=
  match s with
  | EmptyString => [EmptyString]
  | String c rest =>
      if Ascii.eqb c sep then EmptyString :: split sep rest
      else
        match split sep rest with
        | [] => [String c EmptyString]
        | piece :: pieces => String c piece :: pieces
        end
  end.

(** [s.partition(sep)], without the separator. *)
Fixpoint partition (sep : ascii) (s : string) : string * string :=
  match s with
  | EmptyString => (EmptyString, EmptyString)
  | String c rest =>
      if Ascii.eqb c sep then (EmptyString, rest)
      else let '(a, b) := partition sep rest in (String c a, b)
  end.

Definition parse_qsl (query : string) : dict :=
  map (fun item =>
         let '(k, v) := partition "=" item in (unquote_plus k, unquote_plus v))
      (filter (fun item => negb (item =? "")%string) (split "&" query)).

(** The query parameters of a URL: what follows its first [?]. *)
Definition url_params (u : string) : dict :=
  parse_qsl (snd (partition "?" u)).

End Urllib.

(** [str.lower()].  Only the letters A-Z are mapped: outside ASCII, no
    character lowercases to a hexadecimal digit, so a comparison with a
    digest is decided the same way. *)
Definition lower_char (c : ascii) : ascii :=
  if Urllib.in_range "A" "Z" c then ascii_of_N (N_of_ascii c + 32) else c.

Fixpoint lower (s : string) : string :=
  match s with
  | EmptyString => EmptyString
  | String c rest => String (lower_char c) (lower rest)
  end.

(** [str.upper()] on ASCII text. *)
Definition upper_char (c : ascii) : ascii :=
  if Urllib.in_range "a" "z" c then ascii_of_N (N_of_ascii c - 32) else c.


(** Truth value of an optional [str] or [dict]: [None] and the empty value
    are false. *)
Definition truthy_str (o : option string) : bool :=
  match o with
  | Some s => negb (s =? "")%string
  | None => false
  end.

Definition truthy_dict (o : option dict) : bool :=
  match o with
  | Some (_ :: _) => true
  | _ => false
  end.

(** [o or {}] and the value of a truthy optional. *)
Definition or_empty (o : option dict) : dict :=
  match o with
  | Some d => d
  | None => []
  end.

(* ================================================================== *)
(** ** Values, exceptions and the HTTP boundary *)

(** Exception classes: those of [requests.exceptions], the built-in ones the
    code can meet, and those of [src/exceptions.py]. *)
Inductive ExcClass : Type :=
| RequestException | HTTPError | ConnectionError | ProxyError | SSLError
| Timeout | ConnectTimeout | ReadTimeout | TooManyRedirects
| InvalidURL | ChunkedEncodingError | ContentDecodingError
| InvalidJSONError | RequestsJSONDecodeError
| ValueError | TypeError | OSError
| PaymentException | UserException | DatabaseException.

(** [issubclass(c, requests.RequestException)]. *)
Definition is_RequestException (c : ExcClass) : bool :=
  match c with
  | RequestException | HTTPError | ConnectionError | ProxyError | SSLError
  | Timeout | ConnectTimeout | ReadTimeout | TooManyRedirects
  | InvalidURL | ChunkedEncodingError | ContentDecodingError
  | InvalidJSONError | RequestsJSONDecodeError => true
  | _ => false
  end.

(** An exception instance: its class and [str(e)]. *)
Record Exception : Type := mkException {
  exc_class : ExcClass;
  exc_str : string
}.

Inductive result (A : Type) : Type :=
| Ok (a : A)
| Raise (e : Exception).
Arguments Ok {A} a.
Arguments Raise {A} e.

(** The values the wrapper returns.  A [float] is kept as the [Decimal] it
    was converted from: binary floating point is not modelled. *)
#[warnings="-register-all"]
Inductive PyValue : Type :=
| PyNone
| PyBool (b : bool)
| PyStr (s : string)
| PyNumber (literal : string)
| PyFloat (of_decimal : Decimal)
| PyList (items : list PyValue)
| PyDict (entries : list (string * PyValue)).


(** [float(d)]: a signalling NaN cannot be converted. *)
Definition float_of_Decimal (d : Decimal) : result PyValue :=
  match d with
  | sNaN _ _ =>
      Raise (mkException ValueError "cannot convert signaling NaN to float")
  | _ => Ok (PyFloat d)
  end.

(** The argument of one [requests.get] call. *)
Record Request : Type := mkRequest {
  req_url : string;
  req_params : dict;
  req_timeout : Z
}.

(** What the wrapper reads of a [requests.Response]. *)
Record Response : Type := mkResponse {
  status_code : Z;
  reason : string;
  url : string;
  json_body : result PyValue
}.

(** Programs that may call [requests.get]. *)
Inductive IO (A : Type) : Type :=
| Return (a : A)
| Throw (e : Exception)
| HttpGet (rq : Request) (k : result Response -> IO A).
Arguments Return {A} a.
Arguments Throw {A} e.
Arguments HttpGet {A} rq k.

Fixpoint bind {A B : Type} (m : IO A) (f : A -> IO B) : IO B :=
  match m with
  | Return a => f a
  | Throw e => Throw e
  | HttpGet rq k => HttpGet rq (fun o => bind (k o) f)
  end.

Notation "x <- m ;; k" := (bind m (fun x => k))
  (at level 61, m at next level, right associativity).

(** [try: body except requests.RequestException as e: handler(e)]. *)
Fixpoint try_except_RequestException {A : Type}
    (body : IO A) (handler : Exception -> IO A) : IO A :=
  match body with
  | Return a => Return a
  | Throw e =>
      if is_RequestException (exc_class e) then handler e else Throw e
  | HttpGet rq k =>
      HttpGet rq (fun o => try_except_RequestException (k o) handler)
  end.

Definition lift {A : Type} (r : result A) : IO A :=
  match r with
  | Ok a => Return a
  | Raise e => Throw e
  end.

(** [requests.get(url, params=..., timeout=...)]. *)
Definition requests_get (u : string) (params : dict) (timeout : Z)
  : IO Response :=
  HttpGet (mkRequest u params timeout) lift.

(** [Response.raise_for_status()]. *)
Definition raise_for_status (r : Response) : IO unit :=
  let code := str_of_N (Z.to_N (status_code r)) in
  let http_error_msg :=
    if (400 <=? status_code r) && (status_code r <? 500) then
      code ++ " Client Error: " ++ reason r ++ " for url: " ++ url r
    else if (500 <=? status_code r) && (status_code r <? 600) then
      code ++ " Server Error: " ++ reason r ++ " for url: " ++ url r
    else "" in
  if (http_error_msg =? "")%string then Return tt
  else Throw (mkException HTTPError http_error_msg).

(** Running a program against a network: the [n]-th call gets [net n]. *)
Fixpoint run {A : Type} (net : nat -> Request -> result Response)
    (n : nat) (m : IO A) : list Request * result A :=
  match m with
  | Return a => ([], Ok a)
  | Throw e => ([], Raise e)
  | HttpGet rq k =>
      let '(calls, r) := run net (S n) (k (net n rq)) in
      (rq :: calls, r)
  end.

(* ================================================================== *)
(** ** src/payments/robokassa.py *)

Record RobokassaConfig : Type := mkRobokassaConfig {
  merchant_login : string;
  password1 : string;
  password2 : string;
  test_mode : bool;
  base_url : string;
  api_url : string
}.

(** [RobokassaConfig.__init__]. *)
Definition RobokassaConfig_init
    (merchant_login password1 password2 : string) (test_mode : bool)
  : RobokassaConfig :=
  mkRobokassaConfig merchant_login password1 password2 test_mode
    (if negb test_mode then "https://auth.robokassa.ru"
     else "https://test.robokassa.ru")
    "https://api.robokassa.ru".

Section Robokassa.

(** The rounding mode of the ambient [decimal] context, read by every
    [f"{amount:.2f}"]. *)
Variable rounding : Rounding.

(** The list [signature_parts] once the extra parameters are appended. *)
Definition signature_parts
    (merchant_login : string) (sum_amount : Decimal)
    (invoice_id password : string) (extra_params : option dict)
  : list string :=
  let amount_str := format_2f rounding sum_amount in
  let signature_parts := [merchant_login; amount_str; invoice_id; password] in
  if truthy_dict extra_params then
    let sorted_params := sorted (or_empty extra_params) in
    fold_left
      (fun parts kv => List.app parts [fst kv ++ "=" ++ snd kv])
      sorted_params signature_parts
  else signature_parts.

(** The string [_generate_signature] hashes. *)
Definition signature_string
    (merchant_login : string) (sum_amount : Decimal)
    (invoice_id password : string) (extra_params : option dict) : string :=
  String.concat ":"
    (signature_parts merchant_login sum_amount invoice_id password
       extra_params).

Definition _generate_signature
    (merchant_login : string) (sum_amount : Decimal)
    (invoice_id password : string) (extra_params : option dict) : string :=
  MD5.hexdigest
    (signature_string merchant_login sum_amount invoice_id password
       extra_params).

(** The [params] dict of [get_payment_url] before the extra parameters are
    merged in: the reserved query parameters. *)
Definition reserved_params
    (config : RobokassaConfig) (invoice_id : string) (amount : Decimal)
    (description : string) (email : option string)
    (extra_params : option dict) (return_url : option string) : dict :=
  let signature :=
    _generate_signature (merchant_login config) amount invoice_id
      (password1 config) extra_params in
  let params :=
    [ ("MerchantLogin", merchant_login config);
      ("Sum", format_2f rounding amount);
      ("InvoiceID", invoice_id);
      ("Description", description);
      ("SignatureValue", signature);
      ("IsTest", if test_mode config then "1" else "0") ] in
  let params :=
    match email with
    | Some e => if truthy_str email then dict_set params "Email" e else params
    | None => params
    end in
  match return_url with
  | Some u =>
      if truthy_str return_url then dict_set params "ReturnURL" u else params
  | None => params
  end.

(** The [params] dict that [get_payment_url] hands to [urlencode]. *)
Definition payment_params
    (config : RobokassaConfig) (invoice_id : string) (amount : Decimal)
    (description : string) (email : option string)
    (extra_params : option dict) (return_url : option string) : dict :=
  let params :=
    reserved_params config invoice_id amount description email extra_params
      return_url in
  if truthy_dict extra_params
  then dict_update params (or_empty extra_params)
  else params.

Definition get_payment_url
    (config : RobokassaConfig) (invoice_id : string) (amount : Decimal)
    (description : string) (email : option string)
    (extra_params : option dict) (return_url : option string) : string :=
  base_url config ++ "/Merchant/Index?"
    ++ Urllib.urlencode
         (payment_params config invoice_id amount description email
            extra_params return_url).

Definition verify_result_signature
    (config : RobokassaConfig) (sum_amount : Decimal)
    (invoice_id signature : string) (extra_params : option dict) : bool :=
  let expected_signature :=
    _generate_signature (merchant_login config) sum_amount invoice_id
      (password2 config) extra_params in
  (lower signature =? lower expected_signature)%string.


End Robokassa.

(** The value under [key] in the query of a payment URL. *)
Definition url_param (u key : string) : option string :=
  dict_get (Urllib.url_params u) key.

Definition get_notification_response (invoice_id : string) : string :=
  "OK" ++ invoice_id.

Definition check_payment_status
    (config : RobokassaConfig) (invoice_id : string) : IO PyValue :=
  try_except_RequestException
    (response <- requests_get (api_url config ++ "/GetInvoiceInfo")
                   [("InvoiceID", invoice_id)] 10 ;;
     _ <- raise_for_status response ;;
     lift (json_body response))
    (fun e =>
       Return (PyDict [ ("success", PyBool false);
                        ("error", PyStr (exc_str e)) ])).

(* ================================================================== *)
(** ** Predicates used in the statements *)

Fixpoint all_chars (p : ascii -> bool) (s : string) : bool :=
  match s with
  | EmptyString => true
  | String c rest => p c && all_chars p rest
  end.


Definition is_lower_hex (c : ascii) : bool :=
  Urllib.in_range "0" "9" c || Urllib.in_range "a" "f" c.

(** The character [sep] does not occur in [s]. *)
Definition lacks (sep : ascii) (s : string) : bool :=
  all_chars (fun c => negb (Ascii.eqb c sep)) s.

(** Neither a separator of the query nor the mark that starts it. *)
Definition plain (c : ascii) : bool :=
  negb (Ascii.eqb c "&") && negb (Ascii.eqb c "=")
  && negb (Ascii.eqb c "?").

(** One [key=value] item of an encoded query. *)
Definition query_item (kv : string * string) : string :=
  Urllib.quote_plus (fst kv) ++ "=" ++ Urllib.quote_plus (snd kv).


(** Amounts on which the renderings are compared with CPython: ties,
    values below one cent, zeros, long coefficients. *)
Definition format_inputs : list Decimal :=
  [ Finite false 1005 (-3);
    Finite true 1005 (-3);
    Finite false 1015 (-3);
    Finite false 125 (-3);
    Finite false 135 (-3);
    Finite true 125 (-3);
    Finite false 1 (-3);
    Finite true 1 (-3);
    Finite false 5 (-3);
    Finite false 15 (-3);
    Finite false 4 (-3);
    Finite false 6 (-3);
    Finite false 99995 (-4);
    Finite true 99995 (-4);
    Finite false 100050 (-4);
    Finite false 100049 (-4);
    Finite false 100051 (-4);
    Finite false 5 (-4);
    Finite false 50 (-4);
    Finite false 51 (-4);
    Finite false 49 (-4);
    Finite false 1 (-30);
    Finite true 1 (-30);
    Finite false 0 (-5);
    Finite true 0 (-5);
    Finite false 0 3;
    Finite false 12 1;
    Finite false 7 (-1);
    Finite false 1050 (-3);
    Finite false 1550 (-3);
    Finite false 1450 (-3);
    Finite false 1000000000000000000000000000005 (-3);
    Finite false 123456789012345678901234567890995 (-3);
    Finite false 501 (-5);
    Finite false 500 (-5);
    Finite false 499 (-5);
    Finite false 1500 (-5);
    Finite false 2500 (-5);
    Finite false 995 (-3);
    Finite false 9995 (-4);
    Finite false 5005 (-3);
    Finite false 5015 (-3);
    Finite false 10001 (-4);
    Finite true 404 2;
    Finite false 68 (-7);
    Finite true 2179419893 (-8);
    Finite false 7015764 (-7);
    Finite false 70 (-2);
    Finite false 9548738649 2;
    Finite false 6809848565 (-8);
    Finite false 8 (-6);
    Finite true 2420198 0;
    Finite false 9914853944 2;
    Finite false 74 1;
    Finite false 102163 0;
    Finite false 8845919668 (-5);
    Finite true 58118295906 (-3);
    Finite true 8261117831 (-3);
    Finite true 2945 (-5);
    Finite false 9879494741 (-1);
    Finite true 315460340794 1;
    Finite false 65 (-2);
    Finite false 159367 (-1);
    Finite true 10 (-7);
    Finite true 729070 (-3);
    Finite true 7717592285 (-7);
    Finite false 62141 2;
    Finite false 4 2 ].

(* ================================================================== *)
(** ** RobokassaPayment.create_order *)

(** A dict whose values are of several types, as the [payload] of
    [create_order]. *)
Definition pydict : Type := list (string * PyValue).

Fixpoint pydict_get (d : pydict) (k : string) : option PyValue :=
  match d with
  | [] => None
  | (k', v) :: rest => if (k =? k')%string then Some v else pydict_get rest k
  end.

Fixpoint pydict_set (d : pydict) (k : string) (v : PyValue) : pydict :=
  match d with
  | [] => [(k, v)]
  | (k', v') :: rest =>
      if (k =? k')%string then (k', v) :: rest
      else (k', v') :: pydict_set rest k v
  end.

(** [payload.update(extra_params)]: the values of [extra_params] are
    strings. *)
Definition pydict_update (d : pydict) (other : dict) : pydict :=
  fold_left (fun acc kv => pydict_set acc (fst kv) (PyStr (snd kv))) other d.

(** The argument of one [requests.post] call. *)
Record PostRequest : Type := mkPostRequest {
  post_url : string;
  post_json : pydict;
  post_timeout : Z
}.

(** Programs that may call [requests.post]. *)
Inductive PostIO (A : Type) : Type :=
| PostReturn (a : A)
| PostThrow (e : Exception)
| HttpPost (rq : PostRequest) (k : result Response -> PostIO A).
Arguments PostReturn {A} a.
Arguments PostThrow {A} e.
Arguments HttpPost {A} rq k.

Fixpoint post_bind {A B : Type} (m : PostIO A) (f : A -> PostIO B)
  : PostIO B :=
  match m with
  | PostReturn a => f a
  | PostThrow e => PostThrow e
  | HttpPost rq k => HttpPost rq (fun o => post_bind (k o) f)
  end.

Fixpoint post_try_except_RequestException {A : Type}
    (body : PostIO A) (handler : Exception -> PostIO A) : PostIO A :=
  match body with
  | PostReturn a => PostReturn a
  | PostThrow e =>
      if is_RequestException (exc_class e) then handler e else PostThrow e
  | HttpPost rq k =>
      HttpPost rq (fun o => post_try_except_RequestException (k o) handler)
  end.

Definition post_lift {A : Type} (r : result A) : PostIO A :=
  match r with
  | Ok a => PostReturn a
  | Raise e => PostThrow e
  end.

(** [requests.post(url, json=..., timeout=...)]. *)
Definition requests_post (u : string) (json : pydict) (timeout : Z)
  : PostIO Response :=
  HttpPost (mkPostRequest u json timeout) post_lift.

(** [Response.raise_for_status()] read as a result. *)
Definition raise_for_status_result (r : Response) : result unit :=
  match raise_for_status r with
  | Return u => Ok u
  | Throw e => Raise e
  | HttpGet _ _ => Ok tt
  end.

Fixpoint post_run {A : Type} (net : nat -> PostRequest -> result Response)
    (n : nat) (m : PostIO A) : list PostRequest * result A :=
  match m with
  | PostReturn a => ([], Ok a)
  | PostThrow e => ([], Raise e)
  | HttpPost rq k =>
      let '(calls, r) := post_run net (S n) (k (net n rq)) in
      (rq :: calls, r)
  end.

(** The [payload] dict of [create_order], given [float(amount)]. *)
Definition order_payload
    (config : RobokassaConfig) (invoice_id : string) (sum : PyValue)
    (description : string) (email phone : option string)
    (extra_params : option dict) : pydict :=
  let payload :=
    [ ("MerchantLogin", PyStr (merchant_login config));
      ("Sum", sum);
      ("InvoiceID", PyStr invoice_id);
      ("Description", PyStr description) ] in
  let payload :=
    match email with
    | Some e =>
        if truthy_str email then pydict_set payload "Email" (PyStr e)
        else payload
    | None => payload
    end in
  let payload :=
    match phone with
    | Some p =>
        if truthy_str phone then pydict_set payload "Phone" (PyStr p)
        else payload
    | None => payload
    end in
  if truthy_dict extra_params
  then pydict_update payload (or_empty extra_params)
  else payload.

(** [float(amount)] is evaluated while the payload is built, before the
    [try] block is entered. *)
Definition create_order
    (config : RobokassaConfig) (invoice_id : string) (amount : Decimal)
    (description : string) (email phone : option string)
    (extra_params : option dict) : PostIO PyValue :=
  match float_of_Decimal amount with
  | Raise e => PostThrow e
  | Ok sum =>
      let payload :=
        order_payload config invoice_id sum description email phone
          extra_params in
      post_try_except_RequestException
        (post_bind
           (requests_post (api_url config ++ "/CreateInvoice") payload 10)
           (fun response =>
              post_bind (post_lift (raise_for_status_result response))
                (fun _ => post_lift (json_body response))))
        (fun e =>
           PostReturn (PyDict [ ("success", PyBool false);
                                ("error", PyStr (exc_str e)) ]))
  end.

(* ================================================================== *)
(** ** Further predicates *)

(** The characters an encoded query is made of. *)
Definition url_char (c : ascii) : bool :=
  Urllib.always_safe c || Ascii.eqb c "+" || Ascii.eqb c "%"
  || Ascii.eqb c "=" || Ascii.eqb c "&".

Definition mem_key (k : string) (ks : list string) : bool :=
  existsb (String.eqb k) ks.

(** The keys [get_payment_url] sets itself, in the order it sets them. *)
Definition reserved_keys (email return_url : option string) : list string :=
  List.app
    ["MerchantLogin"; "Sum"; "InvoiceID"; "Description"; "SignatureValue";
     "IsTest"]
    (List.app (if truthy_str email then ["Email"] else [])
              (if truthy_str return_url then ["ReturnURL"] else [])).

(** A hexadecimal digit in either case. *)
Definition is_hex (c : ascii) : bool :=
  Urllib.in_range "0" "9" c || Urllib.in_range "a" "f" c
  || Urllib.in_range "A" "F" c.

(* ================================================================== *)
(** ** src/exceptions.py *)

(** [type(e).__name__]. *)
Definition class_name (c : ExcClass) : string :=
  match c with
  | RequestException => "RequestException"
  | HTTPError => "HTTPError"
  | ConnectionError => "ConnectionError"
  | ProxyError => "ProxyError"
  | SSLError => "SSLError"
  | Timeout => "Timeout"
  | ConnectTimeout => "ConnectTimeout"
  | ReadTimeout => "ReadTimeout"
  | TooManyRedirects => "TooManyRedirects"
  | InvalidURL => "InvalidURL"
  | ChunkedEncodingError => "ChunkedEncodingError"
  | ContentDecodingError => "ContentDecodingError"
  | InvalidJSONError => "InvalidJSONError"
  | RequestsJSONDecodeError => "JSONDecodeError"
  | ValueError => "ValueError"
  | TypeError => "TypeError"
  | OSError => "OSError"
  | PaymentException => "PaymentException"
  | UserException => "UserException"
  | DatabaseException => "DatabaseException"
  end.

(** An exception object as [handle_exception] reads it: the exception and
    its attribute [error_code], which the classes of this module set and
    other exceptions lack. *)
Record ExceptionObject : Type := mkExceptionObject {
  exception : Exception;
  error_code : option string
}.

(** An optional argument, with the default the signature gives it. *)
Definition with_default (default : string) (arg : option string) : string :=
  match arg with
  | Some a => a
  | None => default
  end.

(** [PaymentException(message, error_code="PAYMENT_ERROR")]. *)
Definition PaymentException_init (message : string) (code : option string)
  : ExceptionObject :=
  mkExceptionObject (mkException PaymentException message)
    (Some (with_default "PAYMENT_ERROR" code)).

(** [UserException(message, error_code="USER_ERROR")]. *)
Definition UserException_init (message : string) (code : option string)
  : ExceptionObject :=
  mkExceptionObject (mkException UserException message)
    (Some (with_default "USER_ERROR" code)).

(** [DatabaseException(message, error_code="DATABASE_ERROR")]. *)
Definition DatabaseException_init (message : string) (code : option string)
  : ExceptionObject :=
  mkExceptionObject (mkException DatabaseException message)
    (Some (with_default "DATABASE_ERROR" code)).

(** An exception raised by the interpreter or by a library: no attribute
    [error_code]. *)
Definition plain_exception (e : Exception) : ExceptionObject :=
  mkExceptionObject e None.

(** [handle_exception(exception, log_func)]: the response, and the calls
    made to [log_func] with their argument. *)
Definition handle_exception {L : Type}
    (exc : ExceptionObject) (log_func : option L)
  : PyValue * list (L * string) :=
  let code := with_default "UNKNOWN_ERROR" (error_code exc) in
  let error_response :=
    PyDict [ ("success", PyBool false);
             ("error_code", PyStr code);
             ("message", PyStr (exc_str (exception exc)));
             ("exception_type",
              PyStr (class_name (exc_class (exception exc)))) ] in
  match log_func with
  | Some f =>
      (error_response,
       [(f, "Exception occurred: "
              ++ class_name (exc_class (exception exc)) ++ " - "
              ++ exc_str (exception exc) ++ " (Code: " ++ code ++ ")")])
  | None => (error_response, [])
  end.

(* ================================================================== *)
(** ** src/handlers/admin_handlers.py *)

(** [str(n)] for an integer. *)
Definition str_of_Z (n : Z) : string :=
  if n <? 0 then "-" ++ str_of_N (Z.to_N (- n)) else str_of_N (Z.to_N n).

(** [l[start:]] with Python's treatment of a negative or too large
    [start]. *)
Definition slice_from {A : Type} (start : Z) (l : list A) : list A :=
  let len := Z.of_nat (List.length l) in
  let s := if start <? 0 then Z.max (start + len) 0 else Z.min start len in
  skipn (Z.to_nat s) l.

(** [str.upper()], exact as far as a comparison with ASCII text goes.
    Outside ASCII, the upper case of a character is ASCII text only for
    U+00DF, U+0131, U+017F and the ligatures U+FB00 to U+FB06, of which the
    ones that map into the letters of the role names are rewritten here; any
    other byte outside ASCII is kept, as its upper case keeps a character
    outside ASCII. *)
Fixpoint str_upper (s : string) : string :=
  match s with
  | EmptyString => EmptyString
  | String c rest =>
      match rest with
      | String c2 rest2 =>
          if Ascii.eqb c (ascii_of_N 195) && Ascii.eqb c2 (ascii_of_N 159)
          then String "S" (String "S" (str_upper rest2))
          else if Ascii.eqb c (ascii_of_N 196) && Ascii.eqb c2 (ascii_of_N 177)
          then String "I" (str_upper rest2)
          else if Ascii.eqb c (ascii_of_N 197) && Ascii.eqb c2 (ascii_of_N 191)
          then String "S" (str_upper rest2)
          else
            match rest2 with
            | String c3 rest3 =>
                if Ascii.eqb c (ascii_of_N 239)
                   && Ascii.eqb c2 (ascii_of_N 172)
                   && (Ascii.eqb c3 (ascii_of_N 133)
                       || Ascii.eqb c3 (ascii_of_N 134))
                then String "S" (String "T" (str_upper rest3))
                else String (upper_char c) (str_upper rest)
            | EmptyString => String (upper_char c) (str_upper rest)
            end
      | EmptyString => String (upper_char c) EmptyString
      end
  end.

Module Admin.

Inductive AdminRole : Type := SUPER_ADMIN | ADMIN | MODERATOR.

(** [role.name] and [role.value]. *)
Definition name (r : AdminRole) : string :=
  match r with
  | SUPER_ADMIN => "SUPER_ADMIN"
  | ADMIN => "ADMIN"
  | MODERATOR => "MODERATOR"
  end.

Definition value (r : AdminRole) : Z :=
  match r with
  | SUPER_ADMIN => 3
  | ADMIN => 2
  | MODERATOR => 1
  end.

(** The members in the order of their definition, as iterating over the
    class gives them. *)
Definition members : list AdminRole := [SUPER_ADMIN; ADMIN; MODERATOR].

Definition role_eqb (a b : AdminRole) : bool :=
  match a, b with
  | SUPER_ADMIN, SUPER_ADMIN | ADMIN, ADMIN | MODERATOR, MODERATOR => true
  | _, _ => false
  end.

(** [AdminRole[key]]: [None] stands for the [KeyError]. *)
Definition by_name (key : string) : option AdminRole :=
  find (fun r => (name r =? key)%string) members.

(** Values of several types in the responses of the handlers. *)
Inductive Value : Type :=
| VBool (b : bool)
| VInt (n : Z)
| VStr (s : string)
| VStrList (l : list string)
| VCounts (counts : list (string * nat)).

Section Panel.

(** [datetime] values and [datetime.strftime(format)]. *)
Variable DateTime : Type.
Variable strftime : DateTime -> string -> string.

(** The dict kept for one admin. *)
Record AdminInfo : Type := mkAdminInfo {
  username : string;
  role : AdminRole;
  admin_created_at : DateTime;
  last_action : option (string * DateTime)
}.

Record AdminPanel : Type := mkAdminPanel {
  admins : list (Z * AdminInfo);
  created_at : DateTime;
  logs : list string
}.

(** [AdminPanel.__init__], at the time [now]. *)
Definition init (now : DateTime) : AdminPanel := mkAdminPanel [] now [].

Fixpoint admins_get (d : list (Z * AdminInfo)) (k : Z) : option AdminInfo :=
  match d with
  | [] => None
  | (k', v) :: rest => if k =? k' then Some v else admins_get rest k
  end.

Definition admins_mem (d : list (Z * AdminInfo)) (k : Z) : bool :=
  match admins_get d k with
  | Some _ => true
  | None => false
  end.

Fixpoint admins_set (d : list (Z * AdminInfo)) (k : Z) (v : AdminInfo)
  : list (Z * AdminInfo) :=
  match d with
  | [] => [(k, v)]
  | (k', v') :: rest =>
      if k =? k' then (k', v) :: rest else (k', v') :: admins_set rest k v
  end.

Fixpoint admins_del (d : list (Z * AdminInfo)) (k : Z)
  : list (Z * AdminInfo) :=
  match d with
  | [] => []
  | (k', v') :: rest =>
      if k =? k' then rest else (k', v') :: admins_del rest k
  end.

(** [_log(message)], at the time [now]. *)
Definition _log (now : DateTime) (message : string) (p : AdminPanel)
  : AdminPanel :=
  let timestamp := strftime now "%Y-%m-%d %H:%M:%S" in
  let log_entry := "[" ++ timestamp ++ "] " ++ message in
  mkAdminPanel (admins p) (created_at p) (List.app (logs p) [log_entry]).

(** In the methods below [utcnow n] is the value of the [n]-th call of
    [datetime.utcnow()] that the method makes. *)
Definition add_admin (utcnow : nat -> DateTime) (p : AdminPanel)
    (admin_id : Z) (username : string) (role : AdminRole)
  : bool * AdminPanel :=
  if admins_mem (admins p) admin_id then
    (false,
     _log (utcnow 0%nat) ("Admin " ++ str_of_Z admin_id ++ " already exists")
       p)
  else
    let info := mkAdminInfo username role (utcnow 0%nat) None in
    let p' :=
      mkAdminPanel (admins_set (admins p) admin_id info) (created_at p)
        (logs p) in
    (true,
     _log (utcnow 1%nat)
       ("Admin " ++ username ++ " (ID: " ++ str_of_Z admin_id
          ++ ") added with role " ++ name role) p').

Definition remove_admin (utcnow : nat -> DateTime) (p : AdminPanel)
    (admin_id : Z) : bool * AdminPanel :=
  match admins_get (admins p) admin_id with
  | None =>
      (false,
       _log (utcnow 0%nat) ("Admin " ++ str_of_Z admin_id ++ " not found") p)
  | Some info =>
      let p' :=
        mkAdminPanel (admins_del (admins p) admin_id) (created_at p)
          (logs p) in
      (true,
       _log (utcnow 0%nat)
         ("Admin " ++ username info ++ " (ID: " ++ str_of_Z admin_id
            ++ ") removed") p')
  end.

Definition get_admin (p : AdminPanel) (admin_id : Z) : option AdminInfo :=
  admins_get (admins p) admin_id.

Definition get_all_admins (p : AdminPanel) : list (Z * AdminInfo) :=
  admins p.

Definition update_admin_role (utcnow : nat -> DateTime) (p : AdminPanel)
    (admin_id : Z) (new_role : AdminRole) : bool * AdminPanel :=
  match admins_get (admins p) admin_id with
  | None =>
      (false,
       _log (utcnow 0%nat) ("Admin " ++ str_of_Z admin_id ++ " not found") p)
  | Some info =>
      let old_role := name (role info) in
      let info' :=
        mkAdminInfo (username info) new_role (admin_created_at info)
          (last_action info) in
      let p' :=
        mkAdminPanel (admins_set (admins p) admin_id info') (created_at p)
          (logs p) in
      (true,
       _log (utcnow 0%nat)
         ("Admin " ++ str_of_Z admin_id ++ " role updated from " ++ old_role
            ++ " to " ++ name new_role) p')
  end.

Definition record_action (utcnow : nat -> DateTime) (p : AdminPanel)
    (admin_id : Z) (action : string) : bool * AdminPanel :=
  match admins_get (admins p) admin_id with
  | None =>
      (false,
       _log (utcnow 0%nat) ("Admin " ++ str_of_Z admin_id ++ " not found") p)
  | Some info =>
      let info' :=
        mkAdminInfo (username info) (role info) (admin_created_at info)
          (Some (action, utcnow 0%nat)) in
      let p' :=
        mkAdminPanel (admins_set (admins p) admin_id info') (created_at p)
          (logs p) in
      (true,
       _log (utcnow 1%nat)
         ("Action recorded for admin " ++ str_of_Z admin_id ++ ": " ++ action)
         p')
  end.

(** [get_logs(limit)]: [None] and [0] are both false. *)
Definition get_logs (p : AdminPanel) (limit : option Z) : list string :=
  match limit with
  | Some l => if l =? 0 then logs p else slice_from (- l) (logs p)
  | None => logs p
  end.

Definition clear_logs (utcnow : nat -> DateTime) (p : AdminPanel)
  : AdminPanel :=
  _log (utcnow 0%nat) "Logs cleared"
    (mkAdminPanel (admins p) (created_at p) []).

(** [role_counts[key] += 1]; the key is always present. *)
Fixpoint counts_incr (counts : list (string * nat)) (key : string)
  : list (string * nat) :=
  match counts with
  | [] => []
  | (k, n) :: rest =>
      if (key =? k)%string then (k, S n) :: rest
      else (k, n) :: counts_incr rest key
  end.

Definition role_counts (p : AdminPanel) : list (string * nat) :=
  fold_left (fun counts entry => counts_incr counts (name (role (snd entry))))
            (admins p)
            (map (fun r => (name r, 0%nat)) members).

Definition get_stats (p : AdminPanel) : list (string * Value) :=
  [ ("total_admins", VInt (Z.of_nat (List.length (admins p))));
    ("role_counts", VCounts (role_counts p));
    ("panel_created_at",
     VStr (strftime (created_at p) "%Y-%m-%d %H:%M:%S"));
    ("total_logs", VInt (Z.of_nat (List.length (logs p)))) ].

(** The methods of [AdminHandlers], on the panel the handler holds. *)
Definition handle_admin_creation (utcnow : nat -> DateTime) (p : AdminPanel)
    (admin_id : Z) (username role : string)
  : list (string * Value) * AdminPanel :=
  match by_name (str_upper role) with
  | Some role_enum =>
      let '(success, p') := add_admin utcnow p admin_id username role_enum in
      ([ ("success", VBool success);
         ("message",
          VStr (if success then "Admin " ++ username ++ " created successfully"
                else "Admin already exists"));
         ("admin_id", VInt admin_id) ], p')
  | None =>
      ([ ("success", VBool false);
         ("message", VStr ("Invalid role: " ++ role));
         ("admin_id", VInt admin_id) ], p)
  end.

Definition handle_admin_deletion (utcnow : nat -> DateTime) (p : AdminPanel)
    (admin_id : Z) : list (string * Value) * AdminPanel :=
  let '(success, p') := remove_admin utcnow p admin_id in
  ([ ("success", VBool success);
     ("message",
      VStr (if success then "Admin deleted successfully"
            else "Admin not found"));
     ("admin_id", VInt admin_id) ], p').

Definition handle_role_update (utcnow : nat -> DateTime) (p : AdminPanel)
    (admin_id : Z) (new_role : string)
  : list (string * Value) * AdminPanel :=
  match by_name (str_upper new_role) with
  | Some role_enum =>
      let '(success, p') := update_admin_role utcnow p admin_id role_enum in
      ([ ("success", VBool success);
         ("message",
          VStr (if success then "Role updated to " ++ new_role
                else "Admin not found"));
         ("admin_id", VInt admin_id);
         ("new_role", VStr new_role) ], p')
  | None =>
      ([ ("success", VBool false);
         ("message", VStr ("Invalid role: " ++ new_role));
         ("admin_id", VInt admin_id) ], p)
  end.

Definition handle_action_logging (utcnow : nat -> DateTime) (p : AdminPanel)
    (admin_id : Z) (action : string) : list (string * Value) * AdminPanel :=
  let '(success, p') := record_action utcnow p admin_id action in
  ([ ("success", VBool success);
     ("message",
      VStr (if success then "Action logged successfully"
            else "Admin not found"));
     ("admin_id", VInt admin_id) ], p').

Definition handle_get_panel_stats (p : AdminPanel) : list (string * Value) :=
  get_stats p.

Definition handle_get_logs (p : AdminPanel) (limit : option Z)
  : list (string * Value) :=
  let logs := get_logs p limit in
  [ ("success", VBool true);
    ("logs", VStrList logs);
    ("total_logs", VInt (Z.of_nat (List.length logs))) ].

End Panel.

End Admin.

Arguments Admin.mkAdminInfo {DateTime} _ _ _ _.
Arguments Admin.username {DateTime} _.
Arguments Admin.role {DateTime} _.
Arguments Admin.admin_created_at {DateTime} _.
Arguments Admin.last_action {DateTime} _.
Arguments Admin.mkAdminPanel {DateTime} _ _ _.
Arguments Admin.admins {DateTime} _.
Arguments Admin.created_at {DateTime} _.
Arguments Admin.logs {DateTime} _.
Arguments Admin.init {DateTime} _.
Arguments Admin.admins_get {DateTime} _ _.
Arguments Admin.admins_mem {DateTime} _ _.
Arguments Admin.admins_set {DateTime} _ _ _.
Arguments Admin.admins_del {DateTime} _ _.
Arguments Admin._log {DateTime} _ _ _ _.
Arguments Admin.add_admin {DateTime} _ _ _ _ _ _.
Arguments Admin.remove_admin {DateTime} _ _ _ _.
Arguments Admin.get_admin {DateTime} _ _.
Arguments Admin.get_all_admins {DateTime} _.
Arguments Admin.update_admin_role {DateTime} _ _ _ _ _.
Arguments Admin.record_action {DateTime} _ _ _ _ _.
Arguments Admin.get_logs {DateTime} _ _.
Arguments Admin.clear_logs {DateTime} _ _ _.
Arguments Admin.role_counts {DateTime} _.
Arguments Admin.get_stats {DateTime} _ _.
Arguments Admin.handle_admin_creation {DateTime} _ _ _ _ _ _.
Arguments Admin.handle_admin_deletion {DateTime} _ _ _ _.
Arguments Admin.handle_role_update {DateTime} _ _ _ _ _.
Arguments Admin.handle_action_logging {DateTime} _ _ _ _ _.
Arguments Admin.handle_get_panel_stats {DateTime} _ _.
Arguments Admin.handle_get_logs {DateTime} _ _.

(** The identifiers of the admins, in the order of the dict. *)
Definition admin_ids {DateTime : Type} (p : Admin.AdminPanel DateTime)
  : list Z :=
  map fst (Admin.admins p).

(** How many admins hold the role [r]. *)
Definition count_role {DateTime : Type} (r : Admin.AdminRole)
    (p : Admin.AdminPanel DateTime) : nat :=
  List.length
    (filter (fun entry => Admin.role_eqb (Admin.role (snd entry)) r)
            (Admin.admins p)).

(** The line [_log] appends for [message] at the time [now]. *)
Definition log_line {DateTime : Type}
    (strftime : DateTime -> string -> string) (now : DateTime)
    (message : string) : string :=
  "[" ++ strftime now "%Y-%m-%d %H:%M:%S" ++ "] " ++ message.

(* ================================================================== *)
(** ** src/utils/db.py *)

Module Db.

(** What is raised at the database boundary: the name of the class, the
    message, and whether the class derives from [Exception] (a
    [KeyboardInterrupt] does not). *)
Record Raised : Type := mkRaised {
  raised_class : string;
  raised_str : string;
  is_Exception : bool
}.

(** The calls made on [sqlite3], its connection and its cursor. *)
Inductive Op : Type :=
| Connect (db_path : string)
| Cursor
| Execute (query : string) (params : list PyValue)
| ExecuteMany (query : string) (params_list : list (list PyValue))
| FetchAll
| Commit
| Rollback
| Close.

(** The outcome of a call: it returns, and then the rows fetched (for
    [FetchAll]) and the [rowcount] of the cursor (for [Execute] and
    [ExecuteMany]) are known, or it raises. *)
Inductive Outcome : Type :=
| Returns (rows : list pydict) (rowcount : Z)
| Raises (e : Raised).

Inductive Prog (A : Type) : Type :=
| Ret (a : A)
| Fail (e : Raised)
| Call (op : Op) (k : Outcome -> Prog A).
Arguments Ret {A} a.
Arguments Fail {A} e.
Arguments Call {A} op k.

Fixpoint bind {A B : Type} (m : Prog A) (f : A -> Prog B) : Prog B :=
  match m with
  | Ret a => f a
  | Fail e => Fail e
  | Call op k => Call op (fun o => bind (k o) f)
  end.

(** A call whose value is not used. *)
Definition call (op : Op) : Prog unit :=
  Call op (fun o => match o with
                    | Returns _ _ => Ret tt
                    | Raises e => Fail e
                    end).

(** [try: body except Exception as e: handler(e)]. *)
Fixpoint try_except_Exception {A : Type}
    (body : Prog A) (handler : Raised -> Prog A) : Prog A :=
  match body with
  | Ret a => Ret a
  | Fail e => if is_Exception e then handler e else Fail e
  | Call op k => Call op (fun o => try_except_Exception (k o) handler)
  end.

(** [try: body finally: cleanup]: the cleanup runs on every way out, and
    what it raises replaces the outcome of the body. *)
Fixpoint try_finally {A : Type} (body : Prog A) (cleanup : Prog unit)
  : Prog A :=
  match body with
  | Ret a => bind cleanup (fun _ => Ret a)
  | Fail e => bind cleanup (fun _ => Fail e)
  | Call op k => Call op (fun o => try_finally (k o) cleanup)
  end.

(** [with self.get_connection() as conn: body]: the generator runs up to
    its [yield], the body runs, and the generator is resumed, or the
    exception of the body is thrown into it. *)
Definition get_connection {A : Type} (db_path : string) (body : Prog A)
  : Prog A :=
  bind (call (Connect db_path))
    (fun _ =>
       try_finally
         (try_except_Exception
            (bind body (fun a => bind (call Commit) (fun _ => Ret a)))
            (fun e => bind (call Rollback) (fun _ => Fail e)))
         (call Close)).

Definition execute_query (db_path query : string) (params : list PyValue)
  : Prog (list pydict) :=
  get_connection db_path
    (bind (call Cursor)
       (fun _ =>
          bind (call (Execute query params))
            (fun _ =>
               Call FetchAll
                 (fun o => match o with
                           | Returns rows _ => Ret rows
                           | Raises e => Fail e
                           end)))).

Definition execute_update (db_path query : string) (params : list PyValue)
  : Prog Z :=
  get_connection db_path
    (bind (call Cursor)
       (fun _ =>
          Call (Execute query params)
            (fun o => match o with
                      | Returns _ rowcount => Ret rowcount
                      | Raises e => Fail e
                      end))).

Definition execute_many (db_path query : string)
    (params_list : list (list PyValue)) : Prog Z :=
  get_connection db_path
    (bind (call Cursor)
       (fun _ =>
          Call (ExecuteMany query params_list)
            (fun o => match o with
                      | Returns _ rowcount => Ret rowcount
                      | Raises e => Fail e
                      end))).

Definition create_table (db_path table_name schema : string) : Prog unit :=
  let query :=
    "CREATE TABLE IF NOT EXISTS " ++ table_name ++ " (" ++ schema ++ ")" in
  get_connection db_path
    (bind (call Cursor) (fun _ => call (Execute query []))).

Definition drop_table (db_path table_name : string) : Prog unit :=
  let query := "DROP TABLE IF EXISTS " ++ table_name in
  get_connection db_path
    (bind (call Cursor) (fun _ => call (Execute query []))).

(** Running a program against a database: the [n]-th call gets [db n]. *)
Fixpoint run {A : Type} (db : nat -> Op -> Outcome) (n : nat) (m : Prog A)
  : list Op * (A + Raised) :=
  match m with
  | Ret a => ([], inl a)
  | Fail e => ([], inr e)
  | Call op k =>
      let '(calls, r) := run db (S n) (k (db n op)) in (op :: calls, r)
  end.

(** A body that leaves the connection, the transaction and the closing to
    [get_connection]. *)
Fixpoint plain {A : Type} (m : Prog A) : Prop :=
  match m with
  | Ret _ | Fail _ => True
  | Call op k =>
      match op with
      | Connect _ | Commit | Rollback | Close => False
      | _ => forall o, plain (k o)
      end
  end.

Definition op_eqb_Close (op : Op) : bool :=
  match op with Close => true | _ => false end.

Definition op_eqb_Commit (op : Op) : bool :=
  match op with Commit => true | _ => false end.

Definition op_eqb_Rollback (op : Op) : bool :=
  match op with Rollback => true | _ => false end.

End Db.

(** The call returned. *)
Definition db_ok (o : Db.Outcome) : bool :=
  match o with
  | Db.Returns _ _ => true
  | Db.Raises _ => false
  end.

(** An operation of a plain body. *)
Definition body_op (op : Db.Op) : bool :=
  match op with
  | Db.Connect _ | Db.Commit | Db.Rollback | Db.Close => false
  | _ => true
  end.

(** An operation that may stand between [Connect] and [Close]. *)
Definition inner_op (op : Db.Op) : bool :=
  body_op op || Db.op_eqb_Commit op || Db.op_eqb_Rollback op.

(** The rows and the row count a returning call gives. *)
Definition rows_of (o : Db.Outcome) : list pydict :=
  match o with
  | Db.Returns rows _ => rows
  | Db.Raises _ => []
  end.

Definition rowcount_of (o : Db.Outcome) : Z :=
  match o with
  | Db.Returns _ rowcount => rowcount
  | Db.Raises _ => 0
  end.

(* ================================================================== *)
(** * Properties *)

(** The test suite of RFC 1321, appendix A.5, and a two-block message. *)
Example md5_empty :
  MD5.hexdigest "" = "d41d8cd98f00b204e9800998ecf8427e".
Proof. vm_compute. reflexivity. Qed.

Example md5_abc :
  MD5.hexdigest "abc" = "900150983cd24fb0d6963f7d28e17f72".
Proof. vm_compute. reflexivity. Qed.

Example md5_message_digest :
  MD5.hexdigest "message digest" = "f96b697d7cb7938d525a2f31aaf161d0".
Proof. vm_compute. reflexivity. Qed.

Example md5_two_blocks :
  MD5.hexdigest
    "aaaaaaaaaaaaaaaaaaaaaaaaaaaaaaaaaaaaaaaaaaaaaaaaaaaaaaaaaaaaaaaaaaaaaa"
  = "0f5c6c4e740bfcc08c3c26ccb2673d46".
Proof. vm_compute. reflexivity. Qed.

(** Lengths around the block boundary, as CPython hashes them. *)
Example md5_block_boundaries :
  map MD5.hexdigest
    [ "abcdefghijklmnopqrstuvwxyzabcdefghijklmnopqrstuvwxyzabc";
      "abcdefghijklmnopqrstuvwxyzabcdefghijklmnopqrstuvwxyzabcd";
      "abcdefghijklmnopqrstuvwxyzabcdefghijklmnopqrstuvwxyzabcde";
      "abcdefghijklmnopqrstuvwxyzabcdefghijklmnopqrstuvwxyzabcdefghijk";
      "abcdefghijklmnopqrstuvwxyzabcdefghijklmnopqrstuvwxyzabcdefghijkl";
      "abcdefghijklmnopqrstuvwxyzabcdefghijklmnopqrstuvwxyzabcdefghijklm";
      "abcdefghijklmnopqrstuvwxyzabcdefghijklmnopqrstuvwxyzabcdefghijklmnopqrstuvwxyzabcdefghijklmnopqrstuvwxyzabcdefghijklmno";
      "abcdefghijklmnopqrstuvwxyzabcdefghijklmnopqrstuvwxyzabcdefghijklmnopqrstuvwxyzabcdefghijklmnopqrstuvwxyzabcdefghijklmnop";
      "abcdefghijklmnopqrstuvwxyzabcdefghijklmnopqrstuvwxyzabcdefghijklmnopqrstuvwxyzabcdefghijklmnopqrstuvwxyzabcdefghijklmnopqrstuvwx" ]
  = [ "0d7ae056b2f015cd7dc67494efd658f1";
      "31fcfb5165169eb55898e7e4cf34d19a";
      "fd62afaf3aa1e2a52882cb464f5ccc4d";
      "1b30c0670c15e7da3c2ba7bce77ebe99";
      "a2eaf6295c32adc403865fd96a2f182b";
      "eba2cce0ca8df47e62414a736b3105a2";
      "b05187e08da41fa3ef16bd56afaafd99";
      "62af9b597a9f55e16ab2b897387fc052";
      "3e8c1ccbd71838ef3df4b72e57fb9bf6" ].
Proof. vm_compute. reflexivity. Qed.

Example format_samples :
  map (format_2f ROUND_HALF_EVEN)
      [ Finite false 10000 (-2); Finite true 1 (-3); Finite false 5 (-3);
        Finite false 15 (-3); Finite false 1005 (-3); Finite false 1 3;
        Finite false 0 5; Finite true 0 5; Finite false 125 (-3);
        Finite false 123456785 (-3); Finite true 1 (-10); Finite false 0 0;
        Finite false 7 (-1); Finite false 995 (-3);
        NaN false 0; sNaN false 0; NaN true 0; Infinity true; NaN false 123 ]
  = [ "100.00"; "-0.00"; "0.00"; "0.02"; "1.00"; "1000.00"; "0.00"; "-0.00";
      "0.12"; "123456.78"; "-0.00"; "0.00"; "0.70"; "1.00";
      "NaN"; "sNaN"; "-NaN"; "-Infinity"; "NaN123" ].
Proof. vm_compute. reflexivity. Qed.

(** What CPython 3.11 prints for [format_inputs] under each rounding mode. *)
Example format_2f_agrees_with_cpython :
  map (fun rounding => map (format_2f rounding) format_inputs)
      [ ROUND_DOWN; ROUND_HALF_UP; ROUND_HALF_EVEN; ROUND_CEILING; ROUND_FLOOR; ROUND_HALF_DOWN; ROUND_UP; ROUND_05UP ]
  = [ [ "1.00"; "-1.00"; "1.01"; "0.12"; "0.13"; "-0.12"; "0.00"; "-0.00"; "0.00"; "0.01"; "0.00"; "0.00"; "9.99"; "-9.99"; "10.00"; "10.00"; "10.00"; "0.00"; "0.00"; "0.00"; "0.00"; "0.00"; "-0.00"; "0.00"; "-0.00"; "0.00"; "120.00"; "0.70"; "1.05"; "1.55"; "1.45"; "1000000000000000000000000000.00"; "123456789012345678901234567890.99"; "0.00"; "0.00"; "0.00"; "0.01"; "0.02"; "0.99"; "0.99"; "5.00"; "5.01"; "1.00"; "-40400.00"; "0.00"; "-21.79"; "0.70"; "0.70"; "954873864900.00"; "68.09"; "0.00"; "-2420198.00"; "991485394400.00"; "740.00"; "102163.00"; "88459.19"; "-58118295.90"; "-8261117.83"; "-0.02"; "987949474.10"; "-3154603407940.00"; "0.65"; "15936.70"; "-0.00"; "-729.07"; "-771.75"; "6214100.00"; "400.00" ];
      [ "1.01"; "-1.01"; "1.02"; "0.13"; "0.14"; "-0.13"; "0.00"; "-0.00"; "0.01"; "0.02"; "0.00"; "0.01"; "10.00"; "-10.00"; "10.01"; "10.00"; "10.01"; "0.00"; "0.01"; "0.01"; "0.00"; "0.00"; "-0.00"; "0.00"; "-0.00"; "0.00"; "120.00"; "0.70"; "1.05"; "1.55"; "1.45"; "1000000000000000000000000000.01"; "123456789012345678901234567891.00"; "0.01"; "0.01"; "0.00"; "0.02"; "0.03"; "1.00"; "1.00"; "5.01"; "5.02"; "1.00"; "-40400.00"; "0.00"; "-21.79"; "0.70"; "0.70"; "954873864900.00"; "68.10"; "0.00"; "-2420198.00"; "991485394400.00"; "740.00"; "102163.00"; "88459.20"; "-58118295.91"; "-8261117.83"; "-0.03"; "987949474.10"; "-3154603407940.00"; "0.65"; "15936.70"; "-0.00"; "-729.07"; "-771.76"; "6214100.00"; "400.00" ];
      [ "1.00"; "-1.00"; "1.02"; "0.12"; "0.14"; "-0.12"; "0.00"; "-0.00"; "0.00"; "0.02"; "0.00"; "0.01"; "10.00"; "-10.00"; "10.00"; "10.00"; "10.01"; "0.00"; "0.00"; "0.01"; "0.00"; "0.00"; "-0.00"; "0.00"; "-0.00"; "0.00"; "120.00"; "0.70"; "1.05"; "1.55"; "1.45"; "1000000000000000000000000000.00"; "123456789012345678901234567891.00"; "0.01"; "0.00"; "0.00"; "0.02"; "0.02"; "1.00"; "1.00"; "5.00"; "5.02"; "1.00"; "-40400.00"; "0.00"; "-21.79"; "0.70"; "0.70"; "954873864900.00"; "68.10"; "0.00"; "-2420198.00"; "991485394400.00"; "740.00"; "102163.00"; "88459.20"; "-58118295.91"; "-8261117.83"; "-0.03"; "987949474.10"; "-3154603407940.00"; "0.65"; "15936.70"; "-0.00"; "-729.07"; "-771.76"; "6214100.00"; "400.00" ];
      [ "1.01"; "-1.00"; "1.02"; "0.13"; "0.14"; "-0.12"; "0.01"; "-0.00"; "0.01"; "0.02"; "0.01"; "0.01"; "10.00"; "-9.99"; "10.01"; "10.01"; "10.01"; "0.01"; "0.01"; "0.01"; "0.01"; "0.01"; "-0.00"; "0.00"; "-0.00"; "0.00"; "120.00"; "0.70"; "1.05"; "1.55"; "1.45"; "1000000000000000000000000000.01"; "123456789012345678901234567891.00"; "0.01"; "0.01"; "0.01"; "0.02"; "0.03"; "1.00"; "1.00"; "5.01"; "5.02"; "1.01"; "-40400.00"; "0.01"; "-21.79"; "0.71"; "0.70"; "954873864900.00"; "68.10"; "0.01"; "-2420198.00"; "991485394400.00"; "740.00"; "102163.00"; "88459.20"; "-58118295.90"; "-8261117.83"; "-0.02"; "987949474.10"; "-3154603407940.00"; "0.65"; "15936.70"; "-0.00"; "-729.07"; "-771.75"; "6214100.00"; "400.00" ];
      [ "1.00"; "-1.01"; "1.01"; "0.12"; "0.13"; "-0.13"; "0.00"; "-0.01"; "0.00"; "0.01"; "0.00"; "0.00"; "9.99"; "-10.00"; "10.00"; "10.00"; "10.00"; "0.00"; "0.00"; "0.00"; "0.00"; "0.00"; "-0.01"; "0.00"; "-0.00"; "0.00"; "120.00"; "0.70"; "1.05"; "1.55"; "1.45"; "1000000000000000000000000000.00"; "123456789012345678901234567890.99"; "0.00"; "0.00"; "0.00"; "0.01"; "0.02"; "0.99"; "0.99"; "5.00"; "5.01"; "1.00"; "-40400.00"; "0.00"; "-21.80"; "0.70"; "0.70"; "954873864900.00"; "68.09"; "0.00"; "-2420198.00"; "991485394400.00"; "740.00"; "102163.00"; "88459.19"; "-58118295.91"; "-8261117.84"; "-0.03"; "987949474.10"; "-3154603407940.00"; "0.65"; "15936.70"; "-0.01"; "-729.07"; "-771.76"; "6214100.00"; "400.00" ];
      [ "1.00"; "-1.00"; "1.01"; "0.12"; "0.13"; "-0.12"; "0.00"; "-0.00"; "0.00"; "0.01"; "0.00"; "0.01"; "10.00"; "-10.00"; "10.00"; "10.00"; "10.01"; "0.00"; "0.00"; "0.01"; "0.00"; "0.00"; "-0.00"; "0.00"; "-0.00"; "0.00"; "120.00"; "0.70"; "1.05"; "1.55"; "1.45"; "1000000000000000000000000000.00"; "123456789012345678901234567890.99"; "0.01"; "0.00"; "0.00"; "0.01"; "0.02"; "0.99"; "1.00"; "5.00"; "5.01"; "1.00"; "-40400.00"; "0.00"; "-21.79"; "0.70"; "0.70"; "954873864900.00"; "68.10"; "0.00"; "-2420198.00"; "991485394400.00"; "740.00"; "102163.00"; "88459.20"; "-58118295.91"; "-8261117.83"; "-0.03"; "987949474.10"; "-3154603407940.00"; "0.65"; "15936.70"; "-0.00"; "-729.07"; "-771.76"; "6214100.00"; "400.00" ];
      [ "1.01"; "-1.01"; "1.02"; "0.13"; "0.14"; "-0.13"; "0.01"; "-0.01"; "0.01"; "0.02"; "0.01"; "0.01"; "10.00"; "-10.00"; "10.01"; "10.01"; "10.01"; "0.01"; "0.01"; "0.01"; "0.01"; "0.01"; "-0.01"; "0.00"; "-0.00"; "0.00"; "120.00"; "0.70"; "1.05"; "1.55"; "1.45"; "1000000000000000000000000000.01"; "123456789012345678901234567891.00"; "0.01"; "0.01"; "0.01"; "0.02"; "0.03"; "1.00"; "1.00"; "5.01"; "5.02"; "1.01"; "-40400.00"; "0.01"; "-21.80"; "0.71"; "0.70"; "954873864900.00"; "68.10"; "0.01"; "-2420198.00"; "991485394400.00"; "740.00"; "102163.00"; "88459.20"; "-58118295.91"; "-8261117.84"; "-0.03"; "987949474.10"; "-3154603407940.00"; "0.65"; "15936.70"; "-0.01"; "-729.07"; "-771.76"; "6214100.00"; "400.00" ];
      [ "1.01"; "-1.01"; "1.01"; "0.12"; "0.13"; "-0.12"; "0.01"; "-0.01"; "0.01"; "0.01"; "0.01"; "0.01"; "9.99"; "-9.99"; "10.01"; "10.01"; "10.01"; "0.01"; "0.01"; "0.01"; "0.01"; "0.01"; "-0.01"; "0.00"; "-0.00"; "0.00"; "120.00"; "0.70"; "1.05"; "1.55"; "1.45"; "1000000000000000000000000000.01"; "123456789012345678901234567890.99"; "0.01"; "0.01"; "0.01"; "0.01"; "0.02"; "0.99"; "0.99"; "5.01"; "5.01"; "1.01"; "-40400.00"; "0.01"; "-21.79"; "0.71"; "0.70"; "954873864900.00"; "68.09"; "0.01"; "-2420198.00"; "991485394400.00"; "740.00"; "102163.00"; "88459.19"; "-58118295.91"; "-8261117.83"; "-0.02"; "987949474.10"; "-3154603407940.00"; "0.65"; "15936.70"; "-0.01"; "-729.07"; "-771.76"; "6214100.00"; "400.00" ] ].
Proof. vm_compute. reflexivity. Qed.

(** What CPython prints for [urlencode] and for a signature string with
    six extra parameters. *)
Example urlencode_sample :
  Urllib.urlencode [("a b", "c~d/&=+%:@"); ("x", ""); ("Shp_user", "42")]
  = "a+b=c~d%2F%26%3D%2B%25%3A%40&x=&Shp_user=42".
Proof. vm_compute. reflexivity. Qed.

Example signature_string_sample :
  signature_string ROUND_HALF_EVEN "shop1" (Finite false 100 0) "12345" "pw1"
    (Some [("b", "1"); ("a", "2"); ("ab", "3"); ("B", "4"); ("a.", "5");
           ("a b", "6")])
  = "shop1:100.00:12345:pw1:B=4:a=2:a b=6:a.=5:ab=3:b=1".
Proof. vm_compute. reflexivity. Qed.

Example url_sample :
  get_payment_url ROUND_HALF_EVEN
    (RobokassaConfig_init "YOUR_MERCHANT_LOGIN" "YOUR_PASSWORD1"
       "YOUR_PASSWORD2" true)
    "12345" (Finite false 10000 (-2)) "Test Payment"
    (Some "customer@example.com") None (Some "https://example.com/return")
  = "https://test.robokassa.ru/Merchant/Index?MerchantLogin=YOUR_MERCHANT_LOGIN&Sum=100.00&InvoiceID=12345&Description=Test+Payment&SignatureValue=641744ce800e48375b0685aafdbe05e4&IsTest=1&Email=customer%40example.com&ReturnURL=https%3A%2F%2Fexample.com%2Freturn".
Proof. vm_compute. reflexivity. Qed.

(* ------------------------------------------------------------------ *)
(** ** The digest is 32 lowercase hexadecimal characters *)

Lemma hex_digit_lower (n : Z) : is_lower_hex (MD5.hex_digit n) = true.
Proof.
  unfold MD5.hex_digit.
  assert (Hr : 0 <= n mod 16 < 16) by (apply Z.mod_pos_bound; lia).
  assert (Hc : exists k : nat, (k < 16)%nat /\ Z.to_nat (n mod 16) = k).
  { exists (Z.to_nat (n mod 16)). split; [lia | reflexivity]. }
  destruct Hc as (k & Hk & ->).
  do 16 (destruct k as [|k]; [reflexivity|]). lia.
Qed.

Lemma hex_of_bytes_length (bs : list Z) :
  String.length (MD5.hex_of_bytes bs) = (2 * List.length bs)%nat.
Proof.
  induction bs as [|b bs IH]; simpl; [reflexivity|]. rewrite IH. lia.
Qed.

Lemma hex_of_bytes_lower (bs : list Z) :
  all_chars is_lower_hex (MD5.hex_of_bytes bs) = true.
Proof.
  induction bs as [|b bs IH]; simpl; [reflexivity|].
  now rewrite !hex_digit_lower, IH.
Qed.

Lemma le_bytes_length (n : nat) (x : Z) : List.length (MD5.le_bytes n x) = n.
Proof.
  revert x. induction n as [|n IH]; intros x; simpl; [reflexivity|].
  now rewrite IH.
Qed.

Lemma digest_length (data : list Z) : List.length (MD5.digest data) = 16%nat.
Proof.
  unfold MD5.digest. rewrite !length_app, !le_bytes_length. reflexivity.
Qed.

Lemma hexdigest_length (data : string) :
  String.length (MD5.hexdigest data) = 32%nat.
Proof.
  unfold MD5.hexdigest. now rewrite hex_of_bytes_length, digest_length.
Qed.

Lemma hexdigest_lower_hex (data : string) :
  all_chars is_lower_hex (MD5.hexdigest data) = true.
Proof. apply hex_of_bytes_lower. Qed.

Lemma lower_char_lower_hex (c : ascii) :
  is_lower_hex c = true -> lower_char c = c.
Proof.
  unfold is_lower_hex, lower_char, Urllib.in_range. intros H.
  destruct ((N_of_ascii "A" <=? N_of_ascii c)%N
            && (N_of_ascii c <=? N_of_ascii "Z")%N) eqn:E; [|reflexivity].
  exfalso. change (N_of_ascii "A") with 65%N in E.
  change (N_of_ascii "Z") with 90%N in E.
  change (N_of_ascii "0") with 48%N in H.
  change (N_of_ascii "9") with 57%N in H.
  change (N_of_ascii "a") with 97%N in H.
  change (N_of_ascii "f") with 102%N in H.
  apply andb_true_iff in E. destruct E as [E1 E2].
  apply N.leb_le in E1, E2.
  apply orb_true_iff in H.
  destruct H as [H|H]; apply andb_true_iff in H; destruct H as [H1 H2];
    apply N.leb_le in H1, H2; lia.
Qed.

Lemma lower_lower_hex (s : string) :
  all_chars is_lower_hex s = true -> lower s = s.
Proof.
  induction s as [|c s IH]; simpl; [reflexivity|].
  intros H. apply andb_true_iff in H. destruct H as [Hc Hs].
  now rewrite lower_char_lower_hex, IH.
Qed.

Lemma lower_hexdigest (data : string) :
  lower (MD5.hexdigest data) = MD5.hexdigest data.
Proof. apply lower_lower_hex, hexdigest_lower_hex. Qed.



(* ------------------------------------------------------------------ *)
(** ** Ordering of strings and of items, and [sorted] *)


Lemma string_compare_trans (a b c : string) :
  String.compare a b = Lt -> String.compare b c = Lt ->
  String.compare a c = Lt.
Proof.
  revert b c. induction a as [|x a IH]; intros [|y b] [|z c]; simpl;
    try discriminate; try reflexivity.
  unfold Ascii.compare.
  destruct (N.compare_spec (N_of_ascii x) (N_of_ascii y)) as [Exy|Lxy|Gxy];
    try discriminate;
    destruct (N.compare_spec (N_of_ascii y) (N_of_ascii z)) as [Eyz|Lyz|Gyz];
    try discriminate; intros H1 H2.
  - rewrite Exy, Eyz, N.compare_refl. eapply IH; eassumption.
  - rewrite Exy. now apply N.compare_lt_iff in Lyz as ->.
  - rewrite <- Eyz. now apply N.compare_lt_iff in Lxy as ->.
  - assert (L : (N_of_ascii x < N_of_ascii z)%N) by lia.
    now apply N.compare_lt_iff in L as ->.
Qed.

Lemma string_ltb_lt (a b : string) :
  String.ltb a b = true <-> String.compare a b = Lt.
Proof.
  unfold String.ltb. destruct (String.compare a b); split; congruence.
Qed.


Lemma string_ltb_trans (a b c : string) :
  String.ltb a b = true -> String.ltb b c = true -> String.ltb a c = true.
Proof. rewrite !string_ltb_lt. apply string_compare_trans. Qed.

Lemma string_ltb_asym (a b : string) :
  String.ltb a b = true -> String.ltb b a = false.
Proof.
  unfold String.ltb. rewrite (String.compare_antisym a b).
  destruct (String.compare b a); simpl; congruence.
Qed.

Lemma string_ltb_total (a b : string) :
  String.ltb a b = false -> String.ltb b a = false -> a = b.
Proof.
  unfold String.ltb. rewrite (String.compare_antisym a b).
  destruct (String.compare b a) eqn:E; simpl; try discriminate.
  intros _ _. symmetry. now apply String.compare_eq_iff.
Qed.


Lemma tuple_ltb_asym (x y : string * string) :
  tuple_ltb x y = true -> tuple_ltb y x = false.
Proof.
  unfold tuple_ltb. rewrite (String.eqb_sym (fst y)).
  destruct (String.eqb_spec (fst x) (fst y)); apply string_ltb_asym.
Qed.

Lemma tuple_ltb_total (x y : string * string) :
  tuple_ltb x y = false -> tuple_ltb y x = false -> x = y.
Proof.
  unfold tuple_ltb. rewrite (String.eqb_sym (fst y)).
  destruct x as [kx vx], y as [ky vy]; simpl.
  destruct (String.eqb_spec kx ky) as [->|Hne]; intros H1 H2.
  - f_equal. now apply string_ltb_total.
  - exfalso. apply Hne. now apply string_ltb_total.
Qed.

Lemma tuple_ltb_trans (x y z : string * string) :
  tuple_ltb x y = true -> tuple_ltb y z = true -> tuple_ltb x z = true.
Proof.
  unfold tuple_ltb.
  destruct x as [kx vx], y as [ky vy], z as [kz vz]; simpl.
  destruct (String.eqb_spec kx ky) as [->|Hxy];
    destruct (String.eqb_spec ky kz) as [->|Hyz]; intros H1 H2.
  - eapply string_ltb_trans; eassumption.
  - assumption.
  - destruct (String.eqb_spec kx kz); [contradiction | assumption].
  - destruct (String.eqb_spec kx kz) as [->|Hxz].
    + rewrite (string_ltb_asym _ _ H1) in H2. discriminate.
    + eapply string_ltb_trans; eassumption.
Qed.

(** [y <= z] and [z < x] give [y < x]. *)
Lemma tuple_le_lt_trans (x y z : string * string) :
  tuple_ltb z y = false -> tuple_ltb z x = true -> tuple_ltb y x = true.
Proof.
  intros Hle Hlt. destruct (tuple_ltb y z) eqn:E.
  - eapply tuple_ltb_trans; eassumption.
  - now rewrite (tuple_ltb_total y z E Hle).
Qed.

Lemma insert_insert (x y : string * string) (l : dict) :
  insert x (insert y l) = insert y (insert x l).
Proof.
  induction l as [|z l IH]; simpl.
  - destruct (tuple_ltb y x) eqn:Eyx, (tuple_ltb x y) eqn:Exy;
      try reflexivity.
    + now rewrite (tuple_ltb_asym _ _ Eyx) in Exy.
    + now rewrite (tuple_ltb_total x y Exy Eyx).
  - destruct (tuple_ltb z y) eqn:Ezy, (tuple_ltb z x) eqn:Ezx; simpl;
      rewrite ?Ezy, ?Ezx.
    + now rewrite IH.
    + rewrite (tuple_le_lt_trans y x z Ezx Ezy). simpl.
      rewrite ?Ezy. reflexivity.
    + rewrite (tuple_le_lt_trans x y z Ezy Ezx). simpl.
      rewrite ?Ezx. reflexivity.
    + destruct (tuple_ltb y x) eqn:Eyx, (tuple_ltb x y) eqn:Exy; simpl;
        rewrite ?Ezy, ?Ezx; try reflexivity.
      * now rewrite (tuple_ltb_asym _ _ Eyx) in Exy.
      * now rewrite (tuple_ltb_total x y Exy Eyx).
Qed.

Lemma sorted_Permutation_eq (l1 l2 : dict) :
  Permutation l1 l2 -> sorted l1 = sorted l2.
Proof.
  induction 1 as [|x l1 l2 _ IH|x y l|l1 l2 l3 _ IH1 _ IH2]; simpl.
  - reflexivity.
  - now rewrite IH.
  - apply insert_insert.
  - congruence.
Qed.







(* ------------------------------------------------------------------ *)
(** ** The fixed-point format of an amount *)



Lemma digits_fuel_length (fuel : nat) (n : N) (acc : string) :
  (String.length acc <= String.length (digits_fuel fuel n acc))%nat.
Proof.
  revert n acc. induction fuel as [|fuel IH]; intros n acc; simpl.
  - lia.
  - destruct (n / 10 =? 0)%N; simpl; [lia|].
    etransitivity; [|apply IH]. simpl. lia.
Qed.


Lemma str_of_N_length (n : N) : (1 <= String.length (str_of_N n))%nat.
Proof.
  unfold str_of_N. simpl.
  destruct (n / 10 =? 0)%N; simpl; [lia|].
  etransitivity; [|apply digits_fuel_length]. simpl. lia.
Qed.

Lemma all_chars_app (p : ascii -> bool) (a b : string) :
  all_chars p (a ++ b) = all_chars p a && all_chars p b.
Proof.
  induction a as [|c a IH]; simpl; [reflexivity|].
  now rewrite IH, andb_assoc.
Qed.





Lemma rescale_finite (rounding : Rounding) (exp : Z) (s : bool) (c : N) (e : Z) :
  exists c', _rescale rounding exp (Finite s c e) = Finite s c' exp.
Proof.
  simpl. destruct (c =? 0)%N; [now exists 0%N|].
  destruct (exp <=? e); eexists; reflexivity.
Qed.



Lemma rescale_idempotent (rounding : Rounding) (exp : Z) (d : Decimal) :
  _rescale rounding exp (_rescale rounding exp d) = _rescale rounding exp d.
Proof.
  destruct d as [s c e| | |]; try reflexivity.
  destruct (rescale_finite rounding exp s c e) as (c' & ->).
  simpl. destruct (N.eqb_spec c' 0) as [->|_]; [reflexivity|].
  rewrite Z.leb_refl, Z.sub_diag. simpl. now rewrite N.mul_1_r.
Qed.

(** An amount read back from its own rendering renders the same. *)
Lemma format_2f_rescale (rounding : Rounding) (d : Decimal) :
  format_2f rounding (_rescale rounding (-2) d) = format_2f rounding d.
Proof.
  destruct d as [s c e| | |]; try reflexivity.
  unfold format_2f at 2.
  destruct (rescale_finite rounding (-2) s c e) as (c' & E).
  rewrite E. unfold format_2f.
  rewrite <- E, rescale_idempotent, E. reflexivity.
Qed.

(* ------------------------------------------------------------------ *)
(** ** Dictionaries *)

Lemma dict_get_set (d : dict) (k v k' : string) :
  dict_get (dict_set d k v) k'
  = if (k' =? k)%string then Some v else dict_get d k'.
Proof.
  induction d as [|[k0 v0] d IH]; simpl.
  - reflexivity.
  - destruct (String.eqb_spec k k0) as [->|Hne]; simpl.
    + destruct (String.eqb_spec k' k0); reflexivity.
    + rewrite IH. destruct (String.eqb_spec k' k0) as [->|_];
        [|reflexivity].
      destruct (String.eqb_spec k0 k); [congruence | reflexivity].
Qed.

Lemma dict_get_None (d : dict) (k : string) :
  ~ In k (keys d) -> dict_get d k = None.
Proof.
  induction d as [|[k0 v0] d IH]; simpl; [reflexivity|].
  intros H. destruct (String.eqb_spec k k0) as [->|_].
  - exfalso. apply H. now left.
  - apply IH. intros Hin. apply H. now right.
Qed.

Lemma dict_get_In (d : dict) (k v : string) :
  dict_get d k = Some v -> In k (keys d).
Proof.
  induction d as [|[k0 v0] d IH]; simpl; [discriminate|].
  destruct (String.eqb_spec k k0) as [->|_]; [now left|].
  intros H. right. now apply IH.
Qed.

(** After [d.update(other)] a key of [other] has the value [other] gives
    it, and every other key keeps the value it had in [d]. *)
Lemma dict_get_update (d other : dict) (k : string) :
  NoDup (keys other) ->
  dict_get (dict_update d other) k
  = match dict_get other k with
    | Some v => Some v
    | None => dict_get d k
    end.
Proof.
  unfold dict_update. revert d.
  induction other as [|[k0 v0] other IH]; intros d Hnd; simpl.
  - reflexivity.
  - inversion Hnd as [|? ? Hnotin Hnd']; subst.
    rewrite IH by assumption. rewrite dict_get_set.
    destruct (String.eqb_spec k k0) as [->|_]; [|reflexivity].
    now rewrite dict_get_None.
Qed.

Lemma keys_dict_set (d : dict) (k v : string) :
  keys (dict_set d k v)
  = if in_dec string_dec k (keys d) then keys d
    else List.app (keys d) [k].
Proof.
  induction d as [|[k0 v0] d IH]; simpl; [reflexivity|].
  destruct (String.eqb_spec k k0) as [->|Hne]; simpl.
  - destruct (string_dec k0 k0); [reflexivity | congruence].
  - rewrite IH. destruct (string_dec k0 k); [congruence|].
    destruct (in_dec string_dec k (keys d)); reflexivity.
Qed.

Lemma NoDup_keys_dict_set (d : dict) (k v : string) :
  NoDup (keys d) -> NoDup (keys (dict_set d k v)).
Proof.
  intros H. rewrite keys_dict_set.
  destruct (in_dec string_dec k (keys d)) as [|Hn]; [assumption|].
  apply NoDup_app; [assumption | repeat constructor; simpl; tauto |].
  intros x Hx [<-|[]]. now apply Hn.
Qed.

Lemma NoDup_keys_dict_update (d other : dict) :
  NoDup (keys d) -> NoDup (keys (dict_update d other)).
Proof.
  unfold dict_update. revert d.
  induction other as [|[k0 v0] other IH]; intros d H; simpl;
    [assumption|].
  apply IH. now apply NoDup_keys_dict_set.
Qed.

(* ------------------------------------------------------------------ *)
(** ** Reading back an encoded query *)

(** Every byte, once percent-encoded, decodes to itself, and its two
    hexadecimal digits are not separators. *)
Lemma percent_byte (c : ascii) :
  let h := Urllib.upper_hex_digit (N_of_ascii c / 16) in
  let l := Urllib.upper_hex_digit (N_of_ascii c) in
  match Urllib.hex_value h, Urllib.hex_value l with
  | Some hv, Some lv => ascii_of_N (16 * hv + lv) = c
  | _, _ => False
  end /\ plain h = true /\ plain l = true.
Proof.
  destruct c as [[] [] [] [] [] [] [] []]; vm_compute; auto.
Qed.

Lemma always_safe_plain (c : ascii) :
  Urllib.always_safe c = true ->
  plain c = true /\ Ascii.eqb c "+" = false /\ Ascii.eqb c "%" = false.
Proof.
  destruct c as [[] [] [] [] [] [] [] []]; vm_compute; auto;
    discriminate.
Qed.

Lemma quote_plus_plain (s : string) :
  all_chars plain (Urllib.quote_plus s) = true.
Proof.
  induction s as [|c s IH]; simpl; [reflexivity|].
  destruct (Ascii.eqb c " "); [simpl; exact IH|].
  destruct (Urllib.always_safe c) eqn:Es; simpl.
  - destruct (always_safe_plain c Es) as (-> & _). exact IH.
  - destruct (percent_byte c) as (_ & -> & ->). exact IH.
Qed.

Lemma unquote_plus_other (c : ascii) (s : string) :
  Ascii.eqb c "+" = false -> Ascii.eqb c "%" = false ->
  Urllib.unquote_plus (String c s) = String c (Urllib.unquote_plus s).
Proof.
  intros Hplus Hpct. cbn [Urllib.unquote_plus]. rewrite Hplus, Hpct.
  now destruct s as [|h [|l r]].
Qed.

Lemma unquote_plus_quote_plus (s : string) :
  Urllib.unquote_plus (Urllib.quote_plus s) = s.
Proof.
  induction s as [|c s IH]; [reflexivity|].
  cbn [Urllib.quote_plus].
  destruct (Ascii.eqb_spec c " ") as [->|Hsp].
  - cbn. now rewrite IH.
  - destruct (Urllib.always_safe c) eqn:Es.
    + destruct (always_safe_plain c Es) as (_ & Hplus & Hpct).
      now rewrite unquote_plus_other, IH.
    + destruct (percent_byte c) as (Hdec & _ & _).
      cbn [Urllib.unquote_plus].
      change (Ascii.eqb "%" "+") with false.
      change (Ascii.eqb "%" "%") with true. cbv iota.
      cbv zeta in Hdec.
      destruct (Urllib.hex_value
                  (Urllib.upper_hex_digit (N_of_ascii c / 16)));
        [|contradiction].
      destruct (Urllib.hex_value (Urllib.upper_hex_digit (N_of_ascii c)));
        [|contradiction].
      fold Urllib.unquote_plus. now rewrite Hdec, IH.
Qed.

Lemma plain_lacks (sep : ascii) (s : string) :
  plain sep = false -> all_chars plain s = true -> lacks sep s = true.
Proof.
  intros Hsep. unfold lacks.
  induction s as [|c s IH]; simpl; [reflexivity|].
  intros H. apply andb_true_iff in H. destruct H as [Hc Hs].
  rewrite IH by assumption. rewrite andb_true_r.
  destruct (Ascii.eqb_spec c sep) as [->|_]; [congruence | reflexivity].
Qed.

Lemma lacks_app (sep : ascii) (a b : string) :
  lacks sep (a ++ b) = lacks sep a && lacks sep b.
Proof. apply all_chars_app. Qed.

Lemma split_lacks (sep : ascii) (s : string) :
  lacks sep s = true -> Urllib.split sep s = [s].
Proof.
  induction s as [|c s IH]; simpl; [reflexivity|].
  intros H. apply andb_true_iff in H. destruct H as [Hc Hs].
  apply negb_true_iff in Hc. rewrite Hc, IH by assumption. reflexivity.
Qed.

Lemma split_app_sep (sep : ascii) (a b : string) :
  lacks sep a = true ->
  Urllib.split sep (a ++ String sep b) = a :: Urllib.split sep b.
Proof.
  induction a as [|c a IH]; simpl.
  - now rewrite Ascii.eqb_refl.
  - intros H. apply andb_true_iff in H. destruct H as [Hc Hs].
    apply negb_true_iff in Hc. rewrite Hc, IH by assumption. reflexivity.
Qed.

Lemma partition_app_sep (sep : ascii) (a b : string) :
  lacks sep a = true -> Urllib.partition sep (a ++ String sep b) = (a, b).
Proof.
  induction a as [|c a IH]; simpl.
  - now rewrite Ascii.eqb_refl.
  - intros H. apply andb_true_iff in H. destruct H as [Hc Hs].
    apply negb_true_iff in Hc. rewrite Hc, IH by assumption. reflexivity.
Qed.

Lemma split_concat (sep : ascii) (x : string) (items : list string) :
  Forall (fun s => lacks sep s = true) (x :: items) ->
  Urllib.split sep (String.concat (String sep "") (x :: items)) = x :: items.
Proof.
  revert x. induction items as [|y items IH]; intros x H.
  - simpl. apply split_lacks. now inversion H.
  - inversion H as [|? ? Hx Hrest]; subst.
    change (String.concat (String sep "") (x :: y :: items))
      with (x ++ String sep (String.concat (String sep "") (y :: items))).
    rewrite split_app_sep by assumption. now rewrite IH.
Qed.

Lemma query_item_lacks_amp (kv : string * string) :
  lacks "&" (query_item kv) = true.
Proof.
  unfold query_item. rewrite !lacks_app.
  rewrite (plain_lacks "&" (Urllib.quote_plus (fst kv)))
    by (reflexivity || apply quote_plus_plain).
  rewrite (plain_lacks "&" (Urllib.quote_plus (snd kv)))
    by (reflexivity || apply quote_plus_plain).
  reflexivity.
Qed.

Lemma query_item_decode (kv : string * string) :
  (let '(k, v) := Urllib.partition "=" (query_item kv) in
   (Urllib.unquote_plus k, Urllib.unquote_plus v)) = kv.
Proof.
  unfold query_item. destruct kv as [k v]. simpl fst. simpl snd.
  change ("=" ++ Urllib.quote_plus v) with (String "=" (Urllib.quote_plus v)).
  rewrite partition_app_sep
    by (apply plain_lacks; [reflexivity | apply quote_plus_plain]).
  now rewrite !unquote_plus_quote_plus.
Qed.

Lemma query_item_nonempty (kv : string * string) :
  negb (query_item kv =? "")%string = true.
Proof.
  unfold query_item. destruct (Urllib.quote_plus (fst kv)); reflexivity.
Qed.

(** [parse_qsl] undoes [urlencode]. *)
Lemma parse_qsl_urlencode (d : dict) :
  Urllib.parse_qsl (Urllib.urlencode d) = d.
Proof.
  unfold Urllib.parse_qsl, Urllib.urlencode.
  change (fun kv : string * string =>
            Urllib.quote_plus (fst kv) ++ "=" ++ Urllib.quote_plus (snd kv))
    with query_item.
  destruct d as [|x d]; [reflexivity|].
  change (map query_item (x :: d)) with (query_item x :: map query_item d).
  rewrite split_concat.
  - change (query_item x :: map query_item d)
      with (map query_item (x :: d)).
    generalize (x :: d). intros l.
    induction l as [|y l IH]; [reflexivity|].
    cbn [map filter]. rewrite query_item_nonempty. cbn [map].
    now rewrite query_item_decode, IH.
  - change (query_item x :: map query_item d)
      with (map query_item (x :: d)).
    apply Forall_forall. intros s Hs. apply in_map_iff in Hs.
    destruct Hs as (kv & <- & _). apply query_item_lacks_amp.
Qed.

Lemma url_params_payment_url
    (login p1 p2 : string) (tm : bool) (query : string) :
  Urllib.url_params
    (base_url (RobokassaConfig_init login p1 p2 tm)
       ++ "/Merchant/Index?" ++ query)
  = Urllib.parse_qsl query.
Proof. unfold Urllib.url_params. destruct tm; reflexivity. Qed.

(** What the receiver reads under [key] in the payment URL is what the
    [params] dict holds under it. *)
Lemma url_param_get_payment_url
    (rounding : Rounding) (login p1 p2 : string) (tm : bool)
    (invoice_id : string) (amount : Decimal) (description : string)
    (email : option string) (extra_params : option dict)
    (return_url : option string) (key : string) :
  url_param
    (get_payment_url rounding (RobokassaConfig_init login p1 p2 tm)
       invoice_id amount description email extra_params return_url) key
  = dict_get
      (payment_params rounding (RobokassaConfig_init login p1 p2 tm)
         invoice_id amount description email extra_params return_url) key.
Proof.
  unfold url_param, get_payment_url.
  now rewrite url_params_payment_url, parse_qsl_urlencode.
Qed.

(* ------------------------------------------------------------------ *)
(** ** The signature *)

Lemma fold_left_append (base : list string) (items : dict) :
  fold_left (fun parts kv => List.app parts [fst kv ++ "=" ++ snd kv])
            items base
  = List.app base (map (fun kv => fst kv ++ "=" ++ snd kv) items).
Proof.
  revert base. induction items as [|x items IH]; intros base; simpl.
  - now rewrite app_nil_r.
  - rewrite IH, <- app_assoc. reflexivity.
Qed.

Lemma signature_parts_eq
    (rounding : Rounding) (login : string) (amount : Decimal)
    (invoice_id password : string) (extra_params : option dict) :
  signature_parts rounding login amount invoice_id password extra_params
  = List.app [login; format_2f rounding amount; invoice_id; password]
      (map (fun kv => fst kv ++ "=" ++ snd kv)
           (sorted (or_empty extra_params))).
Proof.
  unfold signature_parts.
  destruct extra_params as [[|x d]|]; try reflexivity.
  cbn [truthy_dict]. apply fold_left_append.
Qed.

(** The signature depends on the amount only through its rendering. *)
Lemma generate_signature_same_rendering
    (rounding : Rounding) (login : string) (amount amount' : Decimal)
    (invoice_id password : string) (extra_params : option dict) :
  format_2f rounding amount' = format_2f rounding amount ->
  _generate_signature rounding login amount' invoice_id password extra_params
  = _generate_signature rounding login amount invoice_id password
      extra_params.
Proof.
  intros H. unfold _generate_signature, signature_string.
  now rewrite !signature_parts_eq, H.
Qed.

Lemma lower_generate_signature
    (rounding : Rounding) (login : string) (amount : Decimal)
    (invoice_id password : string) (extra_params : option dict) :
  lower (_generate_signature rounding login amount invoice_id password
           extra_params)
  = _generate_signature rounding login amount invoice_id password
      extra_params.
Proof. apply lower_hexdigest. Qed.

Lemma verify_result_signature_eq
    (rounding : Rounding) (config : RobokassaConfig) (amount : Decimal)
    (invoice_id signature : string) (extra_params : option dict) :
  verify_result_signature rounding config amount invoice_id signature
    extra_params
  = (lower signature
     =? _generate_signature rounding (merchant_login config) amount
          invoice_id (password2 config) extra_params)%string.
Proof.
  unfold verify_result_signature, _generate_signature.
  now rewrite lower_hexdigest.
Qed.


(** C8.  The digest input is not injective: with the same login, amount,
    invoice id and secret, the extra parameters {"a": "b", "c": "d"} and
    {"a": "b:c=d"} give the same signature string and the same digest, so
    a notification signed for the first is accepted with the second. *)
Theorem signature_string_not_injective
    (rounding : Rounding) (config : RobokassaConfig) (amount : Decimal)
    (invoice_id secret : string) :
  let signed := Some [("a", "b"); ("c", "d")] in
  let received := Some [("a", "b:c=d")] in
  signed <> received
  /\ signature_string rounding (merchant_login config) amount invoice_id
       secret signed
     = signature_string rounding (merchant_login config) amount invoice_id
         secret received
  /\ _generate_signature rounding (merchant_login config) amount invoice_id
       secret signed
     = _generate_signature rounding (merchant_login config) amount
         invoice_id secret received
  /\ verify_result_signature rounding config amount invoice_id
       (_generate_signature rounding (merchant_login config) amount
          invoice_id (password2 config) signed)
       received
     = true.
Proof.
  cbv zeta.
  assert (E : forall pw,
             signature_string rounding (merchant_login config) amount
               invoice_id pw (Some [("a", "b"); ("c", "d")])
             = signature_string rounding (merchant_login config) amount
                 invoice_id pw (Some [("a", "b:c=d")])).
  { intros pw. unfold signature_string. rewrite !signature_parts_eq.
    reflexivity. }
  repeat apply conj.
  - discriminate.
  - apply E.
  - unfold _generate_signature. now rewrite E.
  - rewrite verify_result_signature_eq. unfold _generate_signature.
    rewrite E, lower_hexdigest. apply String.eqb_refl.
Qed.

(** C10.  [get_notification_response] returns "OK" immediately followed by
    the invoice id; for "999" it returns "OK999". *)
Theorem get_notification_response_ok (invoice_id : string) :
  get_notification_response invoice_id = String "O" (String "K" invoice_id)
  /\ String.length (get_notification_response invoice_id)
     = (2 + String.length invoice_id)%nat
  /\ get_notification_response "999" = "OK999".
Proof. repeat apply conj; reflexivity. Qed.

(* ------------------------------------------------------------------ *)
(** ** The parameters of the payment URL *)

Lemma dict_get_update_absent (d other : dict) (k : string) :
  dict_get other k = None ->
  dict_get (dict_update d other) k = dict_get d k.
Proof.
  unfold dict_update. revert d.
  induction other as [|[k0 v0] other IH]; intros d; simpl.
  - reflexivity.
  - destruct (String.eqb_spec k k0) as [->|Hne]; [discriminate|].
    intros H. rewrite IH by assumption. rewrite dict_get_set.
    destruct (String.eqb_spec k k0); [contradiction | reflexivity].
Qed.

Section PaymentParams.

Variable rounding : Rounding.
Variable config : RobokassaConfig.
Variables (invoice_id : string) (amount : Decimal) (description : string).
Variables (email : option string) (extra_params : option dict).
Variable return_url : option string.

Local Abbreviation reserved :=
  (reserved_params rounding config invoice_id amount description email
     extra_params return_url).

Local Abbreviation params :=
  (payment_params rounding config invoice_id amount description email
     extra_params return_url).

Ltac reserved_cases :=
  unfold reserved_params;
  generalize (_generate_signature rounding (merchant_login config) amount
                invoice_id (password1 config) extra_params);
  generalize (format_2f rounding amount);
  intros amount_str signature;
  destruct email as [e|]; destruct return_url as [u|]; cbn [truthy_str];
  try destruct (String.eqb_spec e ""); try destruct (String.eqb_spec u "");
  cbn [negb].

Lemma reserved_params_Sum :
  dict_get reserved "Sum" = Some (format_2f rounding amount).
Proof. reserved_cases; reflexivity. Qed.

Lemma reserved_params_InvoiceID :
  dict_get reserved "InvoiceID" = Some invoice_id.
Proof. reserved_cases; reflexivity. Qed.

Lemma reserved_params_SignatureValue :
  dict_get reserved "SignatureValue"
  = Some (_generate_signature rounding (merchant_login config) amount
            invoice_id (password1 config) extra_params).
Proof. reserved_cases; reflexivity. Qed.

Lemma reserved_params_NoDup : NoDup (keys reserved).
Proof.
  reserved_cases; cbn;
    repeat (constructor; [cbn; intuition discriminate|]); constructor.
Qed.

Lemma payment_params_get (k : string) :
  NoDup (keys (or_empty extra_params)) ->
  dict_get params k
  = match dict_get (or_empty extra_params) k with
    | Some v => Some v
    | None => dict_get reserved k
    end.
Proof.
  intros Hnd. unfold payment_params.
  destruct extra_params as [[|x d]|]; cbn [truthy_dict or_empty];
    try reflexivity.
  now apply dict_get_update.
Qed.

Lemma payment_params_get_absent (k : string) :
  dict_get (or_empty extra_params) k = None ->
  dict_get params k = dict_get reserved k.
Proof.
  intros Habs. unfold payment_params.
  destruct extra_params as [[|x d]|]; cbn [truthy_dict or_empty];
    try reflexivity.
  now apply dict_get_update_absent.
Qed.

Lemma payment_params_NoDup : NoDup (keys params).
Proof.
  unfold payment_params.
  destruct (truthy_dict extra_params).
  - apply NoDup_keys_dict_update, reserved_params_NoDup.
  - apply reserved_params_NoDup.
Qed.

End PaymentParams.

(* ------------------------------------------------------------------ *)
(** ** Extra parameters against reserved parameters *)

(** C1, as stated, fails.  For the shop "shop1", the amount 100.00 and the
    extra parameters {"Sum": "1.00"}, the reserved value of [Sum] is
    "100.00", yet the URL carries the extra value "1.00". *)
Lemma reserved_key_overridden :
  let config := RobokassaConfig_init "shop1" "pw1" "pw2" false in
  let amount := Finite false 10000 (-2) in
  let extra_params := Some [("Sum", "1.00")] in
  let payment_url :=
    get_payment_url ROUND_HALF_EVEN config "12345" amount "Test" None
      extra_params None in
  dict_get
    (reserved_params ROUND_HALF_EVEN config "12345" amount "Test" None
       extra_params None) "Sum"
  = Some "100.00"
  /\ dict_get (or_empty extra_params) "Sum" = Some "1.00"
  /\ url_param payment_url "Sum" = Some "1.00"
  /\ url_param payment_url "Sum" <> Some "100.00"
  /\ payment_url
     = "https://auth.robokassa.ru/Merchant/Index?MerchantLogin=shop1&Sum=1.00&InvoiceID=12345&Description=Test&SignatureValue=d49b5fcd39356eea5080ce994e4dcdc4&IsTest=0".
Proof.
  cbv zeta. repeat apply conj; try (vm_compute; reflexivity).
  vm_compute. discriminate.
Qed.

(** C1, amended.  For every payment request, a key of the extra parameters
    appears in the returned URL with the value the extra parameters give it,
    also when the key is a reserved one; a key that is not among the extra
    parameters keeps its reserved value; and no key appears twice. *)
Theorem extra_params_override_reserved
    (rounding : Rounding) (login p1 p2 : string) (tm : bool)
    (invoice_id : string) (amount : Decimal) (description : string)
    (email : option string) (extra_params : option dict)
    (return_url : option string) (key : string) :
  let config := RobokassaConfig_init login p1 p2 tm in
  let payment_url :=
    get_payment_url rounding config invoice_id amount description email
      extra_params return_url in
  NoDup (keys (or_empty extra_params)) ->
  url_param payment_url key
  = match dict_get (or_empty extra_params) key with
    | Some v => Some v
    | None =>
        dict_get
          (reserved_params rounding config invoice_id amount description
             email extra_params return_url) key
    end
  /\ NoDup
       (keys
          (payment_params rounding config invoice_id amount description
             email extra_params return_url)).
Proof.
  cbv zeta. intros Hnd. split.
  - rewrite url_param_get_payment_url. now apply payment_params_get.
  - apply payment_params_NoDup.
Qed.

Lemma extra_params_override_reserved_witness :
  NoDup (keys (or_empty (Some [("Sum", "1.00"); ("Shp_user", "42")])))
  /\ url_param
       (get_payment_url ROUND_HALF_EVEN
          (RobokassaConfig_init "shop1" "pw1" "pw2" false) "12345"
          (Finite false 10000 (-2)) "Test" None
          (Some [("Sum", "1.00"); ("Shp_user", "42")]) None)
       "Sum"
     = Some "1.00".
Proof.
  assert (Hnd : NoDup
                  (keys (or_empty
                           (Some [("Sum", "1.00"); ("Shp_user", "42")])))).
  { cbn. repeat (constructor; [cbn; intuition discriminate|]). constructor. }
  split; [exact Hnd|].
  exact (proj1 (extra_params_override_reserved ROUND_HALF_EVEN "shop1" "pw1"
                  "pw2" false "12345" (Finite false 10000 (-2)) "Test" None
                  (Some [("Sum", "1.00"); ("Shp_user", "42")]) None "Sum"
                  Hnd)).
Defined.






(* ------------------------------------------------------------------ *)
(** ** Notifications *)




(* ------------------------------------------------------------------ *)
(** ** Round trip from the payment URL to the verification *)

(** C4, as stated, fails.  With one secret for both directions and the
    extra parameters {"Sum": "1.00"}, the URL built for the amount 100.00
    carries [Sum=1.00]; fed back with the invoice id and the signature of
    the URL, the verification answers false. *)
Lemma round_trip_sum_overridden :
  let config := RobokassaConfig_init "shop1" "pw" "pw" false in
  let extra_params := Some [("Sum", "1.00")] in
  let payment_url :=
    get_payment_url ROUND_HALF_EVEN config "12345" (Finite false 10000 (-2))
      "Test" None extra_params None in
  password1 config = password2 config
  /\ url_param payment_url "Sum"
     = Some (format_2f ROUND_HALF_EVEN (Finite false 100 (-2)))
  /\ url_param payment_url "InvoiceID" = Some "12345"
  /\ exists signature,
       url_param payment_url "SignatureValue" = Some signature
       /\ verify_result_signature ROUND_HALF_EVEN config
            (Finite false 100 (-2)) "12345" signature extra_params
          = false.
Proof.
  cbv zeta. repeat apply conj; try (vm_compute; reflexivity).
  eexists. split; vm_compute; reflexivity.
Qed.

(** C4, amended.  For every configuration and every payment request whose
    extra parameters have none of the keys [Sum], [InvoiceID] and
    [SignatureValue]: feeding the [Sum], [InvoiceID] and [SignatureValue]
    of the URL returned by [get_payment_url], with the same extra
    parameters, into [verify_result_signature] answers false when the
    digests under [password1] and [password2] differ, and true when
    [password1] is reused as [password2]. *)
Theorem round_trip_secrets
    (rounding : Rounding) (login p1 p2 : string) (tm : bool)
    (invoice_id : string) (amount : Decimal) (description : string)
    (email : option string) (extra_params : option dict)
    (return_url : option string) (sum_amount : Decimal) :
  let config := RobokassaConfig_init login p1 p2 tm in
  let payment_url :=
    get_payment_url rounding config invoice_id amount description email
      extra_params return_url in
  dict_get (or_empty extra_params) "Sum" = None ->
  dict_get (or_empty extra_params) "InvoiceID" = None ->
  dict_get (or_empty extra_params) "SignatureValue" = None ->
  url_param payment_url "Sum" = Some (format_2f rounding sum_amount) ->
  exists signature,
    url_param payment_url "SignatureValue" = Some signature
    /\ url_param payment_url "InvoiceID" = Some invoice_id
    /\ (_generate_signature rounding login amount invoice_id p1 extra_params
        <> _generate_signature rounding login amount invoice_id p2
             extra_params ->
        verify_result_signature rounding config sum_amount invoice_id
          signature extra_params
        = false)
    /\ (p1 = p2 ->
        verify_result_signature rounding config sum_amount invoice_id
          signature extra_params
        = true).
Proof.
  cbv zeta. intros HSum HInv HSig Hread.
  rewrite url_param_get_payment_url, payment_params_get_absent,
    reserved_params_Sum in Hread by assumption.
  injection Hread as Hread. symmetry in Hread.
  exists (_generate_signature rounding login amount invoice_id p1
            extra_params).
  rewrite !url_param_get_payment_url, !payment_params_get_absent
    by assumption.
  rewrite reserved_params_SignatureValue, reserved_params_InvoiceID.
  rewrite verify_result_signature_eq.
  cbn [merchant_login password1 password2 RobokassaConfig_init].
  rewrite (generate_signature_same_rendering rounding login amount
             sum_amount invoice_id p2 extra_params Hread).
  rewrite lower_generate_signature.
  repeat apply conj; try reflexivity.
  - intros Hne. now apply String.eqb_neq.
  - intros ->. apply String.eqb_refl.
Qed.

Lemma round_trip_secrets_witness :
  exists signature,
    url_param
      (get_payment_url ROUND_HALF_EVEN
         (RobokassaConfig_init "shop1" "pw1" "pw2" false) "12345"
         (Finite false 100 0) "Test" None (Some [("Shp_user", "42")]) None)
      "SignatureValue"
    = Some signature
    /\ verify_result_signature ROUND_HALF_EVEN
         (RobokassaConfig_init "shop1" "pw1" "pw2" false)
         (Finite false 10000 (-2)) "12345" signature
         (Some [("Shp_user", "42")])
       = false.
Proof.
  destruct (round_trip_secrets ROUND_HALF_EVEN "shop1" "pw1" "pw2" false
              "12345" (Finite false 100 0) "Test" None
              (Some [("Shp_user", "42")]) None (Finite false 10000 (-2)))
    as (signature & Hsig & _ & Hdiff & _);
    try (vm_compute; reflexivity).
  exists signature. split; [exact Hsig|].
  apply Hdiff. vm_compute. discriminate.
Defined.

(* ------------------------------------------------------------------ *)
(** ** Reordering the extra parameters *)

Lemma dict_get_Permutation (l1 l2 : dict) (k : string) :
  NoDup (keys l1) -> Permutation l1 l2 -> dict_get l1 k = dict_get l2 k.
Proof.
  intros Hnd Hp. revert Hnd.
  induction Hp as [|[k0 v0] l1 l2 Hp IH|[k1 v1] [k2 v2] l|l1 l2 l3 Hp1 IH1 Hp2 IH2];
    intros Hnd.
  - reflexivity.
  - simpl. inversion Hnd; subst. now rewrite IH.
  - simpl. destruct (String.eqb_spec k k2) as [->|_]; [|reflexivity].
    destruct (String.eqb_spec k2 k1) as [->|_]; [|reflexivity].
    exfalso. inversion Hnd as [|? ? Hnotin _]; subst. apply Hnotin. now left.
  - rewrite IH1 by assumption. apply IH2.
    unfold keys in *. eapply Permutation_NoDup; [|exact Hnd].
    now apply Permutation_map.
Qed.

(** C6.  For every two extra-parameter mappings with the same pairs in
    different orders, [_generate_signature] returns the same digest, the
    [SignatureValue] of the payment URL is the same, and
    [verify_result_signature] gives the same verdict. *)
Theorem signature_reorder_invariant
    (rounding : Rounding) (login p1 p2 : string) (tm : bool)
    (invoice_id : string) (amount : Decimal) (description : string)
    (email : option string) (return_url : option string)
    (signature : string) (extra1 extra2 : dict) :
  let config := RobokassaConfig_init login p1 p2 tm in
  NoDup (keys extra1) ->
  Permutation extra1 extra2 ->
  _generate_signature rounding login amount invoice_id p1 (Some extra1)
  = _generate_signature rounding login amount invoice_id p1 (Some extra2)
  /\ url_param
       (get_payment_url rounding config invoice_id amount description email
          (Some extra1) return_url) "SignatureValue"
     = url_param
         (get_payment_url rounding config invoice_id amount description
            email (Some extra2) return_url) "SignatureValue"
  /\ verify_result_signature rounding config amount invoice_id signature
       (Some extra1)
     = verify_result_signature rounding config amount invoice_id signature
         (Some extra2).
Proof.
  cbv zeta. intros Hnd Hp.
  assert (Hsig : forall pw,
             _generate_signature rounding login amount invoice_id pw
               (Some extra1)
             = _generate_signature rounding login amount invoice_id pw
                 (Some extra2)).
  { intros pw. unfold _generate_signature, signature_string.
    rewrite !signature_parts_eq. cbn [or_empty].
    now rewrite (sorted_Permutation_eq extra1 extra2 Hp). }
  assert (Hnd2 : NoDup (keys extra2)).
  { unfold keys in *. eapply Permutation_NoDup; [|exact Hnd].
    now apply Permutation_map. }
  repeat apply conj.
  - apply Hsig.
  - rewrite !url_param_get_payment_url, !payment_params_get by assumption.
    cbn [or_empty]. rewrite <- (dict_get_Permutation extra1 extra2) by assumption.
    destruct (dict_get extra1 "SignatureValue"); [reflexivity|].
    rewrite !reserved_params_SignatureValue.
    cbn [merchant_login password1 RobokassaConfig_init]. now rewrite Hsig.
  - rewrite !verify_result_signature_eq.
    cbn [merchant_login password2 RobokassaConfig_init]. now rewrite Hsig.
Qed.

Lemma signature_reorder_invariant_witness :
  _generate_signature ROUND_HALF_EVEN "shop1" (Finite false 10000 (-2))
    "12345" "pw1" (Some [("b", "2"); ("a", "1")])
  = _generate_signature ROUND_HALF_EVEN "shop1" (Finite false 10000 (-2))
      "12345" "pw1" (Some [("a", "1"); ("b", "2")]).
Proof.
  apply (signature_reorder_invariant ROUND_HALF_EVEN "shop1" "pw1" "pw2"
           false "12345" (Finite false 10000 (-2)) "Test" None None ""
           [("b", "2"); ("a", "1")] [("a", "1"); ("b", "2")]).
  - cbn. repeat (constructor; [cbn; intuition discriminate|]). constructor.
  - apply perm_swap.
Defined.

(* ------------------------------------------------------------------ *)
(** ** Checking the payment status *)


(** A response with a 4xx or 5xx status is turned into the same kind of
    failure dictionary by [raise_for_status] and the handler. *)
Lemma check_payment_status_http_error
    (net : nat -> Request -> result Response)
    (config : RobokassaConfig) (invoice_id : string) (response : Response) :
  net 0%nat
      (mkRequest (api_url config ++ "/GetInvoiceInfo")
         [("InvoiceID", invoice_id)] 10)
  = Ok response ->
  400 <= status_code response < 600 ->
  exists message,
    message <> ""
    /\ snd (run net 0 (check_payment_status config invoice_id))
       = Ok (PyDict [ ("success", PyBool false);
                      ("error", PyStr message) ]).
Proof.
  intros Hnet Hcode.
  unfold check_payment_status, requests_get.
  cbn [bind try_except_RequestException run].
  rewrite Hnet. cbn [lift bind]. unfold raise_for_status.
  set (code := str_of_N (Z.to_N (status_code response))).
  assert (Hc : code <> "").
  { unfold code. pose proof (str_of_N_length (Z.to_N (status_code response))).
    destruct (str_of_N _); [simpl in *; lia | discriminate]. }
  destruct (Z.leb_spec 400 (status_code response)); [|lia].
  destruct (Z.ltb_spec (status_code response) 500); cbn [andb].
  - destruct code as [|c code']; [congruence|].
    cbn. eexists. split; [|reflexivity]. discriminate.
  - destruct (Z.leb_spec 500 (status_code response)); [|lia].
    destruct (Z.ltb_spec (status_code response) 600); [|lia]. cbn [andb].
    destruct code as [|c code']; [congruence|].
    cbn. eexists. split; [|reflexivity]. discriminate.
Qed.



(* ================================================================== *)
(** * Further properties of the payment URL *)

Lemma upper_hex_digit_url_char (n : N) :
  url_char (Urllib.upper_hex_digit n) = true.
Proof.
  unfold Urllib.upper_hex_digit.
  assert (H : (n mod 16 < 16)%N) by (apply N.mod_lt; lia).
  set (m := (n mod 16)%N) in *. clearbody m.
  assert (Hc : exists k : nat, (k < 16)%nat /\ N.to_nat m = k).
  { exists (N.to_nat m). split; [lia | reflexivity]. }
  destruct Hc as (k & Hk & ->).
  do 16 (destruct k as [|k]; [reflexivity|]). lia.
Qed.

Lemma quote_plus_url_chars (s : string) :
  all_chars url_char (Urllib.quote_plus s) = true.
Proof.
  induction s as [|c s IH]; simpl; [reflexivity|].
  destruct (Ascii.eqb c " "); [simpl; exact IH|].
  destruct (Urllib.always_safe c) eqn:Es; simpl.
  - unfold url_char at 1. rewrite Es. exact IH.
  - now rewrite !upper_hex_digit_url_char.
Qed.

Lemma all_chars_concat (p : ascii -> bool) (sep : string) (l : list string) :
  all_chars p sep = true ->
  Forall (fun s => all_chars p s = true) l ->
  all_chars p (String.concat sep l) = true.
Proof.
  intros Hsep. induction 1 as [|x l Hx Hl IH]; [reflexivity|].
  destruct l as [|y l]; [exact Hx|].
  change (String.concat sep (x :: y :: l))
    with (x ++ sep ++ String.concat sep (y :: l)).
  now rewrite !all_chars_app, Hx, Hsep, IH.
Qed.

Lemma urlencode_url_chars (d : dict) :
  all_chars url_char (Urllib.urlencode d) = true.
Proof.
  unfold Urllib.urlencode. apply all_chars_concat; [reflexivity|].
  apply Forall_forall. intros s Hs. apply in_map_iff in Hs.
  destruct Hs as (kv & <- & _).
  now rewrite !all_chars_app, !quote_plus_url_chars.
Qed.

Lemma url_params_get_payment_url
    (rounding : Rounding) (login p1 p2 : string) (tm : bool)
    (invoice_id : string) (amount : Decimal) (description : string)
    (email : option string) (extra_params : option dict)
    (return_url : option string) :
  Urllib.url_params
    (get_payment_url rounding (RobokassaConfig_init login p1 p2 tm)
       invoice_id amount description email extra_params return_url)
  = payment_params rounding (RobokassaConfig_init login p1 p2 tm)
      invoice_id amount description email extra_params return_url.
Proof.
  unfold get_payment_url.
  now rewrite url_params_payment_url, parse_qsl_urlencode.
Qed.

(** X1.  The query of the payment URL decodes to exactly the parameters
    that were encoded, in the same order, whatever bytes the description,
    the e-mail address, the return URL or the extra parameters contain. *)
Theorem payment_url_decodes_to_params
    (rounding : Rounding) (login p1 p2 : string) (tm : bool)
    (invoice_id : string) (amount : Decimal) (description : string)
    (email : option string) (extra_params : option dict)
    (return_url : option string) :
  Urllib.url_params
    (get_payment_url rounding (RobokassaConfig_init login p1 p2 tm)
       invoice_id amount description email extra_params return_url)
  = payment_params rounding (RobokassaConfig_init login p1 p2 tm)
      invoice_id amount description email extra_params return_url
  /\ forall d : dict, Urllib.parse_qsl (Urllib.urlencode d) = d.
Proof.
  split; [apply url_params_get_payment_url | apply parse_qsl_urlencode].
Qed.

(** X2.  After its fixed prefix the payment URL consists only of letters,
    digits and the characters [_.-~+%=&]: no space, no quote and no byte
    outside ASCII reaches the query. *)
Theorem payment_url_query_chars
    (rounding : Rounding) (login p1 p2 : string) (tm : bool)
    (invoice_id : string) (amount : Decimal) (description : string)
    (email : option string) (extra_params : option dict)
    (return_url : option string) :
  exists query,
    get_payment_url rounding (RobokassaConfig_init login p1 p2 tm)
      invoice_id amount description email extra_params return_url
    = (if tm then "https://test.robokassa.ru"
       else "https://auth.robokassa.ru")
        ++ "/Merchant/Index?" ++ query
    /\ all_chars url_char query = true.
Proof.
  eexists. split.
  - unfold get_payment_url. destruct tm; reflexivity.
  - apply urlencode_url_chars.
Qed.

Lemma mem_key_In (k : string) (ks : list string) :
  mem_key k ks = true <-> In k ks.
Proof.
  unfold mem_key. rewrite existsb_exists. split.
  - intros (x & Hx & E). apply String.eqb_eq in E. now subst.
  - intros H. exists k. split; [assumption | apply String.eqb_refl].
Qed.

Lemma filter_not_mem_snoc (ks others : list string) (k : string) :
  ~ In k others ->
  filter (fun x => negb (mem_key x (List.app ks [k]))) others
  = filter (fun x => negb (mem_key x ks)) others.
Proof.
  intros Hn. apply filter_ext_in. intros x Hx. f_equal.
  unfold mem_key. rewrite existsb_app. cbn.
  destruct (String.eqb_spec x k) as [->|_]; [contradiction|].
  now rewrite !orb_false_r.
Qed.

(** After [d.update(other)] the keys of [d] come first, in their order,
    then the new keys of [other], in theirs. *)
Lemma keys_dict_update (d other : dict) :
  NoDup (keys other) ->
  keys (dict_update d other)
  = List.app (keys d)
      (filter (fun k => negb (mem_key k (keys d))) (keys other)).
Proof.
  unfold dict_update. revert d.
  induction other as [|[k v] other IH]; intros d Hnd; simpl.
  - now rewrite app_nil_r.
  - inversion Hnd as [|? ? Hnotin Hnd']; subst.
    rewrite IH by assumption. rewrite keys_dict_set.
    destruct (in_dec string_dec k (keys d)) as [Hin|Hnin].
    + apply mem_key_In in Hin. now rewrite Hin.
    + assert (E : mem_key k (keys d) = false).
      { destruct (mem_key k (keys d)) eqn:E; [|reflexivity].
        now apply mem_key_In in E. }
      rewrite E. cbn [negb]. rewrite <- app_assoc. cbn [List.app].
      now rewrite filter_not_mem_snoc.
Qed.

Lemma reserved_params_keys
    (rounding : Rounding) (config : RobokassaConfig) (invoice_id : string)
    (amount : Decimal) (description : string) (email : option string)
    (extra_params : option dict) (return_url : option string) :
  keys (reserved_params rounding config invoice_id amount description email
          extra_params return_url)
  = reserved_keys email return_url.
Proof.
  unfold reserved_params, reserved_keys.
  generalize (_generate_signature rounding (merchant_login config) amount
                invoice_id (password1 config) extra_params).
  generalize (format_2f rounding amount). intros amount_str signature.
  destruct email as [e|]; destruct return_url as [u|]; cbn [truthy_str];
    try destruct (String.eqb_spec e "");
    try destruct (String.eqb_spec u ""); reflexivity.
Qed.

(** X3.  The parameters of the payment URL come in a fixed order: the six
    reserved ones, then [Email] and [ReturnURL] when they are given and not
    empty, then those extra parameters whose key is not reserved, in the
    order of the caller's mapping. *)
Theorem payment_params_order
    (rounding : Rounding) (login p1 p2 : string) (tm : bool)
    (invoice_id : string) (amount : Decimal) (description : string)
    (email : option string) (extra_params : option dict)
    (return_url : option string) :
  NoDup (keys (or_empty extra_params)) ->
  keys (Urllib.url_params
          (get_payment_url rounding (RobokassaConfig_init login p1 p2 tm)
             invoice_id amount description email extra_params return_url))
  = List.app (reserved_keys email return_url)
      (filter (fun k => negb (mem_key k (reserved_keys email return_url)))
              (keys (or_empty extra_params))).
Proof.
  intros Hnd.
  rewrite url_params_get_payment_url. unfold payment_params.
  destruct extra_params as [[|x d]|]; cbn [truthy_dict or_empty];
    rewrite ?keys_dict_update by assumption;
    rewrite reserved_params_keys; cbn [keys map filter];
    rewrite ?app_nil_r; reflexivity.
Qed.

Lemma payment_params_order_witness :
  keys (Urllib.url_params
          (get_payment_url ROUND_HALF_EVEN
             (RobokassaConfig_init "shop1" "pw1" "pw2" false) "12345"
             (Finite false 10000 (-2)) "Test" (Some "") 
             (Some [("Shp_b", "2"); ("Sum", "1.00"); ("Shp_a", "1")])
             (Some "https://example.com/")))
  = ["MerchantLogin"; "Sum"; "InvoiceID"; "Description"; "SignatureValue";
     "IsTest"; "ReturnURL"; "Shp_b"; "Shp_a"].
Proof.
  rewrite (payment_params_order ROUND_HALF_EVEN "shop1" "pw1" "pw2" false
             "12345" (Finite false 10000 (-2)) "Test" (Some "")
             (Some [("Shp_b", "2"); ("Sum", "1.00"); ("Shp_a", "1")])
             (Some "https://example.com/")).
  - reflexivity.
  - cbn. repeat (constructor; [cbn; intuition discriminate|]). constructor.
Defined.

(** X4.  [Email] and [ReturnURL] appear in the payment URL exactly when they
    are given and not empty, [IsTest] is "1" in test mode and "0" otherwise,
    and the host is the test host exactly when [IsTest] is "1" (for extra
    parameters that leave these three keys alone). *)
Theorem payment_url_optional_params
    (rounding : Rounding) (login p1 p2 : string) (tm : bool)
    (invoice_id : string) (amount : Decimal) (description : string)
    (email : option string) (extra_params : option dict)
    (return_url : option string) :
  let payment_url :=
    get_payment_url rounding (RobokassaConfig_init login p1 p2 tm)
      invoice_id amount description email extra_params return_url in
  dict_get (or_empty extra_params) "Email" = None ->
  dict_get (or_empty extra_params) "ReturnURL" = None ->
  dict_get (or_empty extra_params) "IsTest" = None ->
  url_param payment_url "Email" = (if truthy_str email then email else None)
  /\ url_param payment_url "ReturnURL"
     = (if truthy_str return_url then return_url else None)
  /\ url_param payment_url "IsTest" = Some (if tm then "1" else "0")
  /\ String.prefix
       (if tm then "https://test.robokassa.ru/"
        else "https://auth.robokassa.ru/") payment_url
     = true.
Proof.
  cbv zeta. intros HE HR HT.
  rewrite !url_param_get_payment_url, !payment_params_get_absent
    by assumption.
  unfold reserved_params, get_payment_url.
  generalize (_generate_signature rounding
                (merchant_login (RobokassaConfig_init login p1 p2 tm)) amount
                invoice_id (password1 (RobokassaConfig_init login p1 p2 tm))
                extra_params).
  generalize (format_2f rounding amount). intros amount_str signature.
  generalize (Urllib.urlencode
                (payment_params rounding (RobokassaConfig_init login p1 p2 tm)
                   invoice_id amount description email extra_params
                   return_url)).
  intros query.
  repeat apply conj.
  - destruct email as [e|]; destruct return_url as [u|]; cbn [truthy_str];
      try destruct (String.eqb_spec e "");
      try destruct (String.eqb_spec u ""); reflexivity.
  - destruct email as [e|]; destruct return_url as [u|]; cbn [truthy_str];
      try destruct (String.eqb_spec e "");
      try destruct (String.eqb_spec u ""); reflexivity.
  - destruct email as [e|]; destruct return_url as [u|]; cbn [truthy_str];
      try destruct (String.eqb_spec e "");
      try destruct (String.eqb_spec u ""); destruct tm; reflexivity.
  - destruct tm; reflexivity.
Qed.

Lemma payment_url_optional_params_witness :
  url_param
    (get_payment_url ROUND_HALF_EVEN
       (RobokassaConfig_init "shop1" "pw1" "pw2" true) "12345"
       (Finite false 10000 (-2)) "Test" (Some "")
       (Some [("Shp_a", "1")]) (Some "https://example.com/"))
    "Email"
  = None.
Proof.
  apply (payment_url_optional_params ROUND_HALF_EVEN "shop1" "pw1" "pw2"
           true "12345" (Finite false 10000 (-2)) "Test" (Some "")
           (Some [("Shp_a", "1")]) (Some "https://example.com/"));
    reflexivity.
Defined.

(* ================================================================== *)
(** * Further properties of the verification *)

Lemma lower_length (s : string) : String.length (lower s) = String.length s.
Proof. induction s as [|c s IH]; simpl; [reflexivity | now rewrite IH]. Qed.

Lemma lower_char_hex (c : ascii) :
  is_lower_hex (lower_char c) = true -> is_hex c = true.
Proof.
  destruct c as [[] [] [] [] [] [] [] []]; vm_compute; intros H;
    try discriminate; reflexivity.
Qed.

Lemma lower_hex (s : string) :
  all_chars is_lower_hex (lower s) = true -> all_chars is_hex s = true.
Proof.
  induction s as [|c s IH]; simpl; [reflexivity|].
  intros H. apply andb_true_iff in H. destruct H as [Hc Hs].
  now rewrite (lower_char_hex c Hc), IH.
Qed.

(** X5.  A signature that [verify_result_signature] accepts is made of 32
    hexadecimal digits and, lowercased, is the digest under [password2]:
    an empty, truncated or padded signature is never accepted. *)
Theorem verify_accepts_only_digests
    (rounding : Rounding) (config : RobokassaConfig) (amount : Decimal)
    (invoice_id signature : string) (extra_params : option dict) :
  verify_result_signature rounding config amount invoice_id signature
    extra_params = true ->
  String.length signature = 32%nat
  /\ all_chars is_hex signature = true
  /\ lower signature
     = _generate_signature rounding (merchant_login config) amount
         invoice_id (password2 config) extra_params.
Proof.
  rewrite verify_result_signature_eq. intros H.
  apply String.eqb_eq in H.
  repeat apply conj.
  - rewrite <- lower_length, H. apply hexdigest_length.
  - apply lower_hex. rewrite H. apply hexdigest_lower_hex.
  - exact H.
Qed.

Lemma verify_accepts_only_digests_witness :
  String.length "B6712E5EA51D40FDD64A6A5BC1D33C56" = 32%nat
  /\ all_chars is_hex "B6712E5EA51D40FDD64A6A5BC1D33C56" = true
  /\ lower "B6712E5EA51D40FDD64A6A5BC1D33C56"
     = _generate_signature ROUND_HALF_EVEN
         (merchant_login (RobokassaConfig_init "shop1" "pw1" "pw2" false))
         (sNaN false 0) "12345"
         (password2 (RobokassaConfig_init "shop1" "pw1" "pw2" false)) None.
Proof.
  apply (verify_accepts_only_digests ROUND_HALF_EVEN
           (RobokassaConfig_init "shop1" "pw1" "pw2" false) (sNaN false 0)
           "12345" "B6712E5EA51D40FDD64A6A5BC1D33C56" None).
  vm_compute. reflexivity.
Defined.

(** X6.  The signature, the payment URL and the verdict depend on the
    amount only through its rendering with two fractional digits: two
    amounts that render alike, such as 100, 100.00 and (rounding half to
    even) 100.004, are interchangeable. *)
Theorem amount_matters_through_rendering
    (rounding : Rounding) (config : RobokassaConfig)
    (amount amount' : Decimal) (invoice_id description signature : string)
    (email : option string) (extra_params : option dict)
    (return_url : option string) :
  format_2f rounding amount' = format_2f rounding amount ->
  _generate_signature rounding (merchant_login config) amount' invoice_id
    (password1 config) extra_params
  = _generate_signature rounding (merchant_login config) amount invoice_id
      (password1 config) extra_params
  /\ get_payment_url rounding config invoice_id amount' description email
       extra_params return_url
     = get_payment_url rounding config invoice_id amount description email
         extra_params return_url
  /\ verify_result_signature rounding config amount' invoice_id signature
       extra_params
     = verify_result_signature rounding config amount invoice_id signature
         extra_params.
Proof.
  intros H. repeat apply conj.
  - now apply generate_signature_same_rendering.
  - unfold get_payment_url, payment_params, reserved_params.
    now rewrite H, (generate_signature_same_rendering rounding _ amount
                      amount' invoice_id _ extra_params H).
  - rewrite !verify_result_signature_eq.
    now rewrite (generate_signature_same_rendering rounding _ amount
                   amount' invoice_id _ extra_params H).
Qed.

Lemma amount_matters_through_rendering_witness :
  _generate_signature ROUND_HALF_EVEN
    (merchant_login (RobokassaConfig_init "shop1" "pw1" "pw2" false))
    (Finite false 100004 (-3)) "12345"
    (password1 (RobokassaConfig_init "shop1" "pw1" "pw2" false)) None
  = _generate_signature ROUND_HALF_EVEN
      (merchant_login (RobokassaConfig_init "shop1" "pw1" "pw2" false))
      (Finite false 100 0) "12345"
      (password1 (RobokassaConfig_init "shop1" "pw1" "pw2" false)) None.
Proof.
  apply (amount_matters_through_rendering ROUND_HALF_EVEN
           (RobokassaConfig_init "shop1" "pw1" "pw2" false)
           (Finite false 100 0) (Finite false 100004 (-3)) "12345" "Test" ""
           None None None).
  vm_compute. reflexivity.
Defined.


(* ================================================================== *)
(** * Further properties of the HTTP boundary *)

Lemma raise_for_status_cases (r : Response) :
  raise_for_status r = Return tt
  \/ exists msg, raise_for_status r = Throw (mkException HTTPError msg).
Proof.
  unfold raise_for_status. destruct (_ =? "")%string; [now left|].
  right. eexists. reflexivity.
Qed.

Lemma raise_for_status_ok (r : Response) :
  status_code r < 400 \/ 600 <= status_code r ->
  raise_for_status r = Return tt.
Proof.
  intros H. unfold raise_for_status.
  destruct (Z.leb_spec 400 (status_code r));
    destruct (Z.ltb_spec (status_code r) 500);
    destruct (Z.leb_spec 500 (status_code r));
    destruct (Z.ltb_spec (status_code r) 600);
    cbn [andb]; try reflexivity; lia.
Qed.

(** X8.  An exception leaves [check_payment_status] only if its class does
    not derive from [requests.RequestException]; it then comes unchanged
    from [requests.get] or from [response.json()]. *)
Theorem check_payment_status_escapes
    (net : nat -> Request -> result Response)
    (config : RobokassaConfig) (invoice_id : string) (e : Exception) :
  let request :=
    mkRequest (api_url config ++ "/GetInvoiceInfo")
      [("InvoiceID", invoice_id)] 10 in
  snd (run net 0 (check_payment_status config invoice_id)) = Raise e ->
  is_RequestException (exc_class e) = false
  /\ (net 0%nat request = Raise e
      \/ exists response,
           net 0%nat request = Ok response
           /\ json_body response = Raise e).
Proof.
  cbv zeta. unfold check_payment_status, requests_get.
  cbn [bind try_except_RequestException run].
  destruct (net 0%nat _) as [response|e0] eqn:Hnet; cbn [lift bind].
  - destruct (raise_for_status_cases response) as [->|(msg & ->)];
      cbn [bind try_except_RequestException exc_class is_RequestException
           run snd]; [|discriminate].
    destruct (json_body response) as [v|e1] eqn:Hj;
      cbn [lift try_except_RequestException run snd]; [discriminate|].
    destruct (is_RequestException (exc_class e1)) eqn:Hc;
      cbn [run snd]; [discriminate|].
    intros H. injection H as <-. split; [assumption|].
    right. now exists response.
  - cbn [try_except_RequestException].
    destruct (is_RequestException (exc_class e0)) eqn:Hc;
      cbn [run snd]; [discriminate|].
    intros H. injection H as <-. split; [assumption | now left].
Qed.

Lemma check_payment_status_escapes_witness :
  snd (run (fun _ _ =>
              Ok (mkResponse 200 "OK"
                    "https://api.robokassa.ru/GetInvoiceInfo?InvoiceID=12345"
                    (Raise (mkException ValueError
                              "Expecting value: line 1 column 1 (char 0)"))))
           0
           (check_payment_status
              (RobokassaConfig_init "shop1" "pw1" "pw2" false) "12345"))
  = Raise (mkException ValueError "Expecting value: line 1 column 1 (char 0)")
  /\ is_RequestException
       (exc_class
          (mkException ValueError "Expecting value: line 1 column 1 (char 0)"))
     = false.
Proof.
  assert (H : snd (run (fun _ _ =>
              Ok (mkResponse 200 "OK"
                    "https://api.robokassa.ru/GetInvoiceInfo?InvoiceID=12345"
                    (Raise (mkException ValueError
                              "Expecting value: line 1 column 1 (char 0)"))))
           0
           (check_payment_status
              (RobokassaConfig_init "shop1" "pw1" "pw2" false) "12345"))
  = Raise (mkException ValueError "Expecting value: line 1 column 1 (char 0)"))
    by reflexivity.
  split; [exact H|].
  exact (proj1 (check_payment_status_escapes _ _ _ _ H)).
Defined.

(** X9.  When the gateway answers with a status outside 400..599 and a body
    that parses, [check_payment_status] returns the parsed body unchanged,
    after one request. *)
Theorem check_payment_status_success
    (net : nat -> Request -> result Response)
    (config : RobokassaConfig) (invoice_id : string)
    (response : Response) (body : PyValue) :
  let request :=
    mkRequest (api_url config ++ "/GetInvoiceInfo")
      [("InvoiceID", invoice_id)] 10 in
  net 0%nat request = Ok response ->
  status_code response < 400 \/ 600 <= status_code response ->
  json_body response = Ok body ->
  run net 0 (check_payment_status config invoice_id) = ([request], Ok body).
Proof.
  cbv zeta. intros Hnet Hcode Hbody.
  unfold check_payment_status, requests_get.
  cbn [bind try_except_RequestException run].
  rewrite Hnet. cbn [lift bind].
  rewrite (raise_for_status_ok response Hcode).
  cbn [bind]. rewrite Hbody. reflexivity.
Qed.

Lemma check_payment_status_success_witness :
  run (fun _ _ =>
         Ok (mkResponse 200 "OK"
               "https://api.robokassa.ru/GetInvoiceInfo?InvoiceID=12345"
               (Ok (PyDict [("state", PyStr "paid")]))))
      0
      (check_payment_status
         (RobokassaConfig_init "shop1" "pw1" "pw2" false) "12345")
  = ([mkRequest "https://api.robokassa.ru/GetInvoiceInfo"
        [("InvoiceID", "12345")] 10],
     Ok (PyDict [("state", PyStr "paid")])).
Proof.
  apply (check_payment_status_success
           (fun _ _ =>
              Ok (mkResponse 200 "OK"
                    "https://api.robokassa.ru/GetInvoiceInfo?InvoiceID=12345"
                    (Ok (PyDict [("state", PyStr "paid")]))))
           (RobokassaConfig_init "shop1" "pw1" "pw2" false) "12345"
           (mkResponse 200 "OK"
              "https://api.robokassa.ru/GetInvoiceInfo?InvoiceID=12345"
              (Ok (PyDict [("state", PyStr "paid")])))
           (PyDict [("state", PyStr "paid")])).
  - reflexivity.
  - left. reflexivity.
  - reflexivity.
Defined.

(* ------------------------------------------------------------------ *)
(** ** create_order *)

Lemma pydict_get_set (d : pydict) (k : string) (v : PyValue) (k' : string) :
  pydict_get (pydict_set d k v) k'
  = if (k' =? k)%string then Some v else pydict_get d k'.
Proof.
  induction d as [|[k0 v0] d IH]; simpl.
  - reflexivity.
  - destruct (String.eqb_spec k k0) as [->|Hne]; simpl.
    + destruct (String.eqb_spec k' k0); reflexivity.
    + rewrite IH. destruct (String.eqb_spec k' k0) as [->|_];
        [|reflexivity].
      destruct (String.eqb_spec k0 k); [congruence | reflexivity].
Qed.

Lemma pydict_get_update (d : pydict) (other : dict) (k : string) :
  NoDup (keys other) ->
  pydict_get (pydict_update d other) k
  = match dict_get other k with
    | Some v => Some (PyStr v)
    | None => pydict_get d k
    end.
Proof.
  unfold pydict_update. revert d.
  induction other as [|[k0 v0] other IH]; intros d Hnd; simpl.
  - reflexivity.
  - inversion Hnd as [|? ? Hnotin Hnd']; subst.
    rewrite IH by assumption. rewrite pydict_get_set.
    destruct (String.eqb_spec k k0) as [->|_]; [|reflexivity].
    now rewrite dict_get_None.
Qed.

(** X10.  For every amount but a signalling NaN, a transport error raised
    by [requests.post] is caught by [create_order], which returns success
    false with the message of the error, after one request to
    [/CreateInvoice] with a timeout of ten seconds. *)
Theorem create_order_transport_error
    (net : nat -> PostRequest -> result Response)
    (config : RobokassaConfig) (invoice_id : string) (amount : Decimal)
    (description : string) (email phone : option string)
    (extra_params : option dict) (e : Exception) :
  let request :=
    mkPostRequest (api_url config ++ "/CreateInvoice")
      (order_payload config invoice_id (PyFloat amount) description email
         phone extra_params) 10 in
  is_snan amount = false ->
  net 0%nat request = Raise e ->
  is_RequestException (exc_class e) = true ->
  post_run net 0
    (create_order config invoice_id amount description email phone
       extra_params)
  = ([request],
     Ok (PyDict [ ("success", PyBool false); ("error", PyStr (exc_str e)) ])).
Proof.
  cbv zeta. intros Hs Hnet Hcls. unfold create_order.
  assert (Hf : float_of_Decimal amount = Ok (PyFloat amount))
    by (destruct amount; try reflexivity; discriminate).
  rewrite Hf. unfold requests_post.
  cbn [post_bind post_try_except_RequestException post_run].
  rewrite Hnet. cbn [post_lift post_bind post_try_except_RequestException].
  rewrite Hcls. reflexivity.
Qed.

Lemma create_order_transport_error_witness :
  post_run
    (fun _ _ => Raise (mkException ConnectTimeout "connect timed out"))
    0
    (create_order (RobokassaConfig_init "shop1" "pw1" "pw2" false) "12345"
       (Finite false 10000 (-2)) "Test" None None None)
  = ([mkPostRequest "https://api.robokassa.ru/CreateInvoice"
        [ ("MerchantLogin", PyStr "shop1");
          ("Sum", PyFloat (Finite false 10000 (-2)));
          ("InvoiceID", PyStr "12345");
          ("Description", PyStr "Test") ] 10],
     Ok (PyDict [ ("success", PyBool false);
                  ("error", PyStr "connect timed out") ])).
Proof.
  apply (create_order_transport_error
           (fun _ _ => Raise (mkException ConnectTimeout "connect timed out"))
           (RobokassaConfig_init "shop1" "pw1" "pw2" false) "12345"
           (Finite false 10000 (-2)) "Test" None None None
           (mkException ConnectTimeout "connect timed out"));
    reflexivity.
Defined.

(** X11.  [create_order] converts the amount to [float] before it enters
    its [try] block: for a signalling NaN it raises [ValueError] and sends
    nothing; for every other amount it sends exactly one request, whatever
    the network answers. *)
Theorem create_order_requests
    (net : nat -> PostRequest -> result Response)
    (config : RobokassaConfig) (invoice_id : string) (amount : Decimal)
    (description : string) (email phone : option string)
    (extra_params : option dict) :
  let outcome :=
    post_run net 0
      (create_order config invoice_id amount description email phone
         extra_params) in
  if is_snan amount then
    outcome
    = ([], Raise (mkException ValueError
                    "cannot convert signaling NaN to float"))
  else
    fst outcome
    = [mkPostRequest (api_url config ++ "/CreateInvoice")
         (order_payload config invoice_id (PyFloat amount) description email
            phone extra_params) 10].
Proof.
  cbv zeta. unfold create_order.
  destruct amount as [s c x|s|s p|s p]; cbn [is_snan float_of_Decimal];
    try reflexivity;
    unfold requests_post;
    cbn [post_bind post_try_except_RequestException post_run];
    (destruct (net 0%nat _) as [response|e]; cbn [post_lift post_bind];
     [ unfold raise_for_status_result;
       destruct (raise_for_status_cases response) as [->|(msg & ->)];
       cbn [post_lift post_bind post_try_except_RequestException exc_class
            is_RequestException post_run fst]; [|reflexivity];
       destruct (json_body response) as [v|e];
       cbn [post_lift post_try_except_RequestException post_run fst];
       [reflexivity|];
       destruct (is_RequestException (exc_class e)); reflexivity
     | cbn [post_try_except_RequestException];
       destruct (is_RequestException (exc_class e)); reflexivity ]).
Qed.

(** X12.  In the payload of [create_order] a key of the extra parameters
    carries the value the extra parameters give it, also when the key is
    [MerchantLogin], [Sum], [InvoiceID] or [Description]; [Email] and
    [Phone] are present only when given and not empty. *)
Theorem order_payload_merge
    (config : RobokassaConfig) (invoice_id : string) (sum : PyValue)
    (description : string) (email phone : option string)
    (extra_params : option dict) (key : string) :
  NoDup (keys (or_empty extra_params)) ->
  pydict_get
    (order_payload config invoice_id sum description email phone
       extra_params) key
  = match dict_get (or_empty extra_params) key with
    | Some v => Some (PyStr v)
    | None =>
        if (key =? "MerchantLogin")%string
        then Some (PyStr (merchant_login config))
        else if (key =? "Sum")%string then Some sum
        else if (key =? "InvoiceID")%string then Some (PyStr invoice_id)
        else if (key =? "Description")%string then Some (PyStr description)
        else if (key =? "Email")%string
        then (if truthy_str email then option_map PyStr email else None)
        else if (key =? "Phone")%string
        then (if truthy_str phone then option_map PyStr phone else None)
        else None
    end.
Proof.
  intros Hnd. unfold order_payload.
  set (base := [ ("MerchantLogin", PyStr (merchant_login config));
                 ("Sum", sum); ("InvoiceID", PyStr invoice_id);
                 ("Description", PyStr description) ]).
  set (withmail := match email with
                   | Some e => if truthy_str email
                               then pydict_set base "Email" (PyStr e)
                               else base
                   | None => base
                   end).
  set (withphone := match phone with
                    | Some p => if truthy_str phone
                                then pydict_set withmail "Phone" (PyStr p)
                                else withmail
                    | None => withmail
                    end).
  assert (Hbase : pydict_get withphone key
                  = if (key =? "MerchantLogin")%string
                    then Some (PyStr (merchant_login config))
                    else if (key =? "Sum")%string then Some sum
                    else if (key =? "InvoiceID")%string
                    then Some (PyStr invoice_id)
                    else if (key =? "Description")%string
                    then Some (PyStr description)
                    else if (key =? "Email")%string
                    then (if truthy_str email then option_map PyStr email
                          else None)
                    else if (key =? "Phone")%string
                    then (if truthy_str phone then option_map PyStr phone
                          else None)
                    else None).
  { unfold withphone, withmail, base.
    destruct email as [e|]; destruct phone as [p|]; cbn [truthy_str];
      try destruct (String.eqb_spec e "");
      try destruct (String.eqb_spec p ""); cbn [negb option_map];
      rewrite ?pydict_get_set; cbn [pydict_get];
      destruct (String.eqb_spec key "MerchantLogin") as [->|]; try reflexivity;
      destruct (String.eqb_spec key "Sum") as [->|]; try reflexivity;
      destruct (String.eqb_spec key "InvoiceID") as [->|]; try reflexivity;
      destruct (String.eqb_spec key "Description") as [->|]; try reflexivity;
      destruct (String.eqb_spec key "Email") as [->|]; try reflexivity;
      destruct (String.eqb_spec key "Phone") as [->|]; reflexivity. }
  destruct extra_params as [[|x d]|]; cbn [truthy_dict or_empty].
  - exact Hbase.
  - rewrite pydict_get_update by assumption.
    destruct (dict_get (x :: d) key); [reflexivity | exact Hbase].
  - exact Hbase.
Qed.

Lemma order_payload_merge_witness :
  pydict_get
    (order_payload (RobokassaConfig_init "shop1" "pw1" "pw2" false) "12345"
       (PyFloat (Finite false 10000 (-2))) "Test" (Some "") None
       (Some [("Sum", "1.00")])) "Sum"
  = Some (PyStr "1.00").
Proof.
  rewrite (order_payload_merge
             (RobokassaConfig_init "shop1" "pw1" "pw2" false) "12345"
             (PyFloat (Finite false 10000 (-2))) "Test" (Some "") None
             (Some [("Sum", "1.00")]) "Sum").
  - reflexivity.
  - cbn. repeat (constructor; [cbn; intuition discriminate|]). constructor.
Defined.

(* ================================================================== *)
(** * Properties of src/exceptions.py *)

(** X13.  An exception of this module carries its message and its code
    through [handle_exception]: the response has success false, the message
    and the code given at construction (or the default code of the class
    when none was given) and the name of the class; an exception without
    the attribute [error_code] is answered with "UNKNOWN_ERROR". *)
Theorem handle_exception_carries_code
    (L : Type) (message : string) (code : option string)
    (log_func : option L) (e : Exception) :
  let response (default name : string) :=
    PyDict [ ("success", PyBool false);
             ("error_code", PyStr (with_default default code));
             ("message", PyStr message);
             ("exception_type", PyStr name) ] in
  fst (handle_exception (PaymentException_init message code) log_func)
  = response "PAYMENT_ERROR" "PaymentException"
  /\ fst (handle_exception (UserException_init message code) log_func)
     = response "USER_ERROR" "UserException"
  /\ fst (handle_exception (DatabaseException_init message code) log_func)
     = response "DATABASE_ERROR" "DatabaseException"
  /\ fst (handle_exception (plain_exception e) log_func)
     = PyDict [ ("success", PyBool false);
                ("error_code", PyStr "UNKNOWN_ERROR");
                ("message", PyStr (exc_str e));
                ("exception_type", PyStr (class_name (exc_class e))) ].
Proof.
  cbv zeta. destruct log_func; repeat apply conj; reflexivity.
Qed.

(** [handle_exception] calls the log function once when it is given one,
    with a line that names the class, the message and the code, and not at
    all otherwise; the response is the same in both cases. *)
Lemma handle_exception_logs_once
    (L : Type) (exc : ExceptionObject) (f : L) :
  snd (handle_exception exc (Some f))
  = [(f, "Exception occurred: "
           ++ class_name (exc_class (exception exc)) ++ " - "
           ++ exc_str (exception exc) ++ " (Code: "
           ++ with_default "UNKNOWN_ERROR" (error_code exc) ++ ")")]
  /\ snd (handle_exception exc (@None L)) = []
  /\ fst (handle_exception exc (Some f))
     = fst (handle_exception exc (@None L)).
Proof. repeat apply conj; reflexivity. Qed.

(* ================================================================== *)
(** * Properties of the admin panel *)

(** The role names CPython accepts after [upper()], and some it refuses. *)
Example by_name_agrees_with_cpython :
  map (fun s => Admin.by_name (str_upper s))
      [ "admin"; "Admin"; "ADMIN"; "moderator"; "super_admin"; "Super_Admin";
        "admın"; "ſuper_admin"; "moderator "; ""; "admİn"; "superadmin";
        "ßuper_admin"; "ﬅ"; "owner"; "modérator"; "ﬁ" ]
  = [ Some Admin.ADMIN; Some Admin.ADMIN; Some Admin.ADMIN;
      Some Admin.MODERATOR; Some Admin.SUPER_ADMIN; Some Admin.SUPER_ADMIN;
      Some Admin.ADMIN; Some Admin.SUPER_ADMIN; None; None; None; None;
      None; None; None; None; None ].
Proof. vm_compute. reflexivity. Qed.

Section AdminPanelProperties.

Variable DateTime : Type.
Variable strftime : DateTime -> string -> string.

Implicit Types (p : Admin.AdminPanel DateTime) (utcnow : nat -> DateTime).
Implicit Types (d : list (Z * Admin.AdminInfo DateTime)).

Lemma admins_get_set d (k : Z) (v : Admin.AdminInfo DateTime) (k' : Z) :
  Admin.admins_get (Admin.admins_set d k v) k'
  = if k' =? k then Some v else Admin.admins_get d k'.
Proof.
  induction d as [|[k0 v0] d IH]; simpl.
  - reflexivity.
  - destruct (Z.eqb_spec k k0) as [->|Hne]; simpl.
    + destruct (Z.eqb_spec k' k0); reflexivity.
    + rewrite IH. destruct (Z.eqb_spec k' k0) as [->|_]; [|reflexivity].
      destruct (Z.eqb_spec k0 k); [congruence | reflexivity].
Qed.

Lemma admins_get_None d (k : Z) :
  Admin.admins_get d k = None <-> ~ In k (map fst d).
Proof.
  induction d as [|[k0 v0] d IH]; simpl; [tauto|].
  destruct (Z.eqb_spec k k0) as [->|Hne].
  - split; [discriminate | intros H; exfalso; apply H; now left].
  - rewrite IH. split; [intros H [E|Hin]; [congruence | tauto] | tauto].
Qed.

Lemma admins_get_del d (k k' : Z) :
  NoDup (map fst d) ->
  Admin.admins_get (Admin.admins_del d k) k'
  = if k' =? k then None else Admin.admins_get d k'.
Proof.
  induction d as [|[k0 v0] d IH]; intros Hnd; simpl.
  - now destruct (k' =? k).
  - inversion Hnd as [|? ? Hnotin Hnd']; subst.
    destruct (Z.eqb_spec k k0) as [->|Hne]; simpl.
    + destruct (Z.eqb_spec k' k0) as [E|_]; [|reflexivity].
      rewrite E. now apply admins_get_None.
    + rewrite IH by assumption.
      destruct (Z.eqb_spec k' k0) as [E|_]; [|reflexivity].
      rewrite E. destruct (Z.eqb_spec k0 k); [congruence | reflexivity].
Qed.

Lemma admins_set_fresh d (k : Z) (v : Admin.AdminInfo DateTime) :
  Admin.admins_get d k = None -> Admin.admins_set d k v = List.app d [(k, v)].
Proof.
  induction d as [|[k0 v0] d IH]; simpl; [reflexivity|].
  destruct (Z.eqb_spec k k0); [discriminate|].
  intros H. now rewrite IH.
Qed.

Lemma admins_set_ids d (k : Z) (v : Admin.AdminInfo DateTime) :
  Admin.admins_get d k <> None ->
  map fst (Admin.admins_set d k v) = map fst d.
Proof.
  induction d as [|[k0 v0] d IH]; simpl; [congruence|].
  destruct (Z.eqb_spec k k0) as [->|_]; [reflexivity|].
  intros H. simpl. now rewrite IH.
Qed.

Lemma admins_del_snoc d (k : Z) (v : Admin.AdminInfo DateTime) :
  Admin.admins_get d k = None ->
  Admin.admins_del (List.app d [(k, v)]) k = d.
Proof.
  induction d as [|[k0 v0] d IH]; simpl.
  - now rewrite Z.eqb_refl.
  - destruct (Z.eqb_spec k k0); [discriminate|].
    intros H. now rewrite IH.
Qed.

Lemma admins_del_ids d (k : Z) :
  NoDup (map fst d) -> NoDup (map fst (Admin.admins_del d k)).
Proof.
  induction d as [|[k0 v0] d IH]; intros Hnd; simpl; [constructor|].
  inversion Hnd as [|? ? Hnotin Hnd']; subst.
  destruct (Z.eqb_spec k k0); [assumption|].
  simpl. constructor; [|now apply IH].
  intros Hin. apply Hnotin.
  clear - Hin. induction d as [|[k1 v1] d IHd]; simpl in *; [contradiction|].
  destruct (k =? k1); [now right|].
  destruct Hin as [E|Hin]; [now left | right; now apply IHd].
Qed.

(** X14.  [add_admin] answers true exactly when the identifier is new; it
    then stores the user name, the role, the time of the call and no last
    action under it, after the admins already there; an identifier already
    present keeps its entry; no other identifier is touched. *)
Theorem add_admin_lookup utcnow p (admin_id : Z) (username : string)
    (role : Admin.AdminRole) (other : Z) :
  let outcome := Admin.add_admin strftime utcnow p admin_id username role in
  fst outcome = negb (Admin.admins_mem (Admin.admins p) admin_id)
  /\ Admin.get_admin (snd outcome) admin_id
     = (if fst outcome
        then Some (Admin.mkAdminInfo username role (utcnow 0%nat) None)
        else Admin.get_admin p admin_id)
  /\ Admin.admins (snd outcome)
     = (if fst outcome
        then List.app (Admin.admins p)
               [(admin_id,
                 Admin.mkAdminInfo username role (utcnow 0%nat) None)]
        else Admin.admins p)
  /\ (if other =? admin_id then True
      else Admin.get_admin (snd outcome) other = Admin.get_admin p other).
Proof.
  cbv zeta. unfold Admin.add_admin, Admin.admins_mem, Admin.get_admin.
  destruct (Admin.admins_get (Admin.admins p) admin_id) eqn:E;
    cbn [fst snd negb Admin._log Admin.admins].
  - repeat apply conj; try reflexivity; try assumption.
    now destruct (other =? admin_id).
  - repeat apply conj; try reflexivity.
    + now rewrite admins_get_set, Z.eqb_refl.
    + now apply admins_set_fresh.
    + rewrite admins_get_set. now destruct (other =? admin_id).
Qed.

(** X15.  Removing an admin that was just added gives back the admins there
    were before, in the same order, and both calls answer true. *)
Theorem remove_after_add utcnow utcnow' p (admin_id : Z) (username : string)
    (role : Admin.AdminRole) :
  Admin.admins_mem (Admin.admins p) admin_id = false ->
  let added := Admin.add_admin strftime utcnow p admin_id username role in
  let removed := Admin.remove_admin strftime utcnow' (snd added) admin_id in
  fst added = true /\ fst removed = true
  /\ Admin.admins (snd removed) = Admin.admins p
  /\ Admin.get_admin (snd removed) admin_id = None.
Proof.
  unfold Admin.admins_mem. intros Hfresh. cbv zeta.
  destruct (Admin.admins_get (Admin.admins p) admin_id) eqn:E;
    [discriminate|].
  unfold Admin.add_admin, Admin.admins_mem. rewrite E.
  cbn [fst snd]. unfold Admin.remove_admin.
  cbn [Admin._log Admin.admins].
  rewrite admins_get_set, Z.eqb_refl.
  cbn [fst snd Admin._log Admin.admins Admin.get_admin].
  rewrite admins_set_fresh, admins_del_snoc by assumption.
  repeat apply conj; try reflexivity. exact E.
Qed.

Lemma admins_del_length d (k : Z) :
  List.length (Admin.admins_del d k)
  = (List.length d
     - (if Admin.admins_mem d k then 1 else 0))%nat.
Proof.
  unfold Admin.admins_mem.
  induction d as [|[k0 v0] d IH]; simpl; [reflexivity|].
  destruct (Z.eqb_spec k k0) as [->|_]; simpl; [lia|].
  rewrite IH. destruct (Admin.admins_get d k) eqn:E; [|lia].
  destruct d; [discriminate | simpl; lia].
Qed.

(** X16.  On a panel whose identifiers are distinct, [remove_admin] answers
    true exactly when the identifier is present; afterwards the identifier
    is absent, every other admin is unchanged and the number of admins has
    dropped by one or, for an absent identifier, not at all. *)
Theorem remove_admin_effect utcnow p (admin_id other : Z) :
  NoDup (admin_ids p) ->
  let outcome := Admin.remove_admin strftime utcnow p admin_id in
  fst outcome = Admin.admins_mem (Admin.admins p) admin_id
  /\ Admin.get_admin (snd outcome) admin_id = None
  /\ (if other =? admin_id then True
      else Admin.get_admin (snd outcome) other = Admin.get_admin p other)
  /\ List.length (Admin.admins (snd outcome))
     = (List.length (Admin.admins p)
        - (if fst outcome then 1 else 0))%nat.
Proof.
  unfold admin_ids. intros Hnd. cbv zeta.
  pose proof (admins_del_length (Admin.admins p) admin_id) as Hlen.
  unfold Admin.remove_admin, Admin.admins_mem, Admin.get_admin in *.
  destruct (Admin.admins_get (Admin.admins p) admin_id) eqn:E;
    cbn [fst snd Admin._log Admin.admins].
  - rewrite !admins_get_del by assumption. rewrite Z.eqb_refl.
    repeat apply conj; try reflexivity; [|exact Hlen].
    now destruct (other =? admin_id).
  - repeat apply conj; try reflexivity; try assumption; [|lia].
    now destruct (other =? admin_id).
Qed.

(** X17.  Every method that changes the panel appends exactly one line to
    the log and leaves the earlier lines as they were; [clear_logs] leaves
    exactly one line, the one that records the clearing. *)
Theorem every_call_logs_once utcnow p (admin_id : Z)
    (username action : string) (role : Admin.AdminRole) :
  (exists n message,
     Admin.logs (snd (Admin.add_admin strftime utcnow p admin_id username
                        role))
     = List.app (Admin.logs p) [log_line strftime (utcnow n) message])
  /\ (exists n message,
        Admin.logs (snd (Admin.remove_admin strftime utcnow p admin_id))
        = List.app (Admin.logs p) [log_line strftime (utcnow n) message])
  /\ (exists n message,
        Admin.logs (snd (Admin.update_admin_role strftime utcnow p admin_id
                           role))
        = List.app (Admin.logs p) [log_line strftime (utcnow n) message])
  /\ (exists n message,
        Admin.logs (snd (Admin.record_action strftime utcnow p admin_id
                           action))
        = List.app (Admin.logs p) [log_line strftime (utcnow n) message])
  /\ Admin.logs (Admin.clear_logs strftime utcnow p)
     = [log_line strftime (utcnow 0%nat) "Logs cleared"].
Proof.
  unfold Admin.add_admin, Admin.remove_admin, Admin.update_admin_role,
    Admin.record_action, Admin.clear_logs, Admin.admins_mem.
  destruct (Admin.admins_get (Admin.admins p) admin_id);
    cbn [snd Admin._log Admin.logs]; repeat apply conj;
    try (do 2 eexists; reflexivity); reflexivity.
Qed.

Lemma slice_from_skipn (A : Type) (start : Z) (l : list A) :
  exists n : nat,
    slice_from start l = skipn n l
    /\ (n <= List.length l)%nat
    /\ n = (if start <? 0
            then (List.length l
                  - Nat.min (Z.to_nat (- start)) (List.length l))%nat
            else Nat.min (Z.to_nat start) (List.length l)).
Proof.
  unfold slice_from.
  destruct (Z.ltb_spec start 0) as [Hneg|Hpos]; eexists;
    (split; [reflexivity|]); split; lia.
Qed.

(** X18.  [get_logs] always returns the end of the log: everything for no
    limit and for the limit 0, the last [limit] lines (or all, if there are
    fewer) for a positive limit, and for a negative limit all lines but the
    first [-limit] ones. *)
Theorem get_logs_is_suffix p (limit : option Z) :
  exists dropped,
    Admin.logs p = List.app dropped (Admin.get_logs p limit)
    /\ List.length (Admin.get_logs p limit)
       = match limit with
         | None => List.length (Admin.logs p)
         | Some l =>
             if l =? 0 then List.length (Admin.logs p)
             else if 0 <? l
             then Nat.min (Z.to_nat l) (List.length (Admin.logs p))
             else (List.length (Admin.logs p) - Z.to_nat (- l))%nat
         end.
Proof.
  unfold Admin.get_logs. destruct limit as [l|]; [|now exists []].
  destruct (Z.eqb_spec l 0) as [->|Hnz]; [now exists []|].
  destruct (slice_from_skipn string (- l) (Admin.logs p))
    as (n & -> & Hle & Hn).
  exists (firstn n (Admin.logs p)). split.
  - symmetry. apply firstn_skipn.
  - rewrite length_skipn.
    destruct (Z.ltb_spec 0 l) as [Hpos|Hneg].
    + destruct (Z.ltb_spec (- l) 0); lia.
    + destruct (Z.ltb_spec (- l) 0); lia.
Qed.

Lemma counts_fold d (a b c : nat) :
  fold_left
    (fun counts (entry : Z * Admin.AdminInfo DateTime) =>
       Admin.counts_incr counts (Admin.name (Admin.role (snd entry))))
    d [("SUPER_ADMIN", a); ("ADMIN", b); ("MODERATOR", c)]
  = [ ("SUPER_ADMIN",
       (a + List.length
              (filter (fun e => Admin.role_eqb (Admin.role (snd e))
                                  Admin.SUPER_ADMIN) d))%nat);
      ("ADMIN",
       (b + List.length
              (filter (fun e => Admin.role_eqb (Admin.role (snd e))
                                  Admin.ADMIN) d))%nat);
      ("MODERATOR",
       (c + List.length
              (filter (fun e => Admin.role_eqb (Admin.role (snd e))
                                  Admin.MODERATOR) d))%nat) ].
Proof.
  revert a b c. induction d as [|[k info] d IH]; intros a b c.
  - cbn. now rewrite !Nat.add_0_r.
  - destruct info as [u r t la].
    destruct r; cbn; rewrite IH; cbn; repeat f_equal; lia.
Qed.

Lemma count_roles_total d :
  (List.length
     (filter (fun e : Z * Admin.AdminInfo DateTime =>
                Admin.role_eqb (Admin.role (snd e)) Admin.SUPER_ADMIN) d)
   + List.length
       (filter (fun e : Z * Admin.AdminInfo DateTime =>
                  Admin.role_eqb (Admin.role (snd e)) Admin.ADMIN) d)
   + List.length
       (filter (fun e : Z * Admin.AdminInfo DateTime =>
                  Admin.role_eqb (Admin.role (snd e)) Admin.MODERATOR) d)
   = List.length d)%nat.
Proof.
  induction d as [|[k info] d IH]; [reflexivity|].
  destruct info as [u r t la]. destruct r; cbn in *; lia.
Qed.

(** X19.  In the statistics each role is counted as often as admins hold
    it, the three counts add up to [total_admins], which is the number of
    admins, and [total_logs] is the number of log lines. *)
Theorem get_stats_counts p :
  Admin.get_stats strftime p
  = [ ("total_admins", Admin.VInt (Z.of_nat (List.length (Admin.admins p))));
      ("role_counts",
       Admin.VCounts
         [ ("SUPER_ADMIN", count_role Admin.SUPER_ADMIN p);
           ("ADMIN", count_role Admin.ADMIN p);
           ("MODERATOR", count_role Admin.MODERATOR p) ]);
      ("panel_created_at",
       Admin.VStr (strftime (Admin.created_at p) "%Y-%m-%d %H:%M:%S"));
      ("total_logs", Admin.VInt (Z.of_nat (List.length (Admin.logs p)))) ]
  /\ (count_role Admin.SUPER_ADMIN p + count_role Admin.ADMIN p
      + count_role Admin.MODERATOR p
      = List.length (Admin.admins p))%nat.
Proof.
  split.
  - unfold Admin.get_stats, Admin.role_counts, count_role.
    cbn [map Admin.members Admin.name]. now rewrite counts_fold.
  - apply count_roles_total.
Qed.

(** X20.  [update_admin_role] and [record_action] answer true exactly when
    the identifier is present; they change the role, respectively the last
    action, of that admin and nothing else: the other fields, the other
    admins and the order of the identifiers stay as they were. *)
Theorem update_changes_one_field utcnow p (admin_id other : Z)
    (new_role : Admin.AdminRole) (action : string) :
  let updated := Admin.update_admin_role strftime utcnow p admin_id new_role in
  let recorded := Admin.record_action strftime utcnow p admin_id action in
  fst updated = Admin.admins_mem (Admin.admins p) admin_id
  /\ fst recorded = Admin.admins_mem (Admin.admins p) admin_id
  /\ Admin.get_admin (snd updated) admin_id
     = option_map
         (fun info =>
            Admin.mkAdminInfo (Admin.username info) new_role
              (Admin.admin_created_at info) (Admin.last_action info))
         (Admin.get_admin p admin_id)
  /\ Admin.get_admin (snd recorded) admin_id
     = option_map
         (fun info =>
            Admin.mkAdminInfo (Admin.username info) (Admin.role info)
              (Admin.admin_created_at info) (Some (action, utcnow 0%nat)))
         (Admin.get_admin p admin_id)
  /\ admin_ids (snd updated) = admin_ids p
  /\ admin_ids (snd recorded) = admin_ids p
  /\ (if other =? admin_id then True
      else Admin.get_admin (snd updated) other = Admin.get_admin p other
           /\ Admin.get_admin (snd recorded) other
              = Admin.get_admin p other).
Proof.
  cbv zeta.
  unfold Admin.update_admin_role, Admin.record_action, Admin.admins_mem,
    Admin.get_admin, admin_ids.
  destruct (Admin.admins_get (Admin.admins p) admin_id) eqn:E;
    cbn [fst snd Admin._log Admin.admins option_map].
  - rewrite !admins_get_set, Z.eqb_refl.
    rewrite !admins_set_ids by congruence.
    repeat apply conj; try reflexivity.
    destruct (other =? admin_id); [exact I | split; reflexivity].
  - repeat apply conj; try reflexivity; try assumption.
    destruct (other =? admin_id); [exact I | split; reflexivity].
Qed.

(** The identifiers stay pairwise distinct through every method. *)
Lemma admin_ids_NoDup utcnow p (admin_id : Z) (username action : string)
    (role : Admin.AdminRole) :
  NoDup (admin_ids p) ->
  NoDup (admin_ids (snd (Admin.add_admin strftime utcnow p admin_id username
                           role)))
  /\ NoDup (admin_ids (snd (Admin.remove_admin strftime utcnow p admin_id)))
  /\ NoDup (admin_ids (snd (Admin.update_admin_role strftime utcnow p
                              admin_id role)))
  /\ NoDup (admin_ids (snd (Admin.record_action strftime utcnow p admin_id
                              action)))
  /\ NoDup (admin_ids (Admin.clear_logs strftime utcnow p)).
Proof.
  unfold admin_ids. intros Hnd.
  unfold Admin.add_admin, Admin.remove_admin, Admin.update_admin_role,
    Admin.record_action, Admin.clear_logs, Admin.admins_mem.
  destruct (Admin.admins_get (Admin.admins p) admin_id) eqn:E;
    cbn [snd Admin._log Admin.admins];
    rewrite ?admins_set_ids by congruence;
    repeat apply conj; try assumption; try (now apply admins_del_ids).
  rewrite admins_set_fresh by assumption. rewrite map_app. cbn.
  apply NoDup_app; [assumption | repeat constructor; cbn; tauto |].
  intros x Hx [<-|[]]. now apply admins_get_None in E.
Qed.

(** X21.  [handle_admin_creation] succeeds exactly when the role, put in
    upper case, names a member of [AdminRole] and the identifier is new; a
    role that names no member leaves the panel as it was, log included,
    while a known role with a used identifier is logged. *)
Theorem handle_admin_creation_outcomes utcnow p (admin_id : Z)
    (username role : string) :
  let outcome :=
    Admin.handle_admin_creation strftime utcnow p admin_id username role in
  match Admin.by_name (str_upper role) with
  | None =>
      outcome
      = ([ ("success", Admin.VBool false);
           ("message", Admin.VStr ("Invalid role: " ++ role));
           ("admin_id", Admin.VInt admin_id) ], p)
  | Some member =>
      str_upper role = Admin.name member
      /\ fst outcome
         = [ ("success",
              Admin.VBool (negb (Admin.admins_mem (Admin.admins p) admin_id)));
             ("message",
              Admin.VStr
                (if Admin.admins_mem (Admin.admins p) admin_id
                 then "Admin already exists"
                 else "Admin " ++ username ++ " created successfully"));
             ("admin_id", Admin.VInt admin_id) ]
      /\ snd outcome
         = snd (Admin.add_admin strftime utcnow p admin_id username member)
      /\ List.length (Admin.logs (snd outcome))
         = S (List.length (Admin.logs p))
  end.
Proof.
  cbv zeta. unfold Admin.handle_admin_creation.
  destruct (Admin.by_name (str_upper role)) as [member|] eqn:E;
    [|reflexivity].
  split.
  { unfold Admin.by_name in E. apply find_some in E.
    destruct E as [_ E]. apply String.eqb_eq in E. now symmetry. }
  unfold Admin.add_admin.
  destruct (Admin.admins_mem (Admin.admins p) admin_id);
    cbn [fst snd negb Admin._log Admin.logs]; repeat apply conj;
    try reflexivity; rewrite length_app; cbn; lia.
Qed.

End AdminPanelProperties.

Lemma remove_admin_effect_witness :
  Admin.get_admin
    (snd (Admin.remove_admin (fun (t : nat) (_ : string) => "2026-01-08")
            (fun n => n)
            (Admin.mkAdminPanel
               [ (7, Admin.mkAdminInfo "root" Admin.SUPER_ADMIN 1%nat None);
                 (9, Admin.mkAdminInfo "mod" Admin.MODERATOR 2%nat None) ]
               0%nat [])
            7))
    7
  = None.
Proof.
  apply (remove_admin_effect nat (fun (t : nat) (_ : string) => "2026-01-08")
           (fun n => n)
           (Admin.mkAdminPanel
              [ (7, Admin.mkAdminInfo "root" Admin.SUPER_ADMIN 1%nat None);
                (9, Admin.mkAdminInfo "mod" Admin.MODERATOR 2%nat None) ]
              0%nat [])
           7 9).
  cbn. repeat (constructor; [cbn; lia|]). constructor.
Defined.

Lemma remove_after_add_witness :
  Admin.admins
    (snd (Admin.remove_admin (fun (t : nat) (_ : string) => "2026-01-08")
            (fun n => n)
            (snd (Admin.add_admin (fun (t : nat) (_ : string) => "2026-01-08")
                    (fun n => n) (Admin.init 0%nat) 7 "root"
                    Admin.SUPER_ADMIN)) 7))
  = Admin.admins (Admin.init 0%nat).
Proof.
  apply (remove_after_add nat (fun (t : nat) (_ : string) => "2026-01-08")
           (fun n => n) (fun n => n) (Admin.init 0%nat) 7 "root"
           Admin.SUPER_ADMIN).
  reflexivity.
Defined.

(* ================================================================== *)
(** * Properties of the database connection *)

Section DbProperties.

Variable db : nat -> Db.Op -> Db.Outcome.

Lemma db_run_bind (A B : Type) (m : Db.Prog A) (f : A -> Db.Prog B) (n : nat) :
  Db.run db n (Db.bind m f)
  = match snd (Db.run db n m) with
    | inl a =>
        (List.app (fst (Db.run db n m))
           (fst (Db.run db (n + List.length (fst (Db.run db n m))) (f a))),
         snd (Db.run db (n + List.length (fst (Db.run db n m))) (f a)))
    | inr e => (fst (Db.run db n m), inr e)
    end.
Proof.
  revert n. induction m as [a|e|op k IH]; intros n; cbn [Db.bind Db.run].
  - cbn. rewrite Nat.add_0_r. now destruct (Db.run db n (f a)).
  - reflexivity.
  - rewrite (IH (db n op) (S n)).
    destruct (Db.run db (S n) (k (db n op))) as [t r]; cbn [fst snd].
    destruct r as [a|e]; cbn [fst snd List.length List.app];
      [|reflexivity].
    now replace (n + S (List.length t))%nat with (S n + List.length t)%nat
      by lia.
Qed.

Lemma db_run_try_except (A : Type) (m : Db.Prog A)
    (h : Db.Raised -> Db.Prog A) (n : nat) :
  Db.run db n (Db.try_except_Exception m h)
  = match snd (Db.run db n m) with
    | inl a => (fst (Db.run db n m), inl a)
    | inr e =>
        if Db.is_Exception e then
          (List.app (fst (Db.run db n m))
             (fst (Db.run db (n + List.length (fst (Db.run db n m))) (h e))),
           snd (Db.run db (n + List.length (fst (Db.run db n m))) (h e)))
        else (fst (Db.run db n m), inr e)
    end.
Proof.
  revert n. induction m as [a|e|op k IH]; intros n;
    cbn [Db.try_except_Exception Db.run].
  - reflexivity.
  - cbn [fst snd]. destruct (Db.is_Exception e); [|reflexivity].
    cbn. rewrite Nat.add_0_r. now destruct (Db.run db n (h e)).
  - rewrite (IH (db n op) (S n)).
    destruct (Db.run db (S n) (k (db n op))) as [t r]; cbn [fst snd].
    destruct r as [a|e]; cbn [fst snd List.length List.app];
      [reflexivity|].
    replace (n + S (List.length t))%nat with (S n + List.length t)%nat
      by lia.
    now destruct (Db.is_Exception e).
Qed.

Lemma db_run_try_finally (A : Type) (m : Db.Prog A) (c : Db.Prog unit)
    (n : nat) :
  Db.run db n (Db.try_finally m c)
  = (List.app (fst (Db.run db n m))
       (fst (Db.run db (n + List.length (fst (Db.run db n m))) c)),
     match snd (Db.run db (n + List.length (fst (Db.run db n m))) c) with
     | inl _ => snd (Db.run db n m)
     | inr e => inr e
     end).
Proof.
  revert n. induction m as [a|e|op k IH]; intros n;
    cbn [Db.try_finally Db.run].
  - rewrite db_run_bind. cbn [fst snd List.length List.app].
    rewrite Nat.add_0_r.
    destruct (Db.run db n c) as [t [u|e]]; cbn; [|reflexivity].
    now rewrite app_nil_r.
  - rewrite db_run_bind. cbn [fst snd List.length List.app].
    rewrite Nat.add_0_r.
    destruct (Db.run db n c) as [t [u|e']]; cbn; [|reflexivity].
    now rewrite app_nil_r.
  - rewrite (IH (db n op) (S n)).
    destruct (Db.run db (S n) (k (db n op))) as [t r]; cbn [fst snd].
    cbn [List.length List.app].
    now replace (n + S (List.length t))%nat with (S n + List.length t)%nat
      by lia.
Qed.

Lemma db_run_call (op : Db.Op) (n : nat) :
  Db.run db n (Db.call op)
  = ([op], match db n op with
           | Db.Returns _ _ => inl tt
           | Db.Raises e => inr e
           end).
Proof. unfold Db.call. cbn. now destruct (db n op). Qed.

Lemma plain_trace (A : Type) (m : Db.Prog A) (n : nat) :
  Db.plain m -> forallb body_op (fst (Db.run db n m)) = true.
Proof.
  revert n. induction m as [a|e|op k IH]; intros n Hp; cbn [Db.run].
  - reflexivity.
  - reflexivity.
  - cbn [Db.plain] in Hp.
    specialize (IH (db n op) (S n)).
    destruct (Db.run db (S n) (k (db n op))) as [t r]; cbn [fst] in *.
    cbn [forallb]. destruct op; try contradiction; cbn [body_op andb];
      apply IH, Hp.
Qed.

End DbProperties.

Section DbConnection.

Variable db : nat -> Db.Op -> Db.Outcome.
Variable A : Type.
Variable db_path : string.
Variable body : Db.Prog A.

(** The calls between [Connect] and [Close] and the outcome before the
    connection is closed, from the calls and the outcome of the body. *)
Lemma get_connection_run :
  let tb := fst (Db.run db 1 body) in
  Db.run db 0 (Db.get_connection db_path body)
  = match db 0%nat (Db.Connect db_path) with
    | Db.Raises e => ([Db.Connect db_path], inr e)
    | Db.Returns _ _ =>
        let inner :=
          Db.run db 1
            (Db.try_except_Exception
               (Db.bind body
                  (fun a => Db.bind (Db.call Db.Commit) (fun _ => Db.Ret a)))
               (fun e => Db.bind (Db.call Db.Rollback)
                           (fun _ => Db.Fail e))) in
        (Db.Connect db_path :: List.app (fst inner) [Db.Close],
         match db (1 + List.length (fst inner))%nat Db.Close with
         | Db.Returns _ _ => snd inner
         | Db.Raises e => inr e
         end)
    end.
Proof.
  cbv zeta. unfold Db.get_connection.
  rewrite db_run_bind, db_run_call. cbn [fst snd List.length Nat.add].
  destruct (db 0%nat (Db.Connect db_path)) as [rows rc|e]; [|reflexivity].
  rewrite db_run_try_finally, db_run_call. cbn [fst snd List.app].
  destruct (db _ Db.Close); reflexivity.
Qed.

Lemma inner_run :
  let tb := fst (Db.run db 1 body) in
  let commit := db (1 + List.length tb)%nat Db.Commit in
  Db.run db 1
    (Db.try_except_Exception
       (Db.bind body
          (fun a => Db.bind (Db.call Db.Commit) (fun _ => Db.Ret a)))
       (fun e => Db.bind (Db.call Db.Rollback) (fun _ => Db.Fail e)))
  = match snd (Db.run db 1 body) with
    | inl a =>
        match commit with
        | Db.Returns _ _ => (List.app tb [Db.Commit], inl a)
        | Db.Raises e =>
            if Db.is_Exception e then
              (List.app tb [Db.Commit; Db.Rollback],
               match db (2 + List.length tb)%nat Db.Rollback with
               | Db.Returns _ _ => inr e
               | Db.Raises e' => inr e'
               end)
            else (List.app tb [Db.Commit], inr e)
        end
    | inr e =>
        if Db.is_Exception e then
          (List.app tb [Db.Rollback],
           match db (1 + List.length tb)%nat Db.Rollback with
           | Db.Returns _ _ => inr e
           | Db.Raises e' => inr e'
           end)
        else (tb, inr e)
    end.
Proof.
  cbv zeta. rewrite db_run_try_except, db_run_bind.
  destruct (Db.run db 1 body) as [tb [a|e]]; cbn [fst snd].
  - rewrite db_run_bind, db_run_call. cbn [fst snd].
    destruct (db (1 + List.length tb)%nat Db.Commit) as [rows rc|e];
      cbn [fst snd Db.run List.app]; [reflexivity|].
    destruct (Db.is_Exception e); [|reflexivity].
    rewrite db_run_bind, db_run_call. cbn [fst snd].
    rewrite length_app. cbn [List.length].
    replace (1 + (List.length tb + 1))%nat with (2 + List.length tb)%nat
      by lia.
    rewrite <- app_assoc. cbn [List.app].
    destruct (db (2 + List.length tb)%nat Db.Rollback); cbn;
      rewrite ?app_nil_r; reflexivity.
  - destruct (Db.is_Exception e); [|reflexivity].
    rewrite db_run_bind, db_run_call. cbn [fst snd].
    destruct (db (1 + List.length tb)%nat Db.Rollback); cbn;
      rewrite ?app_nil_r; reflexivity.
Qed.

Lemma forallb_inner_body (t : list Db.Op) :
  forallb body_op t = true -> forallb inner_op t = true.
Proof.
  induction t as [|op t IH]; cbn; [reflexivity|].
  intros H. apply andb_true_iff in H. destruct H as [H1 H2].
  unfold inner_op at 1. now rewrite H1, IH.
Qed.

Lemma body_op_not (t : list Db.Op) (op : Db.Op) :
  forallb body_op t = true -> body_op op = false -> ~ In op t.
Proof.
  intros H Hop Hin. rewrite forallb_forall in H.
  specialize (H op Hin). congruence.
Qed.

(** X22.  Around a body that leaves the connection alone,
    [get_connection] closes what it opened: when [sqlite3.connect] raises,
    nothing else is called and the error reaches the caller; otherwise
    the calls are [connect], then calls other than [connect] and [close],
    then [close], once and last, whatever the body and the database do. *)
Theorem get_connection_closes :
  Db.plain body ->
  match db 0%nat (Db.Connect db_path) with
  | Db.Raises e =>
      Db.run db 0 (Db.get_connection db_path body)
      = ([Db.Connect db_path], inr e)
  | Db.Returns _ _ =>
      exists mid,
        fst (Db.run db 0 (Db.get_connection db_path body))
        = Db.Connect db_path :: List.app mid [Db.Close]
        /\ forallb inner_op mid = true
  end.
Proof.
  intros Hp. pose proof (plain_trace db A body 1 Hp) as Hb.
  rewrite get_connection_run. cbv zeta.
  destruct (db 0%nat (Db.Connect db_path)) as [rows rc|e]; [|reflexivity].
  eexists. split; [reflexivity|].
  rewrite inner_run. cbv zeta.
  destruct (snd (Db.run db 1 body)) as [a|e].
  - destruct (db _ Db.Commit) as [rows' rc'|e]; cbn [fst].
    + rewrite forallb_app, (forallb_inner_body _ Hb). reflexivity.
    + destruct (Db.is_Exception e); cbn [fst];
        rewrite forallb_app, (forallb_inner_body _ Hb); reflexivity.
  - destruct (Db.is_Exception e); cbn [fst].
    + rewrite forallb_app, (forallb_inner_body _ Hb). reflexivity.
    + now apply forallb_inner_body.
Qed.

(** X23.  A value comes back from [get_connection] only after a commit
    and without any rollback, and it is the value of the body; once a
    rollback has been called, the caller gets an exception. *)
Theorem get_connection_commits_or_raises :
  Db.plain body ->
  let outcome := Db.run db 0 (Db.get_connection db_path body) in
  match snd outcome with
  | inl a =>
      snd (Db.run db 1 body) = inl a
      /\ In Db.Commit (fst outcome) /\ ~ In Db.Rollback (fst outcome)
  | inr _ => True
  end
  /\ (if existsb Db.op_eqb_Rollback (fst outcome)
      then exists e, snd outcome = inr e else True).
Proof.
  intros Hp. pose proof (plain_trace db A body 1 Hp) as Hb.
  assert (HnR : ~ In Db.Rollback (fst (Db.run db 1 body)))
    by (now apply body_op_not).
  assert (HeR : existsb Db.op_eqb_Rollback (fst (Db.run db 1 body)) = false).
  { destruct (existsb _ _) eqn:E; [|reflexivity].
    apply existsb_exists in E. destruct E as (op & Hin & Hop).
    destruct op; try discriminate. contradiction. }
  cbv zeta. rewrite get_connection_run. cbv zeta.
  destruct (db 0%nat (Db.Connect db_path)) as [rows rc|e];
    [|split; [exact I | reflexivity]].
  rewrite inner_run. cbv zeta.
  destruct (snd (Db.run db 1 body)) as [a|e].
  - destruct (db _ Db.Commit) as [rows' rc'|e]; cbn [fst snd].
    + split.
      * destruct (db _ Db.Close); [|exact I].
        repeat apply conj; [reflexivity | |].
        -- right. apply in_or_app. left. apply in_or_app. right. now left.
        -- intros [H|H]; [discriminate|].
           apply in_app_or in H. destruct H as [H|[H|[]]]; [|discriminate].
           apply in_app_or in H. destruct H as [H|[H|[]]];
             [contradiction | discriminate].
      * cbn [existsb Db.op_eqb_Rollback orb].
        rewrite !existsb_app, HeR. reflexivity.
    + destruct (Db.is_Exception e); cbn [fst snd].
      * split.
        -- destruct (db _ Db.Close); [|exact I].
           now destruct (db _ Db.Rollback).
        -- cbn [existsb Db.op_eqb_Rollback orb].
           rewrite !existsb_app. cbn [existsb Db.op_eqb_Rollback orb].
           rewrite HeR. cbn [orb].
           destruct (db _ Db.Close); [|eexists; reflexivity].
           destruct (db _ Db.Rollback); eexists; reflexivity.
      * split.
        -- now destruct (db _ Db.Close).
        -- cbn [existsb Db.op_eqb_Rollback orb].
           rewrite !existsb_app, HeR. reflexivity.
  - destruct (Db.is_Exception e); cbn [fst snd].
    + split.
      * destruct (db _ Db.Close); [|exact I].
        now destruct (db _ Db.Rollback).
      * cbn [existsb Db.op_eqb_Rollback orb].
        rewrite !existsb_app. cbn [existsb Db.op_eqb_Rollback orb].
        rewrite HeR. cbn [orb].
        destruct (db _ Db.Close); [|eexists; reflexivity].
        destruct (db _ Db.Rollback); eexists; reflexivity.
    + split.
      * now destruct (db _ Db.Close).
      * cbn [existsb Db.op_eqb_Rollback orb].
        rewrite !existsb_app, HeR. reflexivity.
Qed.

(** X24.  When the body raises an exception that derives from
    [Exception] and both the rollback and the closing return, that very
    exception reaches the caller, after the calls of the body, one
    rollback and the closing, and no commit. *)
Theorem get_connection_reraises (e : Db.Raised) :
  Db.plain body ->
  let tb := fst (Db.run db 1 body) in
  db_ok (db 0%nat (Db.Connect db_path)) = true ->
  snd (Db.run db 1 body) = inr e ->
  Db.is_Exception e = true ->
  db_ok (db (1 + List.length tb)%nat Db.Rollback) = true ->
  db_ok (db (2 + List.length tb)%nat Db.Close) = true ->
  Db.run db 0 (Db.get_connection db_path body)
  = (Db.Connect db_path :: List.app tb [Db.Rollback; Db.Close], inr e)
  /\ ~ In Db.Commit
       (fst (Db.run db 0 (Db.get_connection db_path body))).
Proof.
  intros Hp. cbv zeta. intros Hc Hb He Hr Hcl.
  pose proof (plain_trace db A body 1 Hp) as Hplain.
  assert (E : Db.run db 0 (Db.get_connection db_path body)
              = (Db.Connect db_path
                   :: List.app (fst (Db.run db 1 body))
                        [Db.Rollback; Db.Close], inr e)).
  { rewrite get_connection_run. cbv zeta.
    destruct (db 0%nat (Db.Connect db_path)); [|discriminate].
    rewrite inner_run. cbv zeta. rewrite Hb, He. cbn [fst snd].
    rewrite length_app. cbn [List.length].
    replace (1 + (List.length (fst (Db.run db 1 body)) + 1))%nat
      with (2 + List.length (fst (Db.run db 1 body)))%nat by lia.
    destruct (db (2 + _)%nat Db.Close); [|discriminate].
    destruct (db (1 + _)%nat Db.Rollback); [|discriminate].
    now rewrite <- app_assoc. }
  split; [exact E|]. rewrite E. cbn [fst].
  intros [H|H]; [discriminate|].
  apply in_app_or in H. destruct H as [H|[H|[H|[]]]]; try discriminate.
  revert H. now apply body_op_not.
Qed.

End DbConnection.

Lemma method_bodies_plain (query : string) (params : list PyValue)
    (params_list : list (list PyValue)) :
  Db.plain
    (Db.bind (Db.call Db.Cursor)
       (fun _ =>
          Db.bind (Db.call (Db.Execute query params))
            (fun _ =>
               Db.Call Db.FetchAll
                 (fun o => match o with
                           | Db.Returns rows _ => Db.Ret rows
                           | Db.Raises e => Db.Fail e
                           end))))
  /\ Db.plain
       (Db.bind (Db.call Db.Cursor)
          (fun _ =>
             Db.Call (Db.Execute query params)
               (fun o => match o with
                         | Db.Returns _ rowcount => Db.Ret rowcount
                         | Db.Raises e => Db.Fail e
                         end)))
  /\ Db.plain
       (Db.bind (Db.call Db.Cursor)
          (fun _ =>
             Db.Call (Db.ExecuteMany query params_list)
               (fun o => match o with
                         | Db.Returns _ rowcount => Db.Ret rowcount
                         | Db.Raises e => Db.Fail e
                         end)))
  /\ Db.plain
       (Db.bind (Db.call Db.Cursor)
          (fun _ => Db.call (Db.Execute query []))).
Proof.
  repeat apply conj; cbn; intros [r c|e]; cbn; try exact I;
    intros [r' c'|e']; cbn; try exact I; intros [r2 c2|e2]; exact I.
Qed.

(** X25.  When every call on the database returns, each method opens the
    connection, takes a cursor, runs its statement, commits and closes, in
    this order: [execute_query] returns the rows fetched,
    [execute_update] and [execute_many] the row count of the cursor, and
    [create_table] and [drop_table] run the statement built from the
    table name as it is given. *)
Theorem methods_commit_and_close
    (db : nat -> Db.Op -> Db.Outcome) (db_path query table_name schema : string)
    (params : list PyValue) (params_list : list (list PyValue)) :
  (forall n op, db_ok (db n op) = true) ->
  Db.run db 0 (Db.execute_query db_path query params)
  = ([Db.Connect db_path; Db.Cursor; Db.Execute query params; Db.FetchAll;
      Db.Commit; Db.Close],
     inl (rows_of (db 3%nat Db.FetchAll)))
  /\ Db.run db 0 (Db.execute_update db_path query params)
     = ([Db.Connect db_path; Db.Cursor; Db.Execute query params; Db.Commit;
         Db.Close],
        inl (rowcount_of (db 2%nat (Db.Execute query params))))
  /\ Db.run db 0 (Db.execute_many db_path query params_list)
     = ([Db.Connect db_path; Db.Cursor; Db.ExecuteMany query params_list;
         Db.Commit; Db.Close],
        inl (rowcount_of (db 2%nat (Db.ExecuteMany query params_list))))
  /\ Db.run db 0 (Db.create_table db_path table_name schema)
     = ([Db.Connect db_path; Db.Cursor;
         Db.Execute
           ("CREATE TABLE IF NOT EXISTS " ++ table_name ++ " (" ++ schema
              ++ ")") [];
         Db.Commit; Db.Close], inl tt)
  /\ Db.run db 0 (Db.drop_table db_path table_name)
     = ([Db.Connect db_path; Db.Cursor;
         Db.Execute ("DROP TABLE IF EXISTS " ++ table_name) [];
         Db.Commit; Db.Close], inl tt).
Proof.
  intros Hall.
  assert (H : forall n op, exists rows rc, db n op = Db.Returns rows rc).
  { intros n op. specialize (Hall n op).
    destruct (db n op) as [rows rc|e]; [now exists rows, rc | discriminate]. }
  unfold Db.execute_query, Db.execute_update, Db.execute_many,
    Db.create_table, Db.drop_table, Db.get_connection, Db.call.
  repeat apply conj; cbn [Db.bind Db.try_except_Exception Db.try_finally
                          Db.run];
    repeat match goal with
      | |- context [db ?n ?op] =>
          let rows := fresh "rows" in
          let rc := fresh "rc" in
          let E := fresh "E" in
          destruct (H n op) as (rows & rc & E); rewrite E;
          cbn [Db.bind Db.try_except_Exception Db.try_finally Db.run
               rows_of rowcount_of]
      end; reflexivity.
Qed.

Lemma methods_commit_and_close_witness :
  Db.run (fun _ _ => Db.Returns [] 1) 0
    (Db.execute_update "app.db" "DELETE FROM users WHERE id = ?"
       [PyNumber "7"])
  = ([Db.Connect "app.db"; Db.Cursor;
      Db.Execute "DELETE FROM users WHERE id = ?" [PyNumber "7"]; Db.Commit;
      Db.Close], inl 1).
Proof.
  apply (methods_commit_and_close (fun _ _ => Db.Returns [] 1) "app.db"
           "DELETE FROM users WHERE id = ?" "users" "id INTEGER"
           [PyNumber "7"] []).
  reflexivity.
Defined.

Lemma get_connection_closes_witness :
  exists mid,
    fst (Db.run
           (fun n op =>
              match op with
              | Db.Execute _ _ =>
                  Db.Raises (Db.mkRaised "IntegrityError"
                               "UNIQUE constraint failed: users.email" true)
              | _ => Db.Returns [] 0
              end)
           0
           (Db.execute_update "app.db" "INSERT INTO users VALUES (?)"
              [PyStr "a@b.c"]))
    = Db.Connect "app.db" :: List.app mid [Db.Close]
    /\ forallb inner_op mid = true.
Proof.
  apply (get_connection_closes
           (fun n op =>
              match op with
              | Db.Execute _ _ =>
                  Db.Raises (Db.mkRaised "IntegrityError"
                               "UNIQUE constraint failed: users.email" true)
              | _ => Db.Returns [] 0
              end)
           Z "app.db").
  apply (method_bodies_plain "INSERT INTO users VALUES (?)" [PyStr "a@b.c"]
           []).
Defined.

Lemma get_connection_commits_or_raises_witness :
  In Db.Commit
    (fst (Db.run (fun _ _ => Db.Returns [] 1) 0
            (Db.execute_update "app.db" "DELETE FROM users" [])))
  /\ ~ In Db.Rollback
         (fst (Db.run (fun _ _ => Db.Returns [] 1) 0
                 (Db.execute_update "app.db" "DELETE FROM users" []))).
Proof.
  exact (proj2 (proj1 (get_connection_commits_or_raises
                         (fun _ _ => Db.Returns [] 1) Z "app.db" _
                         (proj1 (proj2 (method_bodies_plain
                                          "DELETE FROM users" [] [])))))).
Defined.

Lemma get_connection_reraises_witness :
  Db.run
    (fun n op =>
       match op with
       | Db.Execute _ _ =>
           Db.Raises (Db.mkRaised "IntegrityError"
                        "UNIQUE constraint failed: users.email" true)
       | _ => Db.Returns [] 0
       end)
    0
    (Db.execute_update "app.db" "INSERT INTO users VALUES (?)"
       [PyStr "a@b.c"])
  = ([Db.Connect "app.db"; Db.Cursor;
      Db.Execute "INSERT INTO users VALUES (?)" [PyStr "a@b.c"];
      Db.Rollback; Db.Close],
     inr (Db.mkRaised "IntegrityError"
            "UNIQUE constraint failed: users.email" true)).
Proof.
  apply (get_connection_reraises
           (fun n op =>
              match op with
              | Db.Execute _ _ =>
                  Db.Raises (Db.mkRaised "IntegrityError"
                               "UNIQUE constraint failed: users.email" true)
              | _ => Db.Returns [] 0
              end)
           Z "app.db" _
           (Db.mkRaised "IntegrityError"
              "UNIQUE constraint failed: users.email" true)
           (proj1 (proj2 (method_bodies_plain "INSERT INTO users VALUES (?)"
                            [PyStr "a@b.c"] []))));
    reflexivity.
Defined.
